(** * Question-paper generator: fallback pipeline, topic locator, formatter

    Shallow embedding of [src/app.py] (class [QuestionPaperGenerator]).

    Python [str] values are modelled as [string], a character being a
    code point below 256.  On that range white space ([str.isspace],
    [strip], the regex class [\s]), [lower], the regex class [\d] and the
    case folding of [re.IGNORECASE] are Python's own tables; [title]'s
    upper-casing, [isalnum] and [isdigit] are the ASCII fragment of their
    Python counterparts (a character above 127 has no upper case below 256
    in general, so it is left as it is and counts as not alphanumeric).
    NLTK's tokenizers and stop-word list, the process-wide random source,
    the clock and the Groq client are external to the repository and are
    parameters of the model. *)

From Stdlib Require Import ZArith Ascii String List Lia DecimalString Sorted.
From stdpp Require Import base option list strings gmap.

Local Open Scope nat_scope.

#[local] Arguments String.append : simpl nomatch.
#[local] Arguments Ascii.eqb : simpl never.

(** ** Python string primitives *)

Module PyStr.

Definition is_upper (c : ascii) : bool :=
  let n := nat_of_ascii c in (65 <=? n) && (n <=? 90).

Definition is_lower (c : ascii) : bool :=
  let n := nat_of_ascii c in (97 <=? n) && (n <=? 122).

Definition is_digit (c : ascii) : bool :=
  let n := nat_of_ascii c in (48 <=? n) && (n <=? 57).

Definition is_cased (c : ascii) : bool := is_upper c || is_lower c.

Definition is_alnum_char (c : ascii) : bool := is_cased c || is_digit c.

(** [str.isspace] on one character: TAB..CR, FS..US, the blank, the next
    line control U+0085 and the no-break space U+00A0. *)
Definition is_space (c : ascii) : bool :=
  let n := nat_of_ascii c in
  ((9 <=? n) && (n <=? 13)) || ((28 <=? n) && (n <=? 32))
  || (n =? 133) || (n =? 160).

(** The characters that [str.lower] changes: A..Z and the capitals
    U+00C0..U+00DE without the multiplication sign U+00D7. *)
Definition has_lower (c : ascii) : bool :=
  let n := nat_of_ascii c in
  is_upper c || ((192 <=? n) && (n <=? 222) && negb (n =? 215)).

Definition lower_char (c : ascii) : ascii :=
  if has_lower c then ascii_of_nat (nat_of_ascii c + 32) else c.

Definition upper_char (c : ascii) : ascii :=
  if is_lower c then ascii_of_nat (nat_of_ascii c - 32) else c.

(** [len(s)] *)
Definition len (s : string) : nat := String.length s.

(** [s.lower()] *)
Fixpoint lower (s : string) : string :=
  match s with
  | EmptyString => EmptyString
  | String c s' => String (lower_char c) (lower s')
  end.

(** [s.title()]: a cased character is upper-cased when the previous
    character is uncased (or absent) and lower-cased otherwise. *)
Fixpoint title_go (prev_cased : bool) (s : string) : string :=
  match s with
  | EmptyString => EmptyString
  | String c s' =>
      String (if prev_cased then lower_char c else upper_char c)
             (title_go (is_cased c) s')
  end.

Definition title (s : string) : string := title_go false s.

Fixpoint all_chars (p : ascii -> bool) (s : string) : bool :=
  match s with
  | EmptyString => true
  | String c s' => p c && all_chars p s'
  end.

(** [s.isalnum()]: false on the empty string. *)
Definition isalnum (s : string) : bool :=
  match s with
  | EmptyString => false
  | _ => all_chars is_alnum_char s
  end.

Fixpoint lstrip (s : string) : string :=
  match s with
  | EmptyString => EmptyString
  | String c s' => if is_space c then lstrip s' else s
  end.

Fixpoint rstrip (s : string) : string :=
  match s with
  | EmptyString => EmptyString
  | String c s' =>
      match rstrip s' with
      | EmptyString => if is_space c then EmptyString else String c EmptyString
      | r => String c r
      end
  end.

(** [s.strip()] *)
Definition strip (s : string) : string := rstrip (lstrip s).

(** [s.startswith(p)] *)
Fixpoint startswith (p s : string) : bool :=
  match p, s with
  | EmptyString, _ => true
  | String a p', String b s' => Ascii.eqb a b && startswith p' s'
  | String _ _, EmptyString => false
  end.

(** [sub in s] *)
Fixpoint contains (sub s : string) : bool :=
  startswith sub s ||
  match s with
  | EmptyString => false
  | String _ s' => contains sub s'
  end.

Fixpoint drop (n : nat) (s : string) : string :=
  match n, s with
  | O, _ => s
  | S n', String _ s' => drop n' s'
  | S _, EmptyString => EmptyString
  end.

(** [s[:n]] for a non-negative [n] *)
Fixpoint take (n : nat) (s : string) : string :=
  match n, s with
  | S n', String c s' => String c (take n' s')
  | _, _ => EmptyString
  end.

(** [s.replace(old, new, 1)] *)
Fixpoint replace_first (old new s : string) : string :=
  if startswith old s then new +:+ drop (len old) s
  else match s with
       | EmptyString => EmptyString
       | String c s' => String c (replace_first old new s')
       end.

(** [s.split(sep)] for a one-character separator; never returns [[]]. *)
Fixpoint split (sep : ascii) (s : string) : list string :=
  match s with
  | EmptyString => [EmptyString]
  | String c s' =>
      if Ascii.eqb c sep then EmptyString :: split sep s'
      else match split sep s' with
           | l :: ls => String c l :: ls
           | [] => [String c EmptyString]
           end
  end.

(** [sep.join(l)] *)
Fixpoint join (sep : string) (l : list string) : string :=
  match l with
  | [] => EmptyString
  | [x] => x
  | x :: l' => x +:+ sep +:+ join sep l'
  end.

(** [c * n] *)
Fixpoint repeat_char (c : ascii) (n : nat) : string :=
  match n with
  | O => EmptyString
  | S n' => String c (repeat_char c n')
  end.

(** [str(i)] for a non-negative integer *)
Definition of_nat (n : nat) : string := NilZero.string_of_uint (Nat.to_uint n).

Definition nl : ascii := ascii_of_nat 10.
Definition NL : string := String nl EmptyString.

End PyStr.

(** ** The fragment of Python's [re] used by the topic locator

    Every pattern of [find_topic_content] is a sequence of single-character
    atoms (a literal, [\s] or [\d]), each carrying at most one quantifier.
    Only the truth value of [re.search] is observed, so the matcher decides
    whether some match exists. *)

Module Re.

Inductive atom : Type :=
| Lit (c : ascii)
| Space
| Digit.

Inductive quant : Type :=
| One
| Opt
| Star
| Plus.

Definition regex : Type := list (atom * quant).

(** [ic] is the [re.IGNORECASE] flag: two characters below 256 match
    without regard to case exactly when their lower-case forms are equal. *)
Definition atom_ok (ic : bool) (a : atom) (x : ascii) : bool :=
  match a with
  | Lit c =>
      if ic then bool_decide (PyStr.lower_char x = PyStr.lower_char c)
      else bool_decide (x = c)
  | Space => PyStr.is_space x
  | Digit => PyStr.is_digit x
  end.

(** [match_here ic p s]: the pattern matches a prefix of [s]. *)
Fixpoint match_here (ic : bool) (p : regex) (s : string) {struct p} : bool :=
  match p with
  | [] => true
  | (a, q) :: p' =>
      let many :=
        fix many (s : string) : bool :=
          match_here ic p' s ||
          match s with
          | String c s' => atom_ok ic a c && many s'
          | EmptyString => false
          end in
      match q with
      | One =>
          match s with
          | String c s' => atom_ok ic a c && match_here ic p' s'
          | EmptyString => false
          end
      | Opt =>
          match_here ic p' s ||
          match s with
          | String c s' => atom_ok ic a c && match_here ic p' s'
          | EmptyString => false
          end
      | Star => many s
      | Plus =>
          match s with
          | String c s' => atom_ok ic a c && many s'
          | EmptyString => false
          end
      end
  end.

(** [re.search(p, s)] as a truth value: a match starts at some offset. *)
Fixpoint search (ic : bool) (p : regex) (s : string) : bool :=
  match_here ic p s ||
  match s with
  | String _ s' => search ic p s'
  | EmptyString => false
  end.

(** A literal run of characters; [re.escape] makes every character of
    its argument match itself. *)
Fixpoint lit (s : string) : regex :=
  match s with
  | EmptyString => []
  | String c s' => (Lit c, One) :: lit s'
  end.

Definition escape (s : string) : regex := lit s.

End Re.

(** ** Python's [random] module as an error-and-state monad

    The process-wide generator is a tape of naturals; [randbelow n] consumes
    one cell and reduces it modulo [n] (an exhausted tape yields 0).  Every
    sequence of draws the real generator can make is the run of some tape,
    so a statement quantified over all tapes covers every random outcome. *)

Module Random.

Inductive exn : Type :=
| IndexError
| ValueError.

Definition rng : Type := list nat.

Inductive result (A : Type) : Type :=
| Ok (a : A) (g : rng)
| Raise (e : exn).
Arguments Ok {A} a g.
Arguments Raise {A} e.

Definition M (A : Type) : Type := rng -> result A.

Definition ret {A} (a : A) : M A := fun g => Ok a g.

Definition raise {A} (e : exn) : M A := fun _ => Raise e.

Definition bind {A B} (m : M A) (k : A -> M B) : M B :=
  fun g => match m g with
           | Ok a g' => k a g'
           | Raise e => Raise e
           end.

Definition randbelow (n : nat) : M nat :=
  fun g => match g with
           | [] => Ok 0 []
           | x :: g' => Ok (x mod n) g'
           end.

(** [seq[i]] for a non-negative index; [IndexError] out of range. *)
Definition index {A} (l : list A) (i : nat) : M A :=
  match l !! i with
  | Some x => ret x
  | None => raise IndexError
  end.

(** [random.choice(seq)]: [IndexError] on an empty sequence. *)
Definition choice {A} (l : list A) : M A :=
  match l with
  | [] => raise IndexError
  | _ => bind (randbelow (length l)) (index l)
  end.

(** [random.sample(population, k)] by the pool algorithm: the [i]-th draw
    picks [pool[j]] with [j < n - i] and moves [pool[n-i-1]] into the hole.
    [ValueError] when the sample is larger than the population. *)
Fixpoint sample_go {A} (pool : list A) (k : nat) : M (list A) :=
  match k with
  | O => ret []
  | S k' =>
      bind (randbelow (length pool)) (fun j =>
      bind (index pool j) (fun x =>
      let pool' :=
        match last pool with
        | Some y => take (length pool - 1) (<[j := y]> pool)
        | None => pool
        end in
      bind (sample_go pool' k') (fun rest =>
      ret (x :: rest))))
  end.

Definition sample {A} (population : list A) (k : nat) : M (list A) :=
  if length population <? k then raise ValueError
  else sample_go population k.

Definition swap {A} (i j : nat) (x : list A) : list A :=
  match x !! i, x !! j with
  | Some a, Some b => <[i := b]> (<[j := a]> x)
  | _, _ => x
  end.

(** [random.shuffle(x)]: for [i] from [len(x)-1] down to 1, exchange
    [x[i]] with [x[j]], [j] drawn below [i+1]. *)
Fixpoint shuffle_go {A} (i : nat) (x : list A) : M (list A) :=
  match i with
  | O => ret x
  | S i' => bind (randbelow (S i)) (fun j => shuffle_go i' (swap i j x))
  end.

Definition shuffle {A} (x : list A) : M (list A) :=
  shuffle_go (length x - 1) x.

(** [for x in xs: s = body(x, s)] *)
Fixpoint for_each {A S} (xs : list A) (body : A -> S -> M S) (s : S) : M S :=
  match xs with
  | [] => ret s
  | x :: xs' => bind (body x s) (for_each xs' body)
  end.

End Random.

Notation "x <- m ;; k" := (Random.bind m (fun x => k))
  (at level 20, m at level 99, k at level 200, only parsing).

Import Random.

(** [l[:n]] for a Python integer [n]; a negative [n] counts from the end. *)
Definition slice_to {A} (l : list A) (n : Z) : list A :=
  if (0 <=? n)%Z then take (Z.to_nat n) l
  else take (length l - Z.to_nat (- n)) l.

(** [range(min(n, len(l)))]; empty for a negative [n]. *)
Definition range_min {A} (n : Z) (l : list A) : list nat :=
  seq 0 (Z.to_nat (Z.min n (Z.of_nat (length l)))).

(** ** External collaborators *)

(** NLTK: [sent_tokenize], [word_tokenize] and [stopwords.words('english')]. *)
Class Nltk : Type := {
  sent_tokenize : string -> list string;
  word_tokenize : string -> list string;
  stopwords_english : list string
}.

(** ** Data model *)

(** The dictionary built for one multiple-choice question. *)
Record MCQ : Type := {
  question : string;
  options : list string;
  correct_answer : string;
  context : string
}.

(** ** Topic locator: [find_topic_content] *)

Definition heading_prefix (kw : string) : Re.regex :=
  Re.lit kw ++ [(Re.Space, Re.Plus); (Re.Digit, Re.Star); (Re.Space, Re.Star);
                (Re.Lit ":", Re.Opt); (Re.Space, Re.Star)].

(** [chapter\s+\d*\s*:?\s*<topic>], the same for unit and section, and the
    bare topic. *)
Definition topic_patterns (topic : string) : list Re.regex :=
  [ heading_prefix "chapter" ++ Re.escape topic;
    heading_prefix "unit" ++ Re.escape topic;
    heading_prefix "section" ++ Re.escape topic;
    Re.escape topic ].

(** [chapter\s+\d+] and its unit and section variants. *)
Definition heading_number (kw : string) : Re.regex :=
  Re.lit kw ++ [(Re.Space, Re.Plus); (Re.Digit, Re.Plus)].

Definition line_lower (line : string) : string := PyStr.strip (PyStr.lower line).

(** The test that starts (or continues) the capture. *)
Definition topic_match (topic line : string) : bool :=
  existsb (fun p => Re.search true p (line_lower line)) (topic_patterns topic).

(** A line that matches one of [chapter\s+\d+], [unit\s+\d+] and
    [section\s+\d+]. *)
Definition numbered_heading (line : string) : bool :=
  Re.search false (heading_number "chapter") (line_lower line)
  || Re.search false (heading_number "unit") (line_lower line)
  || Re.search false (heading_number "section") (line_lower line).

(** The test that ends the capture, once capturing. *)
Definition other_heading (topic line : string) : bool :=
  numbered_heading line
  && negb (PyStr.contains (PyStr.lower topic) (line_lower line)).

(** The [for] loop over the lines; returning [topic_content] is [break]. *)
Fixpoint locate_loop (topic : string) (lines : list string)
    (capturing : bool) (topic_content : list string) : list string :=
  match lines with
  | [] => topic_content
  | line :: rest =>
      if topic_match topic line then
        locate_loop topic rest true (topic_content ++ [line])
      else if capturing && other_heading topic line then
        topic_content
      else if capturing then
        locate_loop topic rest capturing (topic_content ++ [line])
      else
        locate_loop topic rest capturing topic_content
  end.

Definition find_topic_content `{Nltk} (full_text topic : string) : string :=
  let lines := PyStr.split PyStr.nl full_text in
  match locate_loop topic lines false [] with
  | [] => PyStr.join " " (take 50 (sent_tokenize full_text))
  | topic_content => PyStr.join PyStr.NL topic_content
  end.

(** A line that ends a running capture: no topic pattern matches it and it
    is another numbered heading. *)
Definition stops_capture (topic line : string) : bool :=
  negb (topic_match topic line) && other_heading topic line.

(** ** Fallback question synthesizers *)

Section Fallback.

Context `{Nltk}.

(** [self.stop_words], the set built by [__init__]. *)
Variable stop_words : gset string.

Definition generic_answers : list string :=
  ["None of the above"; "All of the above"; "Not specified"; "Cannot be determined"].

(** [[w.title() for w in word_pool if w != correct_answer.lower()]] *)
Definition candidates (correct_answer : string) (word_pool : list string) : list string :=
  map PyStr.title
      (List.filter (fun w => negb (bool_decide (w = PyStr.lower correct_answer))) word_pool).

Definition generate_wrong_answers (correct_answer : string) (word_pool : list string)
    : M (list string) :=
  let candidates := candidates correct_answer word_pool in
  picked <- sample candidates (Nat.min 2 (length candidates)) ;;
  generic <- sample generic_answers 2 ;;
  ret (take 3 (picked ++ generic)).

(** Content words of the MCQ generator (the sentence is lower-cased first). *)
Definition mcq_words (sentence : string) : list string :=
  List.filter (fun w => PyStr.isalnum w && negb (bool_decide (w ∈ stop_words)))
              (word_tokenize (PyStr.lower sentence)).

Definition blank : string := "______".

Definition context_question (key_word : string) : string :=
  "What is mentioned about " +:+ key_word +:+ " in the following context?".

Definition mcq_question_text (sentence key_word : string) : string :=
  let question_text := PyStr.replace_first key_word blank sentence in
  if bool_decide (question_text = sentence) then context_question key_word
  else question_text.

Definition excerpt (sentence : string) : string :=
  if 100 <? PyStr.len sentence then PyStr.take 100 sentence +:+ "..." else sentence.

(** One iteration of the MCQ loop; returning [mcqs] unchanged is [continue]. *)
Definition mcq_step (sentences : list string) (i : nat) (mcqs : list MCQ) : M (list MCQ) :=
  raw <- index sentences i ;;
  let sentence := PyStr.strip raw in
  if PyStr.len sentence <? 20 then ret mcqs else
  let words := mcq_words sentence in
  if length words <? 3 then ret mcqs else
  key_word <- choice (take (Nat.min 5 (length words)) words) ;;
  let question_text := mcq_question_text sentence key_word in
  let correct := PyStr.title key_word in
  wrong_answers <- generate_wrong_answers correct words ;;
  opts <- shuffle (correct :: take 3 wrong_answers) ;;
  ret (mcqs ++ [ {| question := question_text;
                    options := opts;
                    correct_answer := correct;
                    context := excerpt sentence |} ]).

Definition generate_mcqs_fallback (content : string) (num_questions : Z) : M (list MCQ) :=
  let sentences := sent_tokenize content in
  mcqs <- for_each (range_min num_questions sentences) (mcq_step sentences) [] ;;
  ret (slice_to mcqs num_questions).

Definition question_starters : list string :=
  ["What is"; "Define"; "Explain briefly"; "What are the main";
   "How does"; "Why is"; "What causes"; "List the"].

Definition short_words (sentence : string) : list string :=
  List.filter (fun w => PyStr.isalnum w && (3 <? PyStr.len w)) (word_tokenize sentence).

Definition short_step (sentences : list string) (i : nat) (questions : list string)
    : M (list string) :=
  raw <- index sentences i ;;
  let sentence := PyStr.strip raw in
  if PyStr.len sentence <? 20 then ret questions else
  let words := short_words sentence in
  match words with
  | [] => ret questions
  | _ =>
      key_concept <- choice (take (Nat.min 3 (length words)) words) ;;
      starter <- choice question_starters ;;
      let q :=
        if bool_decide (starter ∈ ["Define"; "List the"])
        then starter +:+ " " +:+ key_concept +:+ "."
        else starter +:+ " " +:+ key_concept +:+ "?" in
      ret (questions ++ [q])
  end.

Definition generate_short_questions_fallback (content : string) (num_questions : Z)
    : M (list string) :=
  let sentences := sent_tokenize content in
  questions <- for_each (range_min num_questions sentences) (short_step sentences) [] ;;
  ret (slice_to questions num_questions).

Definition question_templates : list string :=
  ["Discuss in detail about {}.";
   "Explain the concept of {} with examples.";
   "Analyze the importance of {} in the given context.";
   "Compare and contrast different aspects of {}.";
   "Evaluate the role of {} and its implications.";
   "Describe the process of {} step by step.";
   "Examine the relationship between {} and related concepts."].

(** [template.format(x)] for a template with a single [{}] field. *)
Definition format1 (template x : string) : string :=
  PyStr.replace_first "{}" x template.

Definition long_words (sentence : string) : list string :=
  List.filter (fun w => PyStr.isalnum w && (3 <? PyStr.len w)
                        && negb (bool_decide (PyStr.lower w ∈ stop_words)))
              (word_tokenize sentence).

(** Adjacent pairs [words[i] + " " + words[i+1]]. *)
Fixpoint bigrams (words : list string) : list string :=
  match words with
  | w1 :: ((w2 :: _) as rest) => (w1 +:+ " " +:+ w2) :: bigrams rest
  | _ => []
  end.

(** [Counter]: counts in first-seen order. *)
Fixpoint count_add (x : string) (c : list (string * nat)) : list (string * nat) :=
  match c with
  | [] => [(x, 1)]
  | (y, n) :: c' => if bool_decide (x = y) then (y, S n) :: c' else (y, n) :: count_add x c'
  end.

Definition Counter (l : list string) : list (string * nat) :=
  fold_left (fun c x => count_add x c) l [].

(** Stable insertion by decreasing count: equal counts keep their order. *)
Fixpoint insert_desc (x : string * nat) (l : list (string * nat)) : list (string * nat) :=
  match l with
  | [] => [x]
  | y :: l' => if snd y <? snd x then x :: y :: l' else y :: insert_desc x l'
  end.

(** [Counter.most_common(n)] *)
Definition most_common (n : nat) (c : list (string * nat)) : list (string * nat) :=
  take n (fold_left (fun acc x => insert_desc x acc) c []).

Definition common_phrases (content : string) : list string :=
  let sentences := sent_tokenize content in
  let key_phrases := concat (map (fun s => bigrams (long_words s)) (take 20 sentences)) in
  map fst (most_common 10 (Counter key_phrases)).

Definition long_step (phrases : list string) (i : nat) (questions : list string)
    : M (list string) :=
  template <- choice question_templates ;;
  phrase <- index phrases i ;;
  ret (questions ++ [format1 template phrase]).

Definition generate_long_questions_fallback (content : string) (num_questions : Z)
    : M (list string) :=
  let phrases := common_phrases content in
  questions <- for_each (range_min num_questions phrases) (long_step phrases) [] ;;
  ret (slice_to questions num_questions).

End Fallback.

(** ** The generator object and the LLM-backed entry points *)

Inductive task : Type :=
| McqTask
| ShortTask
| LongTask.

(** The arguments of [chat.completions.create]: the prompt is a fixed
    template around the requested count and [content[:3000]]. *)
Record ChatRequest : Type := {
  req_task : task;
  req_count : Z;
  req_excerpt : string;
  req_model : string;
  req_temperature_tenths : nat;
  req_max_tokens : nat
}.

(** The Groq client: a completion either fails with a message or returns
    the response text. *)
Record Groq : Type := {
  chat_completions_create : ChatRequest -> string + string
}.

Record QuestionPaperGenerator : Type := {
  stop_words : gset string;
  groq_client : option Groq
}.

(** What an entry point hands back: its value and the warnings it showed. *)
Record outcome (A : Type) : Type := {
  value : A;
  warnings : list string
}.
Arguments value {A} _.
Arguments warnings {A} _.

Definition quiet {A} (a : A) : outcome A := {| value := a; warnings := [] |}.

Definition api_warning (e : string) : string :=
  "Groq API error: " +:+ e +:+ ". Using fallback method.".

Section Generator.

Context `{Nltk}.

(** Response parsing of the remote path ([json.loads] with
    [parse_mcqs_from_text], and the numbered-line clean-up); a failure
    inside the [try] block is its left injection. *)
Variable parse_mcq_response : string -> Z -> string + list MCQ.
Variable parse_question_lines : string -> Z -> string + list string.

(** [Groq(api_key=...)] *)
Variable Groq_connect : string -> Groq.

(** [__init__] *)
Definition init (groq_api_key : option string) : QuestionPaperGenerator :=
  {| stop_words := list_to_set stopwords_english;
     groq_client :=
       match groq_api_key with
       | Some (String c k) => Some (Groq_connect (String c k))
       | _ => None
       end |}.

Definition request (t : task) (temp tokens : nat) (content : string) (n : Z) : ChatRequest :=
  {| req_task := t; req_count := n; req_excerpt := PyStr.take 3000 content;
     req_model := "llama3-8b-8192"; req_temperature_tenths := temp;
     req_max_tokens := tokens |}.

(** The body of a [try] block: call the API, then parse the response. *)
Definition remote {A} (client : Groq) (rq : ChatRequest)
    (parse : string -> Z -> string + list A) : string + list A :=
  match chat_completions_create client rq with
  | inl e => inl e
  | inr response_text => parse response_text (req_count rq)
  end.

(** The shape shared by the three entry points: no client, the fallback;
    a client whose [try] block fails, a warning and the fallback. *)
Definition with_fallback {A} (self : QuestionPaperGenerator) (rq : ChatRequest)
    (parse : string -> Z -> string + list A) (fallback : M (list A))
    : M (outcome (list A)) :=
  match groq_client self with
  | None => r <- fallback ;; ret (quiet r)
  | Some client =>
      match remote client rq parse with
      | inr qs => ret (quiet qs)
      | inl e => r <- fallback ;; ret {| value := r; warnings := [api_warning e] |}
      end
  end.

Definition generate_mcqs (self : QuestionPaperGenerator) (content : string) (n : Z)
    : M (outcome (list MCQ)) :=
  with_fallback self (request McqTask 7 2000 content n) parse_mcq_response
                (generate_mcqs_fallback (stop_words self) content n).

Definition generate_short_questions (self : QuestionPaperGenerator) (content : string) (n : Z)
    : M (outcome (list string)) :=
  with_fallback self (request ShortTask 7 1000 content n) parse_question_lines
                (generate_short_questions_fallback content n).

Definition generate_long_questions (self : QuestionPaperGenerator) (content : string) (n : Z)
    : M (outcome (list string)) :=
  with_fallback self (request LongTask 8 1000 content n) parse_question_lines
                (generate_long_questions_fallback (stop_words self) content n).

End Generator.

(** ** Paper formatter: [format_question_paper] *)

(** The synthesized header; [today] is [datetime.now().strftime('%Y-%m-%d')]. *)
Definition default_header (today : string) : string :=
  PyStr.join PyStr.NL
    [ ""; "QUESTION PAPER"; "=============="; "";
      "Subject: [Subject Name]"; "Date: " +:+ today; "Time: [Duration]";
      "Maximum Marks: [Total Marks]"; "";
      "Instructions:"; "1. Read all questions carefully"; "2. Answer all questions";
      "3. Write clearly and legibly"; ""; "" ].

Definition rule : string := PyStr.repeat_char "=" 40 +:+ PyStr.NL +:+ PyStr.NL.

(** The option lines of one MCQ, lettered from [chr(65)]. *)
Fixpoint option_lines (paper : string) (j : nat) (opts : list string) : string :=
  match opts with
  | [] => paper
  | o :: opts' =>
      option_lines
        (paper +:+ "    " +:+ String (ascii_of_nat (65 + j)) ". " +:+ o +:+ PyStr.NL)
        (S j) opts'
  end.

Fixpoint mcq_lines (paper : string) (i : nat) (mcqs : list MCQ) : string :=
  match mcqs with
  | [] => paper
  | mcq :: mcqs' =>
      let paper := paper +:+ "Q" +:+ PyStr.of_nat i +:+ ". " +:+ question mcq +:+ PyStr.NL in
      let paper := option_lines paper 0 (options mcq) in
      mcq_lines (paper +:+ PyStr.NL) (S i) mcqs'
  end.

Fixpoint question_lines (paper : string) (i : nat) (qs : list string) : string :=
  match qs with
  | [] => paper
  | q :: qs' =>
      question_lines (paper +:+ "Q" +:+ PyStr.of_nat i +:+ ". " +:+ q +:+ PyStr.NL +:+ PyStr.NL)
                     (S i) qs'
  end.

(** [if template and template.strip()] *)
Definition usable_template (template : option string) : option string :=
  match template with
  | Some t =>
      match t, PyStr.strip t with
      | String _ _, String _ _ => Some t
      | _, _ => None
      end
  | None => None
  end.

Definition format_question_paper (today : string) (mcqs : list MCQ)
    (short_questions long_questions : list string) (template : option string) : string :=
  let paper :=
    match usable_template template with
    | Some t => t +:+ PyStr.NL +:+ PyStr.NL
    | None => default_header today
    end in
  let paper :=
    match mcqs with
    | [] => paper
    | _ => mcq_lines (paper +:+ PyStr.NL +:+ "SECTION A: MULTIPLE CHOICE QUESTIONS" +:+ PyStr.NL
                            +:+ rule) 1 mcqs
    end in
  let paper :=
    match short_questions with
    | [] => paper
    | _ => question_lines (paper +:+ PyStr.NL +:+ "SECTION B: SHORT ANSWER QUESTIONS" +:+ PyStr.NL
                                 +:+ rule) 1 short_questions
    end in
  match long_questions with
  | [] => paper
  | _ => question_lines (paper +:+ PyStr.NL +:+ "SECTION C: LONG ANSWER QUESTIONS" +:+ PyStr.NL
                               +:+ rule) 1 long_questions
  end.

(** ** A plain-prose instance of the NLTK interface

    Used to run the model on concrete texts.  Sentences end at a full stop,
    question mark or exclamation mark followed by white space or the end of
    the text; words are maximal alphanumeric runs and every other visible
    character is a token of its own.  On the plain sentences of the examples
    below this is what NLTK returns. *)

Module Plain.

Definition is_terminator (c : ascii) : bool :=
  bool_decide (c = "."%char) || bool_decide (c = "?"%char) || bool_decide (c = "!"%char).

Fixpoint sents_go (cur : string) (s : string) : list string :=
  match s with
  | EmptyString =>
      match cur with
      | EmptyString => []
      | _ => [String.rev cur]
      end
  | String c s' =>
      match cur with
      | EmptyString =>
          if PyStr.is_space c then sents_go EmptyString s'
          else sents_go (String c EmptyString) s'
      | _ =>
          if is_terminator c &&
             match s' with
             | EmptyString => true
             | String d _ => PyStr.is_space d
             end
          then String.rev (String c cur) :: sents_go EmptyString s'
          else sents_go (String c cur) s'
      end
  end.

Definition flush (cur : string) : list string :=
  match cur with
  | EmptyString => []
  | _ => [String.rev cur]
  end.

Fixpoint words_go (cur : string) (s : string) : list string :=
  match s with
  | EmptyString => flush cur
  | String c s' =>
      if PyStr.is_alnum_char c then words_go (String c cur) s'
      else flush cur ++ (if PyStr.is_space c then [] else [String c EmptyString])
                     ++ words_go EmptyString s'
  end.

Definition nltk : Nltk := {|
  sent_tokenize := sents_go EmptyString;
  word_tokenize := words_go EmptyString;
  stopwords_english := ["the"; "is"; "of"; "a"; "an"; "and"; "it"; "in"; "to"; "through"]
|}.

Definition stops : gset string := list_to_set (@stopwords_english nltk).

End Plain.

(** ** Further string primitives *)

Module PyText.

(** [s.endswith(suffix)] *)
Fixpoint endswith (suffix s : string) : bool :=
  String.eqb s suffix ||
  match s with
  | EmptyString => false
  | String _ s' => endswith suffix s'
  end.

(** [s.find(c)] for a one-character needle; [None] is Python's [-1]. *)
Fixpoint find_char (c : ascii) (s : string) : option nat :=
  match s with
  | EmptyString => None
  | String x s' => if Ascii.eqb x c then Some 0 else option_map S (find_char c s')
  end.

(** [s.rfind(c)] for a one-character needle; [None] is Python's [-1]. *)
Fixpoint rfind_char (c : ascii) (s : string) : option nat :=
  match s with
  | EmptyString => None
  | String x s' =>
      match rfind_char c s' with
      | Some i => Some (S i)
      | None => if Ascii.eqb x c then Some 0 else None
      end
  end.

(** [s[a:b]] for non-negative [a] and [b] *)
Definition slice (a b : nat) (s : string) : string :=
  PyStr.take (b - a) (PyStr.drop a s).

(** The rest of [s] after its leading characters that satisfy [p]. *)
Fixpoint drop_while (p : ascii -> bool) (s : string) : string :=
  match s with
  | EmptyString => EmptyString
  | String c s' => if p c then drop_while p s' else s
  end.

End PyText.

(** ** Parsing the responses of the language model *)

(** [re.match(r'^[A-D][\.\)]\s*', line)] *)
Definition option_prefix (line : string) : bool :=
  match line with
  | String c (String d _) =>
      let n := nat_of_ascii c in
      (65 <=? n) && (n <=? 68) && (Ascii.eqb d "." || Ascii.eqb d ")")
  | _ => false
  end.

(** [re.sub(r'^[A-D][\.\)]\s*', '', line)] on a line with that prefix *)
Definition option_text (line : string) : string := PyStr.lstrip (PyStr.drop 2 line).

(** The first option whose lower-cased text occurs in the lower-cased line. *)
Definition named_option (opts : list string) (line : string) : option string :=
  List.find (fun o => PyStr.contains (PyStr.lower o) (PyStr.lower line)) opts.

(** One line of [parse_mcqs_from_text]: the state is the list [mcqs] and
    [current_mcq], [None] for the empty dictionary. *)
Definition parse_mcq_line (st : list MCQ * option MCQ) (raw : string)
    : list MCQ * option MCQ :=
  let '(mcqs, current_mcq) := st in
  let line := PyStr.strip raw in
  match line with
  | EmptyString => st
  | _ =>
      if PyText.endswith "?" line && (20 <? PyStr.len line) then
        (match current_mcq with
         | Some m => mcqs ++ [m]
         | None => mcqs
         end,
         Some {| question := line; options := []; correct_answer := "";
                 context := excerpt line |})
      else if option_prefix line then
        (mcqs,
         match current_mcq with
         | Some m =>
             Some {| question := question m;
                     options := options m ++ [option_text line];
                     correct_answer := correct_answer m;
                     context := context m |}
         | None => None
         end)
      else if PyStr.contains "correct" (PyStr.lower line)
              || PyStr.contains "answer" (PyStr.lower line) then
        (mcqs,
         match current_mcq with
         | Some m =>
             match named_option (options m) line with
             | Some o =>
                 Some {| question := question m; options := options m;
                         correct_answer := o; context := context m |}
             | None => Some m
             end
         | None => None
         end)
      else st
  end.

Definition parse_mcqs_from_text (text : string) (num_questions : Z) : list MCQ :=
  let '(mcqs, current_mcq) :=
    fold_left parse_mcq_line (PyStr.split PyStr.nl text) ([], None) in
  slice_to (match current_mcq with
            | Some m => mcqs ++ [m]
            | None => mcqs
            end) num_questions.

(** The [try] block of [generate_mcqs] after the API call.  [json_mcqs s]
    stands for [json.loads(s).get('mcqs', [])], [None] when that raises. *)
Definition mcq_response_parser (json_mcqs : string -> option (list MCQ))
    (response_text : string) (num_questions : Z) : string + list MCQ :=
  let from_text := inr (parse_mcqs_from_text response_text num_questions) in
  match PyText.find_char "{" response_text with
  | Some start_idx =>
      let end_idx :=
        match PyText.rfind_char "}" response_text with
        | Some i => S i
        | None => 0
        end in
      match json_mcqs (PyText.slice start_idx end_idx response_text) with
      | Some mcqs => inr mcqs
      | None => from_text
      end
  | None => from_text
  end.

Section QuestionLines.

(** The bullet literal of the source, three characters outside ASCII. *)
Variable bullet : string.

(** The character class [[-...]] made of the hyphen and the bullet's
    characters. *)
Definition bullet_class (c : ascii) : bool :=
  Ascii.eqb c "-" || existsb (Ascii.eqb c) (list_ascii_of_string bullet).

(** [re.sub(r'^\d+\.?\s*', '', line)] *)
Definition strip_number (line : string) : string :=
  match line with
  | String c _ =>
      if PyStr.is_digit c then
        let rest := PyText.drop_while PyStr.is_digit line in
        PyStr.lstrip (match rest with
                      | String "." rest' => rest'
                      | _ => rest
                      end)
      else line
  | EmptyString => EmptyString
  end.

(** [re.sub(r'^[-...]\s*', '', question)] *)
Definition strip_bullet (question : string) : string :=
  match question with
  | String c rest => if bullet_class c then PyStr.lstrip rest else question
  | EmptyString => EmptyString
  end.

(** The test [line[0].isdigit() or line.startswith('-') or
    line.startswith(bullet)] on a non-empty line. *)
Definition listed (line : string) : bool :=
  match line with
  | String c _ =>
      PyStr.is_digit c || PyStr.startswith "-" line || PyStr.startswith bullet line
  | EmptyString => false
  end.

Definition question_line (questions : list string) (raw : string) : list string :=
  let line := PyStr.strip raw in
  if listed line then
    match strip_bullet (strip_number line) with
    | EmptyString => questions
    | question => questions ++ [question]
    end
  else questions.

(** The response parsing shared by [generate_short_questions] and
    [generate_long_questions]. *)
Definition parse_question_list (response_text : string) (num_questions : Z) : list string :=
  slice_to (fold_left question_line (PyStr.split PyStr.nl response_text) []) num_questions.

Definition question_list_parser (response_text : string) (num_questions : Z)
    : string + list string :=
  inr (parse_question_list response_text num_questions).

End QuestionLines.

(** ** Reading the uploads: [extract_text_from_pdf] and its siblings *)

(** What the document library gives: opening fails with a message, or
    yields the pages (paragraphs), each of which gives its text or fails. *)
Definition upload : Type := string + list (string + string).

(** The loop [text += part + "\n"]; [inl e] when a part raises [e]. *)
Fixpoint read_parts (text : string) (parts : list (string + string)) : string + string :=
  match parts with
  | [] => inr text
  | inl e :: _ => inl e
  | inr part :: parts' => read_parts (text +:+ part +:+ PyStr.NL) parts'
  end.

(** The body shared by the three readers: the text and the errors shown. *)
Definition read_upload (what : string) (file : upload) : string * list string :=
  match file with
  | inl e => (EmptyString, [what +:+ e])
  | inr parts =>
      match read_parts EmptyString parts with
      | inl e => (EmptyString, [what +:+ e])
      | inr text => (text, [])
      end
  end.

Definition extract_text_from_pdf : upload -> string * list string :=
  read_upload "Error reading PDF: ".

Definition extract_text_from_docx : upload -> string * list string :=
  read_upload "Error reading DOCX: ".

Definition extract_template_from_docx : upload -> string * list string :=
  read_upload "Error reading template: ".

(** ** The DOCX export: [create_docx_output] *)

(** The calls made on the document, in order. *)
Inductive block : Type :=
| Heading (text : string) (level : nat)
| Paragraph (text : string)
| ListNumber (text : string).

(** [if current_paragraph: doc.add_paragraph(' '.join(current_paragraph))] *)
Definition flush_paragraph (doc : list block) (current_paragraph : list string) : list block :=
  match current_paragraph with
  | [] => doc
  | _ => doc ++ [Paragraph (PyStr.join " " current_paragraph)]
  end.

Definition docx_line (st : list block * list string) (line : string)
    : list block * list string :=
  let '(doc, current_paragraph) := st in
  match PyStr.strip line with
  | EmptyString => (flush_paragraph doc current_paragraph, [])
  | _ =>
      if PyStr.startswith "SECTION" line || PyStr.startswith "Q" line
         || PyStr.startswith "=" line then
        let doc := flush_paragraph doc current_paragraph in
        (if PyStr.startswith "SECTION" line then doc ++ [Heading line 1]
         else if PyStr.startswith "Q" line then doc ++ [ListNumber line]
         else if negb (PyStr.startswith "=" line) then doc ++ [Paragraph line]
         else doc,
         [])
      else (doc, current_paragraph ++ [PyStr.strip line])
  end.

Definition create_docx_output (formatted_paper : string) : list block :=
  let '(doc, current_paragraph) :=
    fold_left docx_line (PyStr.split PyStr.nl formatted_paper)
              ([Heading "Question Paper" 0], []) in
  flush_paragraph doc current_paragraph.

(** ** The sections of the paper, one at a time *)

Definition section_a (mcqs : list MCQ) : string :=
  match mcqs with
  | [] => EmptyString
  | _ => mcq_lines (PyStr.NL +:+ "SECTION A: MULTIPLE CHOICE QUESTIONS" +:+ PyStr.NL +:+ rule)
                   1 mcqs
  end.

Definition section_b (short_questions : list string) : string :=
  match short_questions with
  | [] => EmptyString
  | _ => question_lines (PyStr.NL +:+ "SECTION B: SHORT ANSWER QUESTIONS" +:+ PyStr.NL +:+ rule)
                        1 short_questions
  end.

Definition section_c (long_questions : list string) : string :=
  match long_questions with
  | [] => EmptyString
  | _ => question_lines (PyStr.NL +:+ "SECTION C: LONG ANSWER QUESTIONS" +:+ PyStr.NL +:+ rule)
                        1 long_questions
  end.

Definition paper_header (today : string) (template : option string) : string :=
  match usable_template template with
  | Some t => t +:+ PyStr.NL +:+ PyStr.NL
  | None => default_header today
  end.

(** The line of question [q] numbered [i]. *)
Definition numbered (i : nat) (q : string) : string :=
  "Q" +:+ PyStr.of_nat i +:+ ". " +:+ q +:+ PyStr.NL +:+ PyStr.NL.

(** ** [main]: the handler of the generate button

    Lines 651-688 of the source, once the uploads have been read:
    [full_text] is what the reader returned and [template_text] the text of
    the template, empty without a template file. *)

Record session : Type := {
  formatted_paper : string;
  session_mcqs : list MCQ;
  session_short : list string;
  session_long : list string;
  messages : list string
}.

Definition no_topic_error : string := "Please enter a topic or chapter name!".
Definition no_text_error : string := "Could not extract text from the uploaded file!".
Definition general_content_warning : string :=
  "Could not find specific content for the topic. Using general content.".

Section Handler.

Context `{Nltk}.
Variable parse_mcq_response : string -> Z -> string + list MCQ.
Variable parse_question_lines : string -> Z -> string + list string.
Variable self : QuestionPaperGenerator.
Variable today : string.

(** [generator.generate_x(topic_content, n) if n > 0 else []] *)
Definition when_positive {A} (n : Z) (m : M (outcome (list A))) : M (outcome (list A)) :=
  if (0 <? n)%Z then m else ret (quiet []).

Definition generate_paper (topic_input full_text template_text : string)
    (num_mcqs num_short num_long : Z) : M (string + session) :=
  match PyStr.strip topic_input with
  | EmptyString => ret (inl no_topic_error)
  | _ =>
      match PyStr.strip full_text with
      | EmptyString => ret (inl no_text_error)
      | _ =>
          let located := find_topic_content full_text topic_input in
          let '(topic_content, shown) :=
            match PyStr.strip located with
            | EmptyString => (PyStr.take 5000 full_text, [general_content_warning])
            | _ => (located, [])
            end in
          mcqs <- when_positive num_mcqs
                    (generate_mcqs parse_mcq_response self topic_content num_mcqs) ;;
          short_questions <- when_positive num_short
                    (generate_short_questions parse_question_lines self topic_content num_short) ;;
          long_questions <- when_positive num_long
                    (generate_long_questions parse_question_lines self topic_content num_long) ;;
          ret (inr {| formatted_paper :=
                        format_question_paper today (value mcqs) (value short_questions)
                                              (value long_questions) (Some template_text);
                      session_mcqs := value mcqs;
                      session_short := value short_questions;
                      session_long := value long_questions;
                      messages := shown ++ warnings mcqs ++ warnings short_questions
                                        ++ warnings long_questions |})
      end
  end.

End Handler.

(** ** Vocabulary of the statements *)

(** [returns m P]: on every tape, [m] raises nothing and its value
    satisfies [P]. *)
Definition returns {A} (m : M A) (P : A -> Prop) : Prop :=
  forall g, exists a g', m g = Ok a g' /\ P a.

Section Vocabulary.

Context `{Nltk}.
Variable stop_words : gset string.
Variable content : string.

(** A sentence the MCQ loop does not skip. *)
Definition qualifies_mcq (raw : string) : bool :=
  let sentence := PyStr.strip raw in
  negb (PyStr.len sentence <? 20) && negb (length (mcq_words stop_words sentence) <? 3).

(** A sentence the short-question loop does not skip. *)
Definition qualifies_short (raw : string) : bool :=
  let sentence := PyStr.strip raw in
  negb (PyStr.len sentence <? 20)
  && match short_words sentence with
     | [] => false
     | _ => true
     end.

(** How a question of the MCQ loop comes from the content. *)
Definition mcq_from (q : MCQ) : Prop :=
  exists raw key_word,
    raw ∈ sent_tokenize content
    /\ qualifies_mcq raw = true
    /\ key_word ∈ take 5 (mcq_words stop_words (PyStr.strip raw))
    /\ question q = mcq_question_text (PyStr.strip raw) key_word
    /\ correct_answer q = PyStr.title key_word
    /\ context q = excerpt (PyStr.strip raw)
    /\ correct_answer q ∈ options q
    /\ length (options q) =
       1 + Nat.min 3 (Nat.min 2 (length (candidates (PyStr.title key_word)
                                           (mcq_words stop_words (PyStr.strip raw)))) + 2).

End Vocabulary.

(** ** Vocabulary of the further statements *)

(** The lines from the first one that satisfies [p] on. *)
Fixpoint skip_to (p : string -> bool) (lines : list string) : list string :=
  match lines with
  | [] => []
  | l :: rest => if p l then lines else skip_to p rest
  end.

(** The lines before the first one that satisfies [p]. *)
Fixpoint keep_until (p : string -> bool) (lines : list string) : list string :=
  match lines with
  | [] => []
  | l :: rest => if p l then [] else l :: keep_until p rest
  end.

(** A string with a character that is not white space. *)
Definition visible (s : string) : bool := negb (PyStr.all_chars PyStr.is_space s).

Section MoreVocabulary.

Context `{Nltk}.
Variable stop_words : gset string.
Variable content : string.

(** How a question of the MCQ loop is built, options included. *)
Definition mcq_built (q : MCQ) : Prop :=
  exists raw key_word wrong,
    raw ∈ sent_tokenize content
    /\ key_word ∈ take 5 (mcq_words stop_words (PyStr.strip raw))
    /\ correct_answer q = PyStr.title key_word
    /\ context q = excerpt (PyStr.strip raw)
    /\ (forall o, o ∈ options q <-> o = PyStr.title key_word \/ o ∈ wrong)
    /\ wrong ⊆ candidates (PyStr.title key_word) (mcq_words stop_words (PyStr.strip raw))
               ++ generic_answers.

(** How a question of the short-question loop is built. *)
Definition short_built (q : string) : Prop :=
  exists raw key_concept starter,
    raw ∈ sent_tokenize content
    /\ key_concept ∈ take 3 (short_words (PyStr.strip raw))
    /\ starter ∈ question_starters
    /\ q = starter +:+ " " +:+ key_concept
             +:+ (if bool_decide (starter ∈ ["Define"; "List the"]) then "." else "?").

End MoreVocabulary.

(** The entries of a counter by decreasing count: [most_common n c] is
    [take n (by_count c)]. *)
Definition by_count (c : list (string * nat)) : list (string * nat) :=
  fold_left (fun acc x => insert_desc x acc) c [].

(** The entries of a counter whose count is [k], in their order. *)
Definition with_count (k : nat) (c : list (string * nat)) : list (string * nat) :=
  List.filter (fun y => snd y =? k) c.

(** How often [x] occurs in [l]. *)
Definition occurrences (x : string) (l : list string) : nat :=
  length (List.filter (fun y => bool_decide (y = x)) l).

(** The count stored for [x] in a counter, 0 when [x] is not a key. *)
Definition stored (x : string) (c : list (string * nat)) : nat :=
  match List.find (fun e => bool_decide (fst e = x)) c with
  | Some e => snd e
  | None => 0
  end.

(** Counts do not increase from [a] to [b]. *)
Definition not_rarer (a b : string * nat) : Prop := snd b <= snd a.

(** [json_str] in the [try] block of [generate_mcqs]: the text from the
    first opening brace up to the last closing brace; [None] without an
    opening brace. *)
Definition json_str (response_text : string) : option string :=
  match PyText.find_char "{" response_text with
  | Some start_idx =>
      Some (PyText.slice start_idx
              match PyText.rfind_char "}" response_text with
              | Some i => S i
              | None => 0
              end response_text)
  | None => None
  end.

(** A stripped line of [text] that [parse_mcqs_from_text] takes for a
    question: it ends in a question mark and has more than 20 characters. *)
Definition question_mark_line (line : string) : bool :=
  PyText.endswith "?" line && (20 <? PyStr.len line).

Definition stripped_lines (text : string) : list string :=
  map PyStr.strip (PyStr.split PyStr.nl text).

(** What holds of a dictionary built by [parse_mcqs_from_text]. *)
Definition parsed_mcq (text : string) (m : MCQ) : Prop :=
  question m ∈ stripped_lines text
  /\ question_mark_line (question m) = true
  /\ context m = excerpt (question m)
  /\ (correct_answer m = "" \/ correct_answer m ∈ options m)
  /\ Forall (fun o => exists line,
                 line ∈ stripped_lines text
                 /\ option_prefix line = true
                 /\ o = option_text line) (options m).

(** A level-1 heading of the exported document. *)
Definition is_section_heading (b : block) : bool :=
  match b with
  | Heading _ 1 => true
  | _ => false
  end.

(** A numbered-list paragraph of the exported document. *)
Definition is_list_number (b : block) : bool :=
  match b with
  | ListNumber _ => true
  | _ => false
  end.

(** A line that goes into a running paragraph: it has a visible
    character and starts with none of "SECTION", "Q" and "=". *)
Definition plain_line (line : string) : bool :=
  visible line
  && negb (PyStr.startswith "SECTION" line || PyStr.startswith "Q" line
           || PyStr.startswith "=" line).

(** Where a block of the exported document comes from. *)
Definition block_from (lines : list string) (b : block) : Prop :=
  match b with
  | Heading t level =>
      (t = "Question Paper" /\ level = 0)
      \/ (level = 1 /\ t ∈ lines /\ PyStr.startswith "SECTION" t = true)
  | ListNumber t => t ∈ lines /\ PyStr.startswith "Q" t = true
  | Paragraph t =>
      exists parts,
        parts <> [] /\ t = PyStr.join " " parts
        /\ Forall (fun part => exists line,
                     line ∈ lines /\ plain_line line = true /\ part = PyStr.strip line)
                  parts
  end.

(** The state of [create_docx_output]: blocks and paragraph parts that
    come from the lines. *)
Definition docx_state_ok (lines : list string) (st : list block * list string) : Prop :=
  Forall (block_from lines) (fst st)
  /\ Forall (fun part => exists line,
               line ∈ lines /\ plain_line line = true /\ part = PyStr.strip line) (snd st).

(** The state of [parse_mcqs_from_text] holds well-formed dictionaries
    only. *)
Definition parse_state_ok (text : string) (st : list MCQ * option MCQ) : Prop :=
  Forall (parsed_mcq text) (fst st)
  /\ match snd st with
     | Some m => parsed_mcq text m
     | None => True
     end.

(** The questions started so far: the finished ones and the current one. *)
Definition started (st : list MCQ * option MCQ) : nat :=
  length (fst st) + match snd st with
                    | Some _ => 1
                    | None => 0
                    end.

(** ** Texts and collaborators of the examples *)

Definition thermo_heading : string := "Chapter 2: Thermodynamics".
Definition optics_heading : string := "Chapter 3: Optics".

Definition offline : Groq := {| chat_completions_create := fun _ => inl "offline" |}.

Definition no_mcqs (_ : string) (_ : Z) : string + list MCQ := inr [].
Definition no_lines (_ : string) (_ : Z) : string + list string := inr [].

Definition cell_text : string :=
  "The mitochondria is the powerhouse of the cell. It produces ATP through respiration.".

Definition rain_text : string := "It rains. Alpha beta gamma delta epsilon.".

Definition buffalo_text : string := "Buffalo buffalo buffalo buffalo.".

Definition thermo_lines : list string :=
  ["Heat flows from hot bodies to cold ones.";
   "Entropy never decreases in an isolated system.";
   "Work is energy in transit.";
   "The first law conserves energy.";
   "Engines turn heat into work."].

(** A client that answers every request with [text]. *)
Definition answering (text : string) : Groq :=
  {| chat_completions_create := fun _ => inr text |}.

Definition online (text : string) : QuestionPaperGenerator :=
  {| stop_words := Plain.stops; groq_client := Some (answering text) |}.

Definition no_json (_ : string) : option (list MCQ) := None.

Definition sample_mcq : MCQ :=
  {| question := "Which law conserves energy?";
     options := ["First"; "Second"; "Third"; "Zeroth"];
     correct_answer := "First";
     context := "" |}.

Definition any_json (_ : string) : option (list MCQ) := Some [sample_mcq; sample_mcq].

Definition numbered_answer : string :=
  PyStr.join PyStr.NL ["Sure:"; "1. What is heat?"; "2. Define work."; "- Why is it so?"].

(** A loader that reads the empty object and nothing else. *)
Definition empty_object_json (s : string) : option (list MCQ) :=
  if String.eqb s "{}" then Some [] else None.

(** An answer with an opening brace that is never closed. *)
Definition unclosed_answer : string :=
  PyStr.join PyStr.NL
    ["{ sorry, no JSON today";
     "Which law of thermodynamics conserves energy?";
     "A. The first law";
     "B. The second law";
     "Correct answer: the first law"].

(** Characters above 127: the no-break space and the letter E with an
    acute accent, capital and small. *)
Definition no_break_space : ascii := ascii_of_nat 160.
Definition capital_e_acute : ascii := ascii_of_nat 201.
Definition small_e_acute : ascii := ascii_of_nat 233.

(** * The model on small inputs *)

Example lower_ex : PyStr.lower "Chapter 2: Thermodynamics" = "chapter 2: thermodynamics".
Proof. reflexivity. Qed.

Example title_ex : PyStr.title "3d alpha-beta" = "3D Alpha-Beta".
Proof. reflexivity. Qed.

Example strip_ex : PyStr.strip "  a b  " = "a b".
Proof. reflexivity. Qed.

Example strip_no_break_space : PyStr.strip (String no_break_space " a b ") = "a b".
Proof. reflexivity. Qed.

Example lower_accent :
  PyStr.lower (String capital_e_acute "COLE") = String small_e_acute "cole".
Proof. reflexivity. Qed.

Example replace_ex : PyStr.replace_first "alpha" "______" "Alpha alpha alpha" = "Alpha ______ alpha".
Proof. reflexivity. Qed.

Example split_ex : PyStr.split "," "a,,b," = ["a"; ""; "b"; ""].
Proof. reflexivity. Qed.

Example of_nat_ex : PyStr.of_nat 12 = "12".
Proof. reflexivity. Qed.

Example re_search_ex1 :
  Re.search false (Re.lit "chapter" ++ [(Re.Space, Re.Plus); (Re.Digit, Re.Plus)])
            "see chapter   12 now" = true.
Proof. reflexivity. Qed.

Example re_search_ex2 :
  Re.search false (Re.lit "chapter" ++ [(Re.Space, Re.Plus); (Re.Digit, Re.Plus)])
            "chapter two" = false.
Proof. reflexivity. Qed.

Example re_search_ex3 :
  Re.search true (Re.lit "unit" ++ [(Re.Space, Re.Plus); (Re.Digit, Re.Star); (Re.Space, Re.Star);
                                    (Re.Lit ":", Re.Opt); (Re.Space, Re.Star)] ++ Re.escape "Heat")
            "unit 4 :  heat and work" = true.
Proof. reflexivity. Qed.

Example re_search_no_break_space :
  Re.search false (Re.lit "chapter" ++ [(Re.Space, Re.Plus); (Re.Digit, Re.Plus)])
            ("see chapter" +:+ String no_break_space "3 for details") = true.
Proof. reflexivity. Qed.

Example re_search_accent :
  Re.search true (Re.escape (String capital_e_acute "cole"))
            (String small_e_acute "cole") = true.
Proof. reflexivity. Qed.

Example choice_ex : choice ["a"; "b"; "c"] [7; 1] = Ok "b" [1].
Proof. reflexivity. Qed.

Example sample_ex : sample [10; 20; 30; 40] 2 [0; 0] = Ok [10; 40] [].
Proof. reflexivity. Qed.

Example sample_too_many : sample [10] 2 [0; 0] = Raise ValueError.
Proof. reflexivity. Qed.

Example shuffle_ex : shuffle [1; 2; 3; 4] [0; 0; 0] = Ok [2; 3; 4; 1] [].
Proof. reflexivity. Qed.

Example plain_sents :
  @sent_tokenize Plain.nltk
    "The mitochondria is the powerhouse of the cell. It produces ATP through respiration."
  = ["The mitochondria is the powerhouse of the cell."; "It produces ATP through respiration."].
Proof. reflexivity. Qed.

Example plain_words :
  @word_tokenize Plain.nltk "it produces atp through respiration."
  = ["it"; "produces"; "atp"; "through"; "respiration"; "."].
Proof. reflexivity. Qed.

Example plain_mcq_words :
  @mcq_words Plain.nltk Plain.stops "It produces ATP through respiration."
  = ["produces"; "atp"; "respiration"].
Proof. vm_compute. reflexivity. Qed.

(** * Facts about the string primitives *)

Section StringFacts.

Lemma append_nil_r (s : string) : s +:+ "" = s.
Proof. induction s as [|c s IH]; simpl; [reflexivity | now rewrite IH]. Qed.

Lemma append_assoc (a b c : string) : (a +:+ b) +:+ c = a +:+ b +:+ c.
Proof. induction a as [|x a IH]; simpl; [reflexivity | now rewrite IH]. Qed.

Lemma lower_char_idem (c : ascii) : PyStr.lower_char (PyStr.lower_char c) = PyStr.lower_char c.
Proof. destruct c as [[] [] [] [] [] [] [] []]; reflexivity. Qed.

Lemma lower_idem (s : string) : PyStr.lower (PyStr.lower s) = PyStr.lower s.
Proof.
  induction s as [|c s IH]; simpl; [reflexivity|].
  now rewrite lower_char_idem, IH.
Qed.

Lemma lower_app (a b : string) : PyStr.lower (a +:+ b) = PyStr.lower a +:+ PyStr.lower b.
Proof. induction a as [|x a IH]; simpl; [reflexivity | now rewrite IH]. Qed.

Lemma startswith_app (p r : string) : PyStr.startswith p (p +:+ r) = true.
Proof.
  induction p as [|a p IH]; simpl; [reflexivity|].
  now rewrite Ascii.eqb_refl.
Qed.

Lemma startswith_spec (p s : string) :
  PyStr.startswith p s = true <-> exists r, s = p +:+ r.
Proof.
  split.
  - revert s. induction p as [|a p IH]; intros s Hs.
    + now exists s.
    + destruct s as [|b s]; simpl in Hs; [discriminate|].
      apply andb_true_iff in Hs as [->%Ascii.eqb_eq Hs].
      destruct (IH _ Hs) as [r ->]. now exists r.
  - intros [r ->]. apply startswith_app.
Qed.

Lemma startswith_app_l (p s t : string) :
  PyStr.startswith p s = true -> PyStr.startswith p (s +:+ t) = true.
Proof.
  intros [r ->]%startswith_spec. rewrite append_assoc. apply startswith_app.
Qed.

(** [sub in s] holds exactly when [s] splits around a copy of [sub]. *)
Lemma contains_spec (sub s : string) :
  PyStr.contains sub s = true <-> exists a b, s = a +:+ sub +:+ b.
Proof.
  split.
  - induction s as [|c s IH]; simpl; intros Hc.
    + rewrite orb_false_r in Hc. apply startswith_spec in Hc as [r Hr].
      now exists ""%string, r.
    + apply orb_true_iff in Hc as [Hc|Hc].
      * apply startswith_spec in Hc as [r Hr]. now exists ""%string, r.
      * destruct (IH Hc) as (a & b & ->). now exists (String c a), b.
  - intros (a & b & ->). induction a as [|c a IH].
    + change ("" +:+ sub +:+ b) with (sub +:+ b).
      destruct (sub +:+ b) eqn:E; unfold PyStr.contains; fold PyStr.contains;
        rewrite <- E, startswith_app; reflexivity.
    + change (String c a +:+ sub +:+ b) with (String c (a +:+ sub +:+ b)).
      unfold PyStr.contains; fold PyStr.contains. rewrite IH. apply orb_true_r.
Qed.

Lemma lstrip_suffix (s : string) : exists a, s = a +:+ PyStr.lstrip s.
Proof.
  induction s as [|c s [a IH]]; simpl.
  - now exists ""%string.
  - destruct (PyStr.is_space c).
    + exists (String c a). simpl. now rewrite <- IH.
    + now exists ""%string.
Qed.

Lemma rstrip_prefix (s : string) : exists b, s = PyStr.rstrip s +:+ b.
Proof.
  induction s as [|c s [b IH]]; simpl.
  - now exists ""%string.
  - destruct (PyStr.rstrip s) as [|d r] eqn:E.
    + destruct (PyStr.is_space c).
      * now exists (String c s).
      * exists s. reflexivity.
    + exists b. simpl in *. now rewrite <- IH.
Qed.

(** The stripped string sits inside the original one. *)
Lemma strip_infix (s : string) : exists a b, s = a +:+ PyStr.strip s +:+ b.
Proof.
  unfold PyStr.strip.
  destruct (lstrip_suffix s) as [a Ha].
  destruct (rstrip_prefix (PyStr.lstrip s)) as [b Hb].
  exists a, b. now rewrite <- Hb.
Qed.

Lemma contains_strip (sub s : string) :
  PyStr.contains sub (PyStr.strip s) = true -> PyStr.contains sub s = true.
Proof.
  intros (a & b & E)%contains_spec. apply contains_spec.
  destruct (strip_infix s) as (a' & b' & Hs).
  exists (a' +:+ a), (b +:+ b'). rewrite Hs at 1. rewrite E.
  now rewrite !append_assoc.
Qed.

End StringFacts.

(** * Facts about the matcher *)

Section ReFacts.

(** The empty pattern is found in every string. *)
Lemma search_nil (ic : bool) (s : string) : Re.search ic [] s = true.
Proof. destruct s; reflexivity. Qed.

(** A literal run under [IGNORECASE] matches only a case-folded copy. *)
Lemma match_lit_lower (t s : string) :
  Re.match_here true (Re.lit t) s = true ->
  PyStr.startswith (PyStr.lower t) (PyStr.lower s) = true.
Proof.
  revert s. induction t as [|c t IH]; intros s Hm; [reflexivity|].
  destruct s as [|x s]; simpl in Hm; [discriminate|].
  apply andb_true_iff in Hm as [Hx Hm].
  apply bool_decide_eq_true in Hx. simpl. rewrite Hx, Ascii.eqb_refl.
  now apply IH.
Qed.

(** Whatever a pattern consumes, its tail matches a suffix of the input. *)
Lemma match_here_app (ic : bool) (p q : Re.regex) (s : string) :
  Re.match_here ic (p ++ q) s = true ->
  exists a b, s = a +:+ b /\ Re.match_here ic q b = true.
Proof.
  revert s. induction p as [|[a qt] p IH]; intros s Hm.
  - now exists ""%string, s.
  - assert (Hone : forall s,
               match s with
               | String c s' => Re.atom_ok ic a c && Re.match_here ic (p ++ q) s'
               | EmptyString => false
               end = true ->
               exists a b, s = a +:+ b /\ Re.match_here ic q b = true).
    { intros [|c s'] H; [discriminate|].
      apply andb_true_iff in H as [_ H].
      destruct (IH _ H) as (u & v & -> & Hv). now exists (String c u), v. }
    assert (Hmany : forall s,
               (fix many (s : string) : bool :=
                  Re.match_here ic (p ++ q) s ||
                  match s with
                  | String c s' => Re.atom_ok ic a c && many s'
                  | EmptyString => false
                  end) s = true ->
               exists a b, s = a +:+ b /\ Re.match_here ic q b = true).
    { induction s0 as [|c s' IHs]; intros H.
      - rewrite orb_false_r in H. now apply IH.
      - apply orb_true_iff in H as [H|H]; [now apply IH|].
        apply andb_true_iff in H as [_ H].
        destruct (IHs H) as (u & v & -> & Hv). now exists (String c u), v. }
    simpl in Hm. destruct qt.
    + now apply Hone.
    + apply orb_true_iff in Hm as [Hm|Hm]; [now apply IH | now apply Hone].
    + now apply Hmany.
    + destruct s as [|c s']; [discriminate|].
      apply andb_true_iff in Hm as [_ Hm].
      destruct (Hmany _ Hm) as (u & v & -> & Hv). now exists (String c u), v.
Qed.

Lemma search_suffix (ic : bool) (p : Re.regex) (s : string) :
  Re.search ic p s = true ->
  exists a b, s = a +:+ b /\ Re.match_here ic p b = true.
Proof.
  induction s as [|c s IH]; simpl; intros H.
  - rewrite orb_false_r in H. now exists ""%string, ""%string.
  - apply orb_true_iff in H as [H|H].
    + now exists ""%string, (String c s).
    + destruct (IH H) as (u & v & -> & Hv). now exists (String c u), v.
Qed.

(** A pattern ending in the escaped topic is found only in text that
    contains the topic up to case. *)
Lemma search_topic_contains (p : Re.regex) (topic s : string) :
  Re.search true (p ++ Re.escape topic) s = true ->
  PyStr.contains (PyStr.lower topic) (PyStr.lower s) = true.
Proof.
  intros (a & b & -> & Hm)%search_suffix.
  apply match_here_app in Hm as (u & v & -> & Hv).
  apply match_lit_lower, startswith_spec in Hv as [r Hr].
  apply contains_spec. exists (PyStr.lower a +:+ PyStr.lower u), r.
  now rewrite !lower_app, Hr, !append_assoc.
Qed.

Lemma topic_match_contains (topic line : string) :
  topic_match topic line = true ->
  PyStr.contains (PyStr.lower topic) (PyStr.lower line) = true.
Proof.
  unfold topic_match, topic_patterns. cbn [existsb]. rewrite orb_false_r.
  intros H.
  assert (Hc : PyStr.contains (PyStr.lower topic) (PyStr.lower (line_lower line)) = true).
  { repeat (apply orb_true_iff in H as [H|H]);
      try (now apply search_topic_contains in H).
    now apply (search_topic_contains []) in H. }
  apply contains_spec in Hc as (a & b & E). apply contains_spec.
  destruct (strip_infix (PyStr.lower line)) as (a' & b' & Hs).
  exists (PyStr.lower a' +:+ a), (b +:+ PyStr.lower b').
  rewrite <- (lower_idem line). rewrite Hs at 1.
  unfold line_lower in E. rewrite !lower_app, E. now rewrite !append_assoc.
Qed.

(** With an empty topic the bare-topic pattern matches every line. *)
Lemma topic_match_empty (line : string) : topic_match "" line = true.
Proof.
  unfold topic_match, topic_patterns. cbn [existsb].
  change (Re.escape "") with (@nil (Re.atom * Re.quant)).
  rewrite (search_nil true). now rewrite !orb_true_r.
Qed.

End ReFacts.

(** * Facts about splitting and joining lines *)

Section LineFacts.

Lemma split_nonempty (sep : ascii) (s : string) : PyStr.split sep s <> [].
Proof.
  destruct s as [|c s]; simpl; [discriminate|].
  destruct (Ascii.eqb c sep); [discriminate|].
  destruct (PyStr.split sep s); discriminate.
Qed.

Lemma join_cons (sep x : string) (l : list string) :
  l <> [] -> PyStr.join sep (x :: l) = x +:+ sep +:+ PyStr.join sep l.
Proof. destruct l; [congruence | reflexivity]. Qed.

(** Joining the pieces of a split gives the text back. *)
Lemma join_split (sep : ascii) (s : string) :
  PyStr.join (String sep "") (PyStr.split sep s) = s.
Proof.
  induction s as [|c s IH]; [reflexivity|].
  pose proof (split_nonempty sep s) as Hne. cbn [PyStr.split].
  destruct (Ascii.eqb_spec c sep) as [->|Hc].
  - rewrite join_cons by assumption. now rewrite IH.
  - destruct (PyStr.split sep s) as [|l ls]; [congruence|].
    destruct ls as [|l' ls].
    + cbn [PyStr.join] in *. now rewrite IH.
    + rewrite join_cons by discriminate. rewrite join_cons in IH by discriminate.
      now rewrite <- IH.
Qed.

Lemma split_app (sep : ascii) (a b : string) :
  PyStr.split sep (a +:+ String sep b) = PyStr.split sep a ++ PyStr.split sep b.
Proof.
  induction a as [|c a IH]; simpl.
  - now rewrite Ascii.eqb_refl.
  - destruct (Ascii.eqb c sep); [now rewrite IH|].
    rewrite IH. pose proof (split_nonempty sep a).
    destruct (PyStr.split sep a); [congruence | reflexivity].
Qed.

Lemma split_join (sep : ascii) (ls : list string) :
  ls <> [] ->
  PyStr.split sep (PyStr.join (String sep "") ls) = concat (map (PyStr.split sep) ls).
Proof.
  induction ls as [|x ls IH]; [congruence|]. intros _.
  destruct ls as [|y ls].
  - simpl. now rewrite app_nil_r.
  - rewrite join_cons by discriminate.
    change (x +:+ String sep "" +:+ PyStr.join (String sep "") (y :: ls))
      with (x +:+ String sep (PyStr.join (String sep "") (y :: ls))).
    rewrite split_app, IH by discriminate. reflexivity.
Qed.

(** A string without a newline is a single line. *)
Lemma split_line (c : string) :
  PyStr.contains PyStr.NL c = false -> PyStr.split PyStr.nl c = [c].
Proof.
  induction c as [|x c IH]; [reflexivity|]. simpl.
  rewrite andb_true_r, (Ascii.eqb_sym _ x). fold PyStr.nl.
  destruct (Ascii.eqb x PyStr.nl); [discriminate|].
  intros H. now rewrite IH.
Qed.

Lemma split_lines (cs : list string) :
  forallb (fun c => negb (PyStr.contains PyStr.NL c)) cs = true ->
  concat (map (PyStr.split PyStr.nl) cs) = cs.
Proof.
  induction cs as [|c cs IH]; [reflexivity|]. simpl.
  intros [Hc Hcs]%andb_true_iff. apply negb_true_iff in Hc.
  now rewrite split_line, IH.
Qed.

End LineFacts.

(** * The capture loop *)

Section LocateFacts.

Variable topic : string.

(** Lines that all match the topic are all captured. *)
Lemma locate_all_match (lines : list string) (capturing : bool) (acc : list string) :
  forallb (topic_match topic) lines = true ->
  locate_loop topic lines capturing acc = acc ++ lines.
Proof.
  revert capturing acc. induction lines as [|l lines IH]; intros capturing acc H; simpl.
  - now rewrite app_nil_r.
  - simpl in H. apply andb_true_iff in H as [Hl H].
    rewrite Hl, IH by assumption. now rewrite <- app_assoc.
Qed.

(** Without a matching line the capture never starts. *)
Lemma locate_no_match (lines : list string) :
  forallb (fun l => negb (topic_match topic l)) lines = true ->
  locate_loop topic lines false [] = [].
Proof.
  induction lines as [|l lines IH]; intros H; simpl; [reflexivity|].
  simpl in H. apply andb_true_iff in H as [Hl H].
  apply negb_true_iff in Hl. rewrite Hl. now apply IH.
Qed.

(** While capturing, lines that do not end the capture are kept. *)
Lemma locate_keep (cs rest acc : list string) :
  forallb (fun c => negb (stops_capture topic c)) cs = true ->
  locate_loop topic (cs ++ rest) true acc = locate_loop topic rest true (acc ++ cs).
Proof.
  revert acc. induction cs as [|c cs IH]; intros acc H; simpl.
  - now rewrite app_nil_r.
  - simpl in H. apply andb_true_iff in H as [Hc H]. unfold stops_capture in Hc.
    destruct (topic_match topic c); simpl in Hc |- *.
    + rewrite IH by assumption. now rewrite <- app_assoc.
    + apply negb_true_iff in Hc. rewrite Hc.
      rewrite IH by assumption. now rewrite <- app_assoc.
Qed.

Lemma locate_stop (line : string) (rest acc : list string) :
  stops_capture topic line = true ->
  locate_loop topic (line :: rest) true acc = acc.
Proof.
  unfold stops_capture. intros [Hm Ho]%andb_true_iff.
  apply negb_true_iff in Hm. simpl. now rewrite Hm, Ho.
Qed.

End LocateFacts.

Lemma plain_line_keeps (topic line : string) :
  numbered_heading line = false -> stops_capture topic line = false.
Proof.
  unfold stops_capture, other_heading. intros ->.
  now rewrite andb_false_r.
Qed.

(** * The topic locator *)

Section Locator.

Context `{Nltk}.

(** C9: with an empty topic [find_topic_content] returns the text
    unchanged: every line matches the empty pattern, so every line is
    captured and the lines are joined back with newlines. *)
Theorem find_topic_content_empty_topic (text : string) :
  find_topic_content text "" = text.
Proof.
  unfold find_topic_content.
  rewrite locate_all_match.
  - pose proof (split_nonempty PyStr.nl text) as Hne.
    pose proof (join_split PyStr.nl text) as Hj.
    destruct (PyStr.split PyStr.nl text) as [|l ls]; [congruence|].
    exact Hj.
  - apply forallb_forall. intros line _. apply topic_match_empty.
Qed.

(** C4: when no line of the text contains the topic, compared without
    regard to case (so that no heading pattern, each of which ends in the
    topic, can match either), [find_topic_content] returns the first 50
    sentences of the text, all of them when there are fewer, joined by
    single spaces. *)
Theorem find_topic_content_fallback (text topic : string) :
  forallb (fun line => negb (PyStr.contains (PyStr.lower topic) (PyStr.lower line)))
          (PyStr.split PyStr.nl text) = true ->
  find_topic_content text topic = PyStr.join " " (take 50 (sent_tokenize text)).
Proof.
  intros Hno. unfold find_topic_content.
  rewrite locate_no_match; [reflexivity|].
  apply forallb_forall. intros line Hin.
  rewrite forallb_forall in Hno. specialize (Hno line Hin).
  destruct (topic_match topic line) eqn:Hm; [|reflexivity].
  apply topic_match_contains in Hm. now rewrite Hm in Hno.
Qed.

Lemma thermo_heading_matches : topic_match "Thermodynamics" thermo_heading = true.
Proof. vm_compute. reflexivity. Qed.

Lemma optics_heading_stops : stops_capture "Thermodynamics" optics_heading = true.
Proof. vm_compute. reflexivity. Qed.

(** The capture between two numbered headings, for any number of content
    lines. *)
Lemma capture_between_headings (cs more : list string) :
  forallb (fun c => negb (PyStr.contains PyStr.NL c) && negb (numbered_heading c)) cs = true ->
  find_topic_content
    (PyStr.join PyStr.NL (thermo_heading :: cs ++ optics_heading :: more))
    "Thermodynamics"
  = PyStr.join PyStr.NL (thermo_heading :: cs).
Proof.
  intros Hcs. unfold find_topic_content.
  assert (Hnl : forallb (fun c => negb (PyStr.contains PyStr.NL c)) cs = true).
  { apply forallb_forall. intros c Hc. rewrite forallb_forall in Hcs.
    now apply Hcs, andb_true_iff in Hc as [Hc _]. }
  assert (Hkeep : forallb (fun c => negb (stops_capture "Thermodynamics" c)) cs = true).
  { apply forallb_forall. intros c Hc. rewrite forallb_forall in Hcs.
    apply Hcs, andb_true_iff in Hc as [_ Hc]. apply negb_true_iff in Hc.
    now rewrite plain_line_keeps. }
  unfold PyStr.NL. rewrite split_join by discriminate.
  cbn [map concat]. rewrite map_app, concat_app. cbn [map concat].
  rewrite (split_lines cs Hnl).
  change (PyStr.split PyStr.nl thermo_heading) with [thermo_heading].
  change (PyStr.split PyStr.nl optics_heading) with [optics_heading].
  cbn [app locate_loop]. rewrite thermo_heading_matches.
  rewrite (locate_keep _ cs _ _ Hkeep).
  cbn [app]. rewrite (locate_stop _ _ _ _ optics_heading_stops).
  reflexivity.
Qed.

(** C3: for a text made of the line "Chapter 2: Thermodynamics", five
    content lines that contain neither the topic string nor a numbered
    chapter, unit or section heading, the line "Chapter 3: Optics" and any
    further lines, [find_topic_content] with topic "Thermodynamics" returns
    the heading line and the five content lines joined by newlines, and
    nothing from "Chapter 3: Optics" on. *)
Theorem find_topic_content_thermodynamics (cs more : list string) :
  length cs = 5 ->
  forallb (fun c => negb (PyStr.contains PyStr.NL c)
                    && negb (PyStr.contains "Thermodynamics" c)
                    && negb (numbered_heading c)) cs = true ->
  find_topic_content
    (PyStr.join PyStr.NL (thermo_heading :: cs ++ optics_heading :: more))
    "Thermodynamics"
  = PyStr.join PyStr.NL (thermo_heading :: cs).
Proof.
  intros _ Hcs. apply capture_between_headings.
  apply forallb_forall. intros c Hc. rewrite forallb_forall in Hcs.
  apply Hcs in Hc. apply andb_true_iff in Hc as [Hc Hh].
  apply andb_true_iff in Hc as [Hc _]. now rewrite Hc, Hh.
Qed.

End Locator.

(** * Total correctness in the random monad *)

Section RandomFacts.

Context {A : Type}.

Lemma returns_ret {B} (b : B) (P : B -> Prop) : P b -> returns (ret b) P.
Proof. intros Hb g. now exists b, g. Qed.

Lemma returns_bind {B C} (m : M B) (k : B -> M C) (P : B -> Prop) (Q : C -> Prop) :
  returns m P -> (forall b, P b -> returns (k b) Q) -> returns (bind m k) Q.
Proof.
  intros Hm Hk g. destruct (Hm g) as (b & g1 & Eb & Hb).
  destruct (Hk b Hb g1) as (c & g2 & Ec & Hc).
  exists c, g2. unfold bind. now rewrite Eb.
Qed.

Lemma returns_weaken {B} (m : M B) (P Q : B -> Prop) :
  returns m P -> (forall b, P b -> Q b) -> returns m Q.
Proof.
  intros Hm HPQ g. destruct (Hm g) as (b & g1 & Eb & Hb). exists b, g1. auto.
Qed.

Lemma returns_randbelow (n : nat) : 0 < n -> returns (randbelow n) (fun v => v < n).
Proof.
  intros Hn [|x g]; simpl.
  - now exists 0, [].
  - exists (x mod n), g. split; [reflexivity|]. apply Nat.mod_upper_bound. lia.
Qed.

Lemma returns_index (l : list A) (i : nat) :
  i < length l -> returns (index l i) (fun x => l !! i = Some x).
Proof.
  intros Hi. unfold index.
  destruct (lookup_lt_is_Some_2 l i Hi) as [x Hx]. rewrite Hx.
  now apply returns_ret.
Qed.

Lemma returns_choice (l : list A) :
  l <> [] -> returns (choice l) (fun x => x ∈ l).
Proof.
  intros Hl. destruct l as [|y l]; [congruence|]. unfold choice.
  eapply returns_bind.
  - apply returns_randbelow. simpl. lia.
  - intros i Hi. eapply returns_weaken; [now apply returns_index|].
    intros x Hx. now apply list_elem_of_lookup_2 in Hx.
Qed.

(** The pool left after one draw is drawn from the old pool. *)
Lemma pool_step_subseteq (pool : list A) (j : nat) (y : A) :
  last pool = Some y -> take (length pool - 1) (<[j := y]> pool) ⊆ pool.
Proof.
  intros Hy x Hx. apply subseteq_take in Hx.
  apply list_elem_of_lookup in Hx as [i Hi].
  apply list_lookup_insert_Some in Hi as [(_ & <- & _)|[_ Hi]].
  - apply last_Some in Hy as [l' ->]. apply elem_of_app. right. constructor.
  - now apply list_elem_of_lookup_2 in Hi.
Qed.

Lemma returns_sample_go (k : nat) (pool : list A) :
  k <= length pool ->
  returns (sample_go pool k) (fun r => length r = k /\ r ⊆ pool).
Proof.
  revert pool. induction k as [|k IH]; intros pool Hk; simpl.
  - apply returns_ret. split; [reflexivity|]. intros x Hx. inversion Hx.
  - eapply returns_bind; [apply returns_randbelow; lia|]. intros j Hj.
    eapply returns_bind; [now apply returns_index|]. intros x Hx.
    destruct (last pool) as [y|] eqn:Hy.
    + eapply returns_bind.
      * apply IH. rewrite length_take, length_insert. lia.
      * intros rest [Hlen Hsub]. apply returns_ret. split; [simpl; lia|].
        intros z Hz. apply elem_of_cons in Hz as [->|Hz].
        -- now apply list_elem_of_lookup_2 in Hx.
        -- eapply pool_step_subseteq; eauto.
    + destruct pool; [simpl in Hk; lia|]. now rewrite last_cons in Hy; destruct (last pool).
Qed.

Lemma returns_sample (population : list A) (k : nat) :
  k <= length population ->
  returns (sample population k) (fun r => length r = k /\ r ⊆ population).
Proof.
  intros Hk. unfold sample.
  destruct (Nat.ltb_spec (length population) k); [lia|].
  now apply returns_sample_go.
Qed.

Lemma swap_length (i j : nat) (x : list A) : length (swap i j x) = length x.
Proof.
  unfold swap. destruct (x !! i), (x !! j); rewrite ?length_insert; reflexivity.
Qed.

Lemma swap_elem_of (i j : nat) (x : list A) (a : A) : a ∈ swap i j x <-> a ∈ x.
Proof.
  unfold swap. destruct (x !! i) as [u|] eqn:Hu; [|reflexivity].
  destruct (x !! j) as [v|] eqn:Hv; [|reflexivity].
  pose proof (lookup_lt_Some _ _ _ Hu) as Hi.
  pose proof (lookup_lt_Some _ _ _ Hv) as Hj.
  rewrite !list_elem_of_lookup. split.
  - intros [k Hk].
    apply list_lookup_insert_Some in Hk as [(_ & <- & _)|[_ Hk]]; [eauto|].
    apply list_lookup_insert_Some in Hk as [(_ & <- & _)|[_ Hk]]; eauto.
  - intros [k Hk].
    destruct (decide (k = i)) as [->|Hki].
    + exists j. destruct (decide (i = j)) as [->|Hij].
      * rewrite list_lookup_insert_eq by (rewrite length_insert; lia). congruence.
      * rewrite list_lookup_insert_ne by assumption.
        rewrite list_lookup_insert_eq by lia. congruence.
    + destruct (decide (k = j)) as [->|Hkj].
      * exists i. rewrite list_lookup_insert_eq by (rewrite length_insert; lia). congruence.
      * exists k. rewrite !list_lookup_insert_ne by congruence. assumption.
Qed.

Lemma returns_shuffle_go (i : nat) (x : list A) :
  returns (shuffle_go i x) (fun y => length y = length x /\ forall a, a ∈ y <-> a ∈ x).
Proof.
  revert x. induction i as [|i IH]; intros x; simpl.
  - now apply returns_ret.
  - eapply returns_bind; [apply returns_randbelow; lia|]. intros j _.
    eapply returns_weaken; [apply IH|]. intros y [Hlen Hel].
    rewrite swap_length in Hlen. split; [assumption|].
    intros a. now rewrite Hel, swap_elem_of.
Qed.

(** A shuffle keeps the length and the elements of the list. *)
Lemma returns_shuffle (x : list A) :
  returns (shuffle x) (fun y => length y = length x /\ forall a, a ∈ y <-> a ∈ x).
Proof. apply returns_shuffle_go. Qed.

(** Loop rule: [I done s] relates the elements handled so far to the
    state. *)
Lemma returns_for_each {S} (xs : list A) (body : A -> S -> M S)
    (I : list A -> S -> Prop) (s0 : S) :
  I [] s0 ->
  (forall done x s, I done s -> x ∈ xs -> returns (body x s) (I (done ++ [x]))) ->
  returns (for_each xs body s0) (I xs).
Proof.
  intros H0 Hstep.
  enough (Hgen : forall done s, I done s ->
            (forall done' x s', I done' s' -> x ∈ xs -> returns (body x s') (I (done' ++ [x]))) ->
            forall rest, rest ⊆ xs -> returns (for_each rest body s) (I (done ++ rest))).
  { apply (Hgen [] s0 H0 Hstep xs). reflexivity. }
  clear. intros done s Hs Hstep rest. revert done s Hs.
  induction rest as [|x rest IH]; intros done s Hs Hsub; simpl.
  - rewrite app_nil_r. now apply returns_ret.
  - eapply returns_bind.
    + apply (Hstep done x s Hs). apply Hsub. constructor.
    + intros s' Hs'. replace (done ++ x :: rest) with ((done ++ [x]) ++ rest)
        by now rewrite <- app_assoc.
      apply IH; [assumption|]. intros z Hz. apply Hsub. now constructor.
Qed.

End RandomFacts.

(** * The distractor generator *)

Section Distractors.

Variables (correct_answer : string) (word_pool : list string).

(** What [generate_wrong_answers] returns: the first three of the picked
    candidates followed by two generic answers. *)
Lemma generate_wrong_answers_spec :
  returns (generate_wrong_answers correct_answer word_pool)
    (fun r => exists picked generic,
       r = take 3 (picked ++ generic)
       /\ length picked = Nat.min 2 (length (candidates correct_answer word_pool))
       /\ picked ⊆ candidates correct_answer word_pool
       /\ length generic = 2
       /\ generic ⊆ generic_answers).
Proof.
  unfold generate_wrong_answers. cbv zeta.
  eapply returns_bind; [apply returns_sample; lia|]. intros picked [Hp1 Hp2].
  eapply returns_bind; [apply returns_sample; simpl; lia|]. intros generic [Hg1 Hg2].
  apply returns_ret. now exists picked, generic.
Qed.

Lemma wrong_answers_length (r picked generic : list string) :
  r = take 3 (picked ++ generic) ->
  length picked = Nat.min 2 (length (candidates correct_answer word_pool)) ->
  length generic = 2 ->
  length r = Nat.min 3 (Nat.min 2 (length (candidates correct_answer word_pool)) + 2).
Proof. intros -> Hp Hg. rewrite length_take, length_app. lia. Qed.

(** C10: whatever the correct answer and the word pool, the list returned
    by [generate_wrong_answers] holds at least one of the four generic
    answers. *)
Theorem generate_wrong_answers_has_generic :
  returns (generate_wrong_answers correct_answer word_pool)
    (fun r => exists x, x ∈ r /\ x ∈ generic_answers).
Proof.
  eapply returns_weaken; [apply generate_wrong_answers_spec|].
  intros r (picked & generic & -> & Hp & _ & Hg & Hsub).
  destruct generic as [|g1 [|g2 [|? ?]]]; try discriminate.
  exists g1. split.
  - apply elem_of_take. exists (length picked). split; [|lia].
    rewrite lookup_app_r by lia. now rewrite Nat.sub_diag.
  - apply Hsub. constructor.
Qed.

(** A pool word that differs from the correct answer up to case is a
    candidate. *)
Lemma candidates_nonempty :
  existsb (fun w => negb (bool_decide (PyStr.lower w = PyStr.lower correct_answer)))
          word_pool = true ->
  1 <= length (candidates correct_answer word_pool).
Proof.
  intros (w & Hw & Hne)%existsb_exists.
  apply negb_true_iff, bool_decide_eq_false in Hne.
  unfold candidates. rewrite length_map.
  assert (Hin : In w (List.filter
            (fun w => negb (bool_decide (w = PyStr.lower correct_answer))) word_pool)).
  { apply filter_In. split; [assumption|].
    apply negb_true_iff, bool_decide_eq_false. intros ->.
    apply Hne. apply lower_idem. }
  destruct (List.filter _ word_pool); [destruct Hin | simpl; lia].
Qed.

(** C7: when the word pool holds a word that differs from the correct
    answer up to case, [generate_wrong_answers] returns exactly three
    strings. *)
Theorem generate_wrong_answers_three :
  existsb (fun w => negb (bool_decide (PyStr.lower w = PyStr.lower correct_answer)))
          word_pool = true ->
  returns (generate_wrong_answers correct_answer word_pool) (fun r => length r = 3).
Proof.
  intros Hpool. apply candidates_nonempty in Hpool.
  eapply returns_weaken; [apply generate_wrong_answers_spec|].
  intros r (picked & generic & Hr & Hp & _ & Hg & _).
  rewrite (wrong_answers_length r picked generic Hr Hp Hg). lia.
Qed.

End Distractors.

(** * The fallback synthesizers *)

Lemma omap_lookup_seq {A} (l : list A) (k : nat) :
  k <= length l -> omap (fun i => l !! i) (seq 0 k) = take k l.
Proof.
  induction k as [|k IH]; intros Hk; [reflexivity|].
  rewrite seq_S, omap_app, IH by lia. simpl.
  destruct (lookup_lt_is_Some_2 l k ltac:(lia)) as [x Hx].
  rewrite Hx. now rewrite (take_S_r l k x Hx).
Qed.

Lemma range_min_seq {A} (n : Z) (l : list A) :
  range_min n l = seq 0 (Nat.min (Z.to_nat n) (length l)).
Proof. unfold range_min. f_equal. lia. Qed.

Lemma range_min_lt {A} (n : Z) (l : list A) (i : nat) :
  i ∈ range_min n l -> i < length l.
Proof.
  rewrite range_min_seq. intros Hi%list_elem_of_In%in_seq. lia.
Qed.

Lemma range_min_lookups {A} (n : Z) (l : list A) :
  omap (fun i => l !! i) (range_min n l) = take (Z.to_nat n) l.
Proof.
  rewrite range_min_seq, omap_lookup_seq by lia.
  destruct (Nat.le_ge_cases (Z.to_nat n) (length l)) as [Hle|Hge].
  - now rewrite Nat.min_l.
  - rewrite Nat.min_r by assumption. now rewrite !take_ge by lia.
Qed.

(** The final [[:num_questions]] changes nothing: the loop never builds
    more than [num_questions] items. *)
Lemma slice_to_short {A} (l : list A) (n : Z) :
  length l <= Z.to_nat n -> slice_to l n = l.
Proof.
  intros Hl. unfold slice_to. destruct (Z.leb_spec 0 n).
  - now apply take_ge.
  - replace (Z.to_nat n) with 0 in Hl by lia.
    destruct l; [reflexivity | simpl in Hl; lia].
Qed.

Lemma length_filter_take_le {A} (p : A -> bool) (l : list A) (k : nat) :
  length (List.filter p (take k l)) <= k.
Proof.
  etransitivity; [apply filter_length_le|]. rewrite length_take. lia.
Qed.

Section FallbackFacts.

Context `{Nltk}.
Variable stop_words : gset string.
Variable content : string.

Lemma mcq_step_spec (i : nat) (mcqs : list MCQ) (raw : string) :
  sent_tokenize content !! i = Some raw ->
  returns (mcq_step stop_words (sent_tokenize content) i mcqs)
    (fun mcqs' =>
       if qualifies_mcq stop_words raw then exists q, mcqs' = mcqs ++ [q] /\ mcq_from stop_words content q
       else mcqs' = mcqs).
Proof.
  intros Hraw. unfold mcq_step, index, qualifies_mcq. rewrite Hraw.
  apply (returns_bind _ _ (fun r => r = raw)); [now apply returns_ret|].
  intros ? ->. cbv zeta.
  destruct (PyStr.len (PyStr.strip raw) <? 20) eqn:Hlen;
    [now apply returns_ret|].
  destruct (length (mcq_words stop_words (PyStr.strip raw)) <? 3) eqn:Hw;
    [now apply returns_ret|].
  apply Nat.ltb_ge in Hw. simpl negb. simpl andb.
  set (words := mcq_words stop_words (PyStr.strip raw)) in *.
  assert (Htake : take (Nat.min 5 (length words)) words = take 5 words).
  { destruct (Nat.le_ge_cases 5 (length words)).
    - now rewrite Nat.min_l.
    - rewrite Nat.min_r by assumption. now rewrite !take_ge by lia. }
  rewrite Htake.
  eapply returns_bind.
  { apply returns_choice. destruct words as [|? ?]; [simpl in Hw; lia | discriminate]. }
  intros key_word Hkey.
  eapply returns_bind; [apply generate_wrong_answers_spec|].
  intros wrong (picked & generic & Hr & Hp & _ & Hg & _).
  pose proof (wrong_answers_length _ _ _ _ _ Hr Hp Hg) as Hwl.
  eapply returns_bind; [apply returns_shuffle|].
  intros opts [Hol Hoe]. apply returns_ret.
  eexists. split; [reflexivity|].
  exists raw, key_word. cbn [question options correct_answer context].
  repeat split; try reflexivity; try assumption.
  - now apply list_elem_of_lookup_2 in Hraw.
  - unfold qualifies_mcq. cbv zeta. fold words. rewrite Hlen.
    apply Nat.ltb_ge in Hw. now rewrite Hw.
  - apply Hoe. constructor.
  - rewrite Hol. cbn [length]. rewrite length_take, Hwl. fold words. lia.
Qed.

(** The MCQ generator raises nothing; every question it returns comes
    from a qualifying sentence, and there is one question for each
    qualifying sentence among the first [num_questions]. *)
Lemma generate_mcqs_fallback_spec (num_questions : Z) :
  returns (generate_mcqs_fallback stop_words content num_questions)
    (fun mcqs =>
       Forall (mcq_from stop_words content) mcqs
       /\ length mcqs =
          length (List.filter (qualifies_mcq stop_words)
                    (take (Z.to_nat num_questions) (sent_tokenize content)))).
Proof.
  unfold generate_mcqs_fallback. cbv zeta.
  set (sentences := sent_tokenize content).
  eapply returns_bind.
  - apply (returns_for_each _ _
      (fun done mcqs =>
         Forall (mcq_from stop_words content) mcqs
         /\ length mcqs =
            length (List.filter (qualifies_mcq stop_words) (omap (fun i => sentences !! i) done)))).
    + split; [constructor | reflexivity].
    + intros done i mcqs [Hall Hlen] Hi.
      apply range_min_lt in Hi.
      destruct (lookup_lt_is_Some_2 _ _ Hi) as [raw Hraw].
      eapply returns_weaken; [apply (mcq_step_spec i mcqs raw Hraw)|].
      intros mcqs' Hstep. rewrite omap_app, List.filter_app, length_app. simpl.
      fold sentences in Hraw. rewrite Hraw. simpl.
      destruct (qualifies_mcq stop_words raw).
      * destruct Hstep as (q & -> & Hq). split.
        -- apply Forall_app. split; [assumption | now constructor].
        -- rewrite length_app. simpl. lia.
      * subst mcqs'. split; [assumption | simpl; lia].
  - intros mcqs [Hall Hlen]. rewrite range_min_lookups in Hlen.
    apply returns_ret. rewrite slice_to_short; [now split|].
    rewrite Hlen. apply length_filter_take_le.
Qed.

Lemma short_step_spec (i : nat) (questions : list string) (raw : string) :
  sent_tokenize content !! i = Some raw ->
  returns (short_step (sent_tokenize content) i questions)
    (fun qs' => length qs' = length questions + (if qualifies_short raw then 1 else 0)).
Proof.
  intros Hraw. unfold short_step, index, qualifies_short. rewrite Hraw.
  apply (returns_bind _ _ (fun r => r = raw)); [now apply returns_ret|].
  intros ? ->. cbv zeta.
  destruct (PyStr.len (PyStr.strip raw) <? 20) eqn:Hlen;
    [apply returns_ret; simpl; lia|].
  destruct (short_words (PyStr.strip raw)) as [|w ws] eqn:Hw;
    [apply returns_ret; simpl; lia|].
  eapply returns_bind.
  { apply returns_choice. simpl. discriminate. }
  intros key_concept _.
  eapply returns_bind; [apply returns_choice; discriminate|].
  intros starter _. apply returns_ret. rewrite length_app. simpl. lia.
Qed.

Lemma generate_short_questions_fallback_spec (num_questions : Z) :
  returns (generate_short_questions_fallback content num_questions)
    (fun qs =>
       length qs =
       length (List.filter qualifies_short
                 (take (Z.to_nat num_questions) (sent_tokenize content)))).
Proof.
  unfold generate_short_questions_fallback. cbv zeta.
  set (sentences := sent_tokenize content).
  eapply returns_bind.
  - apply (returns_for_each _ _
      (fun done (qs : list string) =>
         length qs =
         length (List.filter qualifies_short (omap (fun i => sentences !! i) done)))).
    + reflexivity.
    + intros done i qs Hlen Hi.
      apply range_min_lt in Hi.
      destruct (lookup_lt_is_Some_2 _ _ Hi) as [raw Hraw].
      eapply returns_weaken; [apply (short_step_spec i qs raw Hraw)|].
      intros qs' Hstep. rewrite omap_app, List.filter_app, length_app. simpl.
      fold sentences in Hraw. rewrite Hraw. simpl.
      destruct (qualifies_short raw); simpl; lia.
  - intros qs Hlen. rewrite range_min_lookups in Hlen.
    apply returns_ret. rewrite slice_to_short; [assumption|].
    rewrite Hlen. apply length_filter_take_le.
Qed.

Lemma generate_long_questions_fallback_spec (num_questions : Z) :
  returns (generate_long_questions_fallback stop_words content num_questions)
    (fun qs =>
       length qs = Nat.min (Z.to_nat num_questions)
                           (length (common_phrases stop_words content))).
Proof.
  unfold generate_long_questions_fallback. cbv zeta.
  set (phrases := common_phrases stop_words content).
  eapply returns_bind.
  - apply (returns_for_each _ _
      (fun done (qs : list string) => length qs = length done)).
    + reflexivity.
    + intros done i qs Hlen Hi. apply range_min_lt in Hi.
      unfold long_step.
      eapply returns_bind; [apply returns_choice; discriminate|]. intros template _.
      eapply returns_bind; [now apply returns_index|]. intros phrase _.
      apply returns_ret. rewrite !length_app. simpl. lia.
  - intros qs Hlen. rewrite range_min_seq, length_seq in Hlen.
    apply returns_ret. rewrite slice_to_short; lia.
Qed.

End FallbackFacts.

(** * Claims about the fallback synthesizers *)

Section FallbackClaims.

Context `{Nltk}.
Variable stop_words : gset string.
Variable content : string.

(** C8: the question text of every MCQ of the fallback generator is the
    source sentence with the first occurrence of the chosen key word
    replaced by "______", or, exactly when that replacement leaves the
    sentence unchanged, "What is mentioned about <key word> in the
    following context?". *)
Theorem mcq_question_text_shape (num_questions : Z) :
  returns (generate_mcqs_fallback stop_words content num_questions)
    (fun mcqs =>
       Forall (fun q =>
         exists raw key_word,
           raw ∈ sent_tokenize content
           /\ key_word ∈ mcq_words stop_words (PyStr.strip raw)
           /\ let sentence := PyStr.strip raw in
              let blanked := PyStr.replace_first key_word "______" sentence in
              (blanked <> sentence /\ question q = blanked)
              \/ (blanked = sentence
                  /\ question q =
                     "What is mentioned about " +:+ key_word +:+ " in the following context?"))
         mcqs).
Proof.
  eapply returns_weaken; [apply generate_mcqs_fallback_spec|].
  intros mcqs [Hall _]. eapply Forall_impl; [exact Hall|].
  intros q (raw & key_word & Hraw & _ & Hkey & Hq & _).
  exists raw, key_word. split; [assumption|].
  split; [now apply subseteq_take in Hkey|].
  cbv zeta. rewrite Hq. unfold mcq_question_text, blank, context_question.
  destruct (bool_decide_reflect
              (PyStr.replace_first key_word "______" (PyStr.strip raw) = PyStr.strip raw));
    [right | left]; now split.
Qed.

(** C2, as the code has it: for a non-negative count each fallback
    generator raises nothing and returns at most that many questions; the
    MCQ and short-answer generators return one question for each qualifying
    sentence among the first [num_questions] sentences, and the long-answer
    generator returns [min(num_questions, number of candidate phrases)]. *)
Theorem fallback_lengths (num_questions : Z) :
  (0 <= num_questions)%Z ->
  returns (generate_mcqs_fallback stop_words content num_questions)
    (fun mcqs =>
       (Z.of_nat (length mcqs) <= num_questions)%Z
       /\ length mcqs =
          length (List.filter (qualifies_mcq stop_words)
                    (take (Z.to_nat num_questions) (sent_tokenize content))))
  /\ returns (generate_short_questions_fallback content num_questions)
       (fun qs =>
          (Z.of_nat (length qs) <= num_questions)%Z
          /\ length qs =
             length (List.filter qualifies_short
                       (take (Z.to_nat num_questions) (sent_tokenize content))))
  /\ returns (generate_long_questions_fallback stop_words content num_questions)
       (fun qs =>
          (Z.of_nat (length qs) <= num_questions)%Z
          /\ length qs = Nat.min (Z.to_nat num_questions)
                                 (length (common_phrases stop_words content))).
Proof.
  intros Hn. repeat split.
  - eapply returns_weaken; [apply generate_mcqs_fallback_spec|].
    intros mcqs [_ Hlen]. split; [|assumption].
    pose proof (length_filter_take_le (qualifies_mcq stop_words)
                  (sent_tokenize content) (Z.to_nat num_questions)). lia.
  - eapply returns_weaken; [apply generate_short_questions_fallback_spec|].
    intros qs Hlen. cbv beta in Hlen. split; [|assumption].
    pose proof (length_filter_take_le qualifies_short
                  (sent_tokenize content) (Z.to_nat num_questions)). lia.
  - eapply returns_weaken; [apply generate_long_questions_fallback_spec|].
    intros qs Hlen. cbv beta in Hlen. split; [lia | assumption].
Qed.

End FallbackClaims.

(** * Claims about the entry points *)

Section EntryPoints.

Context `{Nltk}.
Variable parse_mcq_response : string -> Z -> string + list MCQ.
Variable parse_question_lines : string -> Z -> string + list string.

Lemma with_fallback_no_client {A} (self : QuestionPaperGenerator) (rq : ChatRequest)
    (parse : string -> Z -> string + list A) (fallback : M (list A)) (P : list A -> Prop) :
  groq_client self = None ->
  returns fallback P ->
  forall g, exists r g',
    fallback g = Ok r g' /\ with_fallback self rq parse fallback g = Ok (quiet r) g'.
Proof.
  intros Hnone Hret g. destruct (Hret g) as (r & g' & Hr & _).
  exists r, g'. split; [assumption|].
  unfold with_fallback. rewrite Hnone. unfold bind. now rewrite Hr.
Qed.

(** C5: without a Groq client each of [generate_mcqs],
    [generate_short_questions] and [generate_long_questions] returns what
    its fallback generator returns on the same content and count, shows no
    warning, and raises nothing. *)
Theorem no_client_uses_fallback (self : QuestionPaperGenerator) (content : string) (n : Z) :
  groq_client self = None ->
  forall g,
    (exists r g',
        generate_mcqs_fallback (stop_words self) content n g = Ok r g'
        /\ generate_mcqs parse_mcq_response self content n g = Ok (quiet r) g')
    /\ (exists r g',
        generate_short_questions_fallback content n g = Ok r g'
        /\ generate_short_questions parse_question_lines self content n g = Ok (quiet r) g')
    /\ (exists r g',
        generate_long_questions_fallback (stop_words self) content n g = Ok r g'
        /\ generate_long_questions parse_question_lines self content n g = Ok (quiet r) g').
Proof.
  intros Hnone g. repeat split.
  - eapply with_fallback_no_client; [assumption | apply generate_mcqs_fallback_spec].
  - eapply with_fallback_no_client;
      [assumption | apply generate_short_questions_fallback_spec].
  - eapply with_fallback_no_client;
      [assumption | apply generate_long_questions_fallback_spec].
Qed.

End EntryPoints.

(** * Claims about the paper formatter *)

Section Formatter.

Variable header : string.

Lemma option_lines_begins (opts : list string) (paper : string) (j : nat) :
  PyStr.startswith header paper = true ->
  PyStr.startswith header (option_lines paper j opts) = true.
Proof.
  revert paper j. induction opts as [|o opts IH]; intros paper j Hp; simpl; [assumption|].
  apply IH. now apply startswith_app_l.
Qed.

Lemma mcq_lines_begins (mcqs : list MCQ) (paper : string) (i : nat) :
  PyStr.startswith header paper = true ->
  PyStr.startswith header (mcq_lines paper i mcqs) = true.
Proof.
  revert paper i. induction mcqs as [|q mcqs IH]; intros paper i Hp; simpl; [assumption|].
  apply IH. apply startswith_app_l, option_lines_begins. now apply startswith_app_l.
Qed.

Lemma question_lines_begins (qs : list string) (paper : string) (i : nat) :
  PyStr.startswith header paper = true ->
  PyStr.startswith header (question_lines paper i qs) = true.
Proof.
  revert paper i. induction qs as [|q qs IH]; intros paper i Hp; simpl; [assumption|].
  apply IH. now apply startswith_app_l.
Qed.

Lemma usable_template_strip (t : string) :
  0 < PyStr.len (PyStr.strip t) -> usable_template (Some t) = Some t.
Proof.
  unfold usable_template. destruct t as [|c t]; [simpl; lia|].
  destruct (PyStr.strip (String c t)); [simpl; lia | reflexivity].
Qed.

End Formatter.

(** C6, as the code has it: for every template with at least one
    character that is not white space, and every combination of question
    lists, the output of [format_question_paper] begins with the template,
    verbatim. *)
Theorem format_begins_with_template (today template : string) (mcqs : list MCQ)
    (short_questions long_questions : list string) :
  0 < PyStr.len (PyStr.strip template) ->
  PyStr.startswith template
    (format_question_paper today mcqs short_questions long_questions (Some template)) = true.
Proof.
  intros Ht. unfold format_question_paper.
  rewrite (usable_template_strip template Ht).
  assert (H0 : PyStr.startswith template (template +:+ PyStr.NL +:+ PyStr.NL) = true)
    by apply startswith_app.
  set (p0 := template +:+ PyStr.NL +:+ PyStr.NL) in *.
  assert (H1 : PyStr.startswith template
                 match mcqs with
                 | [] => p0
                 | _ => mcq_lines (p0 +:+ PyStr.NL +:+ "SECTION A: MULTIPLE CHOICE QUESTIONS"
                                      +:+ PyStr.NL +:+ rule) 1 mcqs
                 end = true).
  { destruct mcqs; [assumption|]. now apply mcq_lines_begins, startswith_app_l. }
  set (p1 := match mcqs with [] => p0 | _ => _ end) in *.
  assert (H2 : PyStr.startswith template
                 match short_questions with
                 | [] => p1
                 | _ => question_lines (p1 +:+ PyStr.NL +:+ "SECTION B: SHORT ANSWER QUESTIONS"
                                           +:+ PyStr.NL +:+ rule) 1 short_questions
                 end = true).
  { destruct short_questions; [assumption|].
    now apply question_lines_begins, startswith_app_l. }
  set (p2 := match short_questions with [] => p1 | _ => _ end) in *.
  destruct long_questions; [assumption|].
  now apply question_lines_begins, startswith_app_l.
Qed.

(** * The model run on concrete inputs *)

Example end_to_end_cell :
  @generate_mcqs_fallback Plain.nltk Plain.stops cell_text 1 [3; 1; 4; 1; 5; 9]
  = Ok [ {| question := "The ______ is the powerhouse of the cell.";
            options := ["All of the above"; "Powerhouse"; "Mitochondria"; "Cell"];
            correct_answer := "Mitochondria";
            context := "The mitochondria is the powerhouse of the cell." |} ] [].
Proof. vm_compute. reflexivity. Qed.

(** Witness of [find_topic_content_thermodynamics]. *)
Lemma find_topic_content_thermodynamics_witness :
  @find_topic_content Plain.nltk
    (PyStr.join PyStr.NL (thermo_heading :: thermo_lines ++ optics_heading
                            :: ["Light bends when it enters glass."; "Section 1: Lenses"]))
    "Thermodynamics"
  = PyStr.join PyStr.NL (thermo_heading :: thermo_lines).
Proof.
  apply (@find_topic_content_thermodynamics Plain.nltk thermo_lines).
  - reflexivity.
  - vm_compute. reflexivity.
Defined.

(** Witness of [find_topic_content_fallback]. *)
Lemma find_topic_content_fallback_witness :
  @find_topic_content Plain.nltk "It rains. It pours." "Optics" = "It rains. It pours.".
Proof.
  apply (@find_topic_content_fallback Plain.nltk "It rains. It pours." "Optics").
  vm_compute. reflexivity.
Defined.

(** Witness of [generate_wrong_answers_three]. *)
Lemma generate_wrong_answers_three_witness :
  returns (generate_wrong_answers "Atp" ["produces"; "atp"; "respiration"])
          (fun r => length r = 3).
Proof.
  apply (generate_wrong_answers_three "Atp" ["produces"; "atp"; "respiration"]).
  vm_compute. reflexivity.
Defined.

(** Witness of [fallback_lengths]. *)
Lemma fallback_lengths_witness :
  returns (@generate_mcqs_fallback Plain.nltk Plain.stops cell_text 2)
    (fun mcqs =>
       (Z.of_nat (length mcqs) <= 2)%Z
       /\ length mcqs =
          length (List.filter (@qualifies_mcq Plain.nltk Plain.stops)
                    (take (Z.to_nat 2) (@sent_tokenize Plain.nltk cell_text))))
  /\ returns (@generate_short_questions_fallback Plain.nltk cell_text 2)
       (fun qs =>
          (Z.of_nat (length qs) <= 2)%Z
          /\ length qs =
             length (List.filter (@qualifies_short Plain.nltk)
                       (take (Z.to_nat 2) (@sent_tokenize Plain.nltk cell_text))))
  /\ returns (@generate_long_questions_fallback Plain.nltk Plain.stops cell_text 2)
       (fun qs =>
          (Z.of_nat (length qs) <= 2)%Z
          /\ length qs = Nat.min (Z.to_nat 2)
                                 (length (@common_phrases Plain.nltk Plain.stops cell_text))).
Proof.
  apply (@fallback_lengths Plain.nltk Plain.stops cell_text 2). lia.
Defined.

(** Witness of [no_client_uses_fallback]. *)
Lemma no_client_uses_fallback_witness :
  let self := @init Plain.nltk (fun _ => offline) None in
  groq_client self = None
  /\ forall g,
    (exists r g',
        @generate_mcqs_fallback Plain.nltk (stop_words self) cell_text 2 g = Ok r g'
        /\ @generate_mcqs Plain.nltk no_mcqs self cell_text 2 g = Ok (quiet r) g')
    /\ (exists r g',
        @generate_short_questions_fallback Plain.nltk cell_text 2 g = Ok r g'
        /\ @generate_short_questions Plain.nltk no_lines self cell_text 2 g = Ok (quiet r) g')
    /\ (exists r g',
        @generate_long_questions_fallback Plain.nltk (stop_words self) cell_text 2 g = Ok r g'
        /\ @generate_long_questions Plain.nltk no_lines self cell_text 2 g = Ok (quiet r) g').
Proof.
  split; [reflexivity|].
  apply (@no_client_uses_fallback Plain.nltk no_mcqs no_lines
           (@init Plain.nltk (fun _ => offline) None) cell_text 2).
  reflexivity.
Defined.

(** Witness of [format_begins_with_template]. *)
Lemma format_begins_with_template_witness :
  PyStr.startswith "MIDTERM EXAM"
    (format_question_paper "2024-01-01" [] ["Define entropy."] [] (Some "MIDTERM EXAM")) = true.
Proof.
  apply (format_begins_with_template "2024-01-01" "MIDTERM EXAM" [] ["Define entropy."] []).
  vm_compute. lia.
Defined.

(** C6 as stated fails: a template of one blank is not empty, yet the
    paper starts with the synthesized header, whose first character is a
    newline. *)
Lemma blank_template_not_used :
  ~ (forall (today template : string) (mcqs : list MCQ) (short_questions long_questions : list string),
       template <> "" ->
       PyStr.startswith template
         (format_question_paper today mcqs short_questions long_questions (Some template)) = true).
Proof.
  intros Hclaim.
  specialize (Hclaim "2024-01-01" " " [] [] [] ltac:(discriminate)).
  vm_compute in Hclaim. discriminate.
Qed.

(** C2 as stated fails for the MCQ generator: the text has one qualifying
    sentence, enough for a request of one question, but the loop looks at
    the first sentence only, skips it, and returns nothing. *)
Lemma skipped_sentence_not_replaced :
  ~ (forall (nltk : Nltk) (stop_words : gset string) (content : string) (n : Z),
       (0 <= n)%Z ->
       (n <= Z.of_nat (length (List.filter (@qualifies_mcq nltk stop_words)
                                 (@sent_tokenize nltk content))))%Z ->
       returns (@generate_mcqs_fallback nltk stop_words content n)
               (fun mcqs => Z.of_nat (length mcqs) = n)).
Proof.
  intros Hclaim.
  specialize (Hclaim Plain.nltk Plain.stops rain_text 1%Z ltac:(lia)).
  assert (Hpool : (1 <= Z.of_nat (length (List.filter (@qualifies_mcq Plain.nltk Plain.stops)
                                     (@sent_tokenize Plain.nltk rain_text))))%Z).
  { vm_compute. discriminate. }
  destruct (Hclaim Hpool []) as (mcqs & g' & Hrun & Hlen).
  vm_compute in Hrun. injection Hrun as <- _. simpl in Hlen. lia.
Qed.

Lemma buffalo_sentences : @sent_tokenize Plain.nltk buffalo_text = [buffalo_text].
Proof. reflexivity. Qed.

Lemma buffalo_words :
  take 5 (@mcq_words Plain.nltk Plain.stops (PyStr.strip buffalo_text))
  = ["buffalo"; "buffalo"; "buffalo"; "buffalo"].
Proof. vm_compute. reflexivity. Qed.

Lemma buffalo_candidates :
  candidates (PyStr.title "buffalo")
             (@mcq_words Plain.nltk Plain.stops (PyStr.strip buffalo_text)) = [].
Proof. vm_compute. reflexivity. Qed.

(** C1 at a failing input: for the one-sentence text
    "Buffalo buffalo buffalo buffalo." and a request of one question, on
    every tape the fallback MCQ generator returns a single question with
    three options, not four; the correct answer is among them. *)
Theorem one_word_sentence_has_three_options :
  forall g, exists q g',
    @generate_mcqs_fallback Plain.nltk Plain.stops buffalo_text 1 g = Ok [q] g'
    /\ length (options q) = 3
    /\ correct_answer q ∈ options q.
Proof.
  intros g.
  destruct (@generate_mcqs_fallback_spec Plain.nltk Plain.stops buffalo_text 1 g)
    as (mcqs & g' & Hrun & Hall & Hlen).
  change (length mcqs = 1) in Hlen.
  destruct mcqs as [|q [|? ?]]; try discriminate.
  exists q, g'. split; [assumption|].
  apply Forall_inv in Hall.
  destruct Hall as (raw & key_word & Hraw & _ & Hkey & _ & _ & _ & Hin & Hopts).
  rewrite buffalo_sentences in Hraw. apply list_elem_of_singleton in Hraw. subst raw.
  rewrite buffalo_words in Hkey.
  assert (key_word = "buffalo") as ->.
  { repeat (apply elem_of_cons in Hkey as [Hkey|Hkey]; [assumption|]).
    now apply elem_of_nil in Hkey. }
  rewrite buffalo_candidates in Hopts. split; assumption.
Qed.

(** What holds of the options on every input: each question has the
    correct answer among its options, and three or four of them. *)
Lemma mcq_options_invariant `{Nltk} (stop_words : gset string) (content : string) (n : Z) :
  returns (generate_mcqs_fallback stop_words content n)
    (fun mcqs =>
       Forall (fun q => correct_answer q ∈ options q
                        /\ 3 <= length (options q) <= 4) mcqs).
Proof.
  eapply returns_weaken; [apply generate_mcqs_fallback_spec|].
  intros mcqs [Hall _]. eapply Forall_impl; [exact Hall|].
  intros q (raw & key_word & _ & _ & _ & _ & _ & _ & Hin & Hopts).
  split; [assumption | lia].
Qed.

(** * Further properties of the topic locator *)

Section LocatorShape.

Variable topic : string.

Lemma locate_capturing (lines acc : list string) :
  locate_loop topic lines true acc = acc ++ keep_until (stops_capture topic) lines.
Proof.
  revert acc. induction lines as [|l lines IH]; intros acc; simpl.
  - now rewrite app_nil_r.
  - unfold stops_capture at 1. destruct (topic_match topic l); simpl.
    + rewrite IH. now rewrite <- app_assoc.
    + destruct (other_heading topic l); simpl.
      * now rewrite app_nil_r.
      * rewrite IH. now rewrite <- app_assoc.
Qed.

Lemma locate_waiting (lines : list string) :
  locate_loop topic lines false [] =
  match skip_to (topic_match topic) lines with
  | [] => []
  | first :: rest => first :: keep_until (stops_capture topic) rest
  end.
Proof.
  induction lines as [|l lines IH]; simpl; [reflexivity|].
  destruct (topic_match topic l); simpl; [|assumption].
  apply locate_capturing.
Qed.

End LocatorShape.

Lemma find_topic_content_slice `{Nltk} (text topic : string) :
  find_topic_content text topic =
  match skip_to (topic_match topic) (PyStr.split PyStr.nl text) with
  | [] => PyStr.join " " (take 50 (sent_tokenize text))
  | first :: rest => PyStr.join PyStr.NL (first :: keep_until (stops_capture topic) rest)
  end.
Proof.
  unfold find_topic_content. rewrite locate_waiting.
  now destruct (skip_to (topic_match topic) (PyStr.split PyStr.nl text)).
Qed.

(** X1: The slice returned by [find_topic_content] starts at the first line
    that matches a topic pattern and runs up to, and not including, the
    first later line that is another numbered heading; the lines before the
    first match and from that heading on are left out.  Without a matching
    line the result is the first 50 sentences. *)
Theorem find_topic_content_block `{Nltk} (text topic : string) :
  find_topic_content text topic =
  match skip_to (topic_match topic) (PyStr.split PyStr.nl text) with
  | [] => PyStr.join " " (take 50 (sent_tokenize text))
  | first :: rest => PyStr.join PyStr.NL (first :: keep_until (stops_capture topic) rest)
  end.
Proof. intros. eapply find_topic_content_slice; eassumption. Qed.

(** * Blank and visible strings *)

Section Visible.

Lemma visible_app (a b : string) : visible (a +:+ b) = visible a || visible b.
Proof.
  unfold visible. induction a as [|c a IH]; simpl; [reflexivity|].
  destruct (PyStr.is_space c); simpl; [assumption | reflexivity].
Qed.

Lemma is_space_lower_char (c : ascii) : PyStr.is_space (PyStr.lower_char c) = PyStr.is_space c.
Proof. destruct c as [[] [] [] [] [] [] [] []]; reflexivity. Qed.

Lemma visible_lower (s : string) : visible (PyStr.lower s) = visible s.
Proof.
  unfold visible. f_equal. induction s as [|c s IH]; simpl; [reflexivity|].
  now rewrite is_space_lower_char, IH.
Qed.

Lemma lstrip_blank (s : string) : visible s = false -> PyStr.lstrip s = "".
Proof.
  unfold visible. induction s as [|c s IH]; simpl; [reflexivity|].
  destruct (PyStr.is_space c); simpl; [assumption | discriminate].
Qed.

Lemma lstrip_visible (s : string) :
  visible s = true ->
  exists c r, PyStr.lstrip s = String c r /\ PyStr.is_space c = false.
Proof.
  unfold visible. induction s as [|c s IH]; simpl; [discriminate|].
  destruct (PyStr.is_space c) eqn:Hc; simpl; [assumption|].
  intros _. now exists c, s.
Qed.

Lemma rstrip_keeps_head (c : ascii) (r : string) :
  PyStr.is_space c = false -> exists r', PyStr.rstrip (String c r) = String c r'.
Proof.
  intros Hc. simpl. destruct (PyStr.rstrip r); rewrite ?Hc; eauto.
Qed.

(** [s.strip()] is empty exactly when [s] has no visible character. *)
Lemma strip_visible (s : string) : 0 < PyStr.len (PyStr.strip s) <-> visible s = true.
Proof.
  unfold PyStr.strip. destruct (visible s) eqn:Hv.
  - destruct (lstrip_visible s Hv) as (c & r & -> & Hc).
    destruct (rstrip_keeps_head c r Hc) as [r' ->]. simpl. split; [reflexivity | lia].
  - rewrite (lstrip_blank s Hv). simpl. split; [lia | discriminate].
Qed.

Lemma contains_visible (sub s : string) :
  PyStr.contains sub s = true -> visible sub = true -> visible s = true.
Proof.
  intros (a & b & ->)%contains_spec Hsub.
  rewrite !visible_app, Hsub. now rewrite orb_true_r.
Qed.

Lemma join_head_visible (sep first : string) (rest : list string) :
  visible first = true -> visible (PyStr.join sep (first :: rest)) = true.
Proof.
  intros Hf. destruct rest as [|x rest]; [assumption|].
  rewrite join_cons by discriminate. now rewrite visible_app, Hf.
Qed.

Lemma skip_to_head (p : string -> bool) (lines : list string) :
  match skip_to p lines with
  | [] => existsb p lines = false
  | first :: _ => p first = true
  end.
Proof.
  induction lines as [|l lines IH]; simpl; [reflexivity|].
  destruct (p l) eqn:Hl; [assumption|]. simpl. exact IH.
Qed.

End Visible.

(** X2: When the topic has a visible character and some line of the text
    matches a topic pattern, the located content is not blank: the handler's
    general-content substitute is not needed. *)
Theorem find_topic_content_not_blank `{Nltk} (text topic : string) :
  0 < PyStr.len (PyStr.strip topic) ->
  existsb (topic_match topic) (PyStr.split PyStr.nl text) = true ->
  0 < PyStr.len (PyStr.strip (find_topic_content text topic)).
Proof.
  intros Ht%strip_visible Hsome. apply strip_visible.
  rewrite find_topic_content_slice.
  pose proof (skip_to_head (topic_match topic) (PyStr.split PyStr.nl text)) as Hhead.
  destruct (skip_to (topic_match topic) (PyStr.split PyStr.nl text)) as [|first rest];
    [congruence|].
  apply join_head_visible.
  apply topic_match_contains in Hhead.
  rewrite <- visible_lower. eapply contains_visible; [exact Hhead|].
  now rewrite visible_lower.
Qed.

(** Witness of [find_topic_content_not_blank]. *)
Lemma find_topic_content_not_blank_witness :
  0 < PyStr.len (PyStr.strip
        (@find_topic_content Plain.nltk
           (PyStr.join PyStr.NL (thermo_heading :: thermo_lines)) "thermodynamics")).
Proof.
  apply (@find_topic_content_not_blank Plain.nltk
           (PyStr.join PyStr.NL (thermo_heading :: thermo_lines)) "thermodynamics").
  - vm_compute. lia.
  - reflexivity.
Defined.

(** * Further properties of the fallback synthesizers *)

Lemma range_min_nonpositive {A} (n : Z) (l : list A) : (n <= 0)%Z -> range_min n l = [].
Proof.
  intros Hn. unfold range_min. replace (Z.to_nat (Z.min n (Z.of_nat (length l)))) with 0 by lia.
  reflexivity.
Qed.

Lemma slice_to_nil {A} (n : Z) : slice_to (@nil A) n = [].
Proof. unfold slice_to. destruct (0 <=? n)%Z; apply take_nil. Qed.

Lemma Forall_slice_to {A} (P : A -> Prop) (l : list A) (n : Z) :
  Forall P l -> Forall P (slice_to l n).
Proof. intros Hl. unfold slice_to. destruct (0 <=? n)%Z; now apply Forall_take. Qed.

(** X3: A request for no question, or for a negative number of them, gives
    the empty list from each fallback generator, and draws nothing from
    the random source. *)
Theorem fallback_nothing_requested `{Nltk} (stop_words : gset string) (content : string)
    (n : Z) (g : rng) :
  (n <= 0)%Z ->
  generate_mcqs_fallback stop_words content n g = Ok [] g
  /\ generate_short_questions_fallback content n g = Ok [] g
  /\ generate_long_questions_fallback stop_words content n g = Ok [] g.
Proof.
  intros Hn.
  unfold generate_mcqs_fallback, generate_short_questions_fallback,
    generate_long_questions_fallback.
  cbv zeta. rewrite !range_min_nonpositive by assumption.
  unfold bind, ret. simpl. now rewrite !slice_to_nil.
Qed.

(** Witness of [fallback_nothing_requested]. *)
Lemma fallback_nothing_requested_witness :
  @generate_mcqs_fallback Plain.nltk Plain.stops cell_text 0 [3; 1; 4] = Ok [] [3; 1; 4]
  /\ @generate_short_questions_fallback Plain.nltk cell_text 0 [3; 1; 4] = Ok [] [3; 1; 4]
  /\ @generate_long_questions_fallback Plain.nltk Plain.stops cell_text 0 [3; 1; 4]
     = Ok [] [3; 1; 4].
Proof.
  apply (@fallback_nothing_requested Plain.nltk Plain.stops cell_text 0 [3; 1; 4]). lia.
Defined.

Section Excerpt.

Lemma len_app (a b : string) : PyStr.len (a +:+ b) = PyStr.len a + PyStr.len b.
Proof. unfold PyStr.len. induction a as [|c a IH]; simpl; [reflexivity | now rewrite IH]. Qed.

Lemma len_take (n : nat) (s : string) : PyStr.len (PyStr.take n s) <= n.
Proof.
  unfold PyStr.len. revert s. induction n as [|n IH]; intros [|c s]; simpl; try lia.
  specialize (IH s). lia.
Qed.

Lemma take_all (n : nat) (s : string) : PyStr.len s <= n -> PyStr.take n s = s.
Proof.
  unfold PyStr.len. revert s. induction n as [|n IH]; intros [|c s]; simpl;
    try reflexivity; try lia.
  intros Hs. rewrite IH by lia. reflexivity.
Qed.

Lemma startswith_refl (s : string) : PyStr.startswith s s = true.
Proof. rewrite <- (append_nil_r s) at 2. apply startswith_app. Qed.

(** The context excerpt has at most 103 characters and begins with the
    first 100 characters of the sentence. *)
Lemma excerpt_bound (sentence : string) :
  PyStr.len (excerpt sentence) <= 103
  /\ PyStr.startswith (PyStr.take 100 sentence) (excerpt sentence) = true.
Proof.
  unfold excerpt. destruct (Nat.ltb_spec 100 (PyStr.len sentence)).
  - split.
    + rewrite len_app. pose proof (len_take 100 sentence).
      change (PyStr.len "...") with 3. lia.
    + apply startswith_app.
  - rewrite take_all by assumption. split; [lia | apply startswith_refl].
Qed.

End Excerpt.

Section MoreFallbackFacts.

Context `{Nltk}.
Variable stop_words : gset string.
Variable content : string.

Lemma mcq_step_built (i : nat) (mcqs : list MCQ) :
  i < length (sent_tokenize content) ->
  Forall (mcq_built stop_words content) mcqs ->
  returns (mcq_step stop_words (sent_tokenize content) i mcqs)
          (Forall (mcq_built stop_words content)).
Proof.
  intros Hi Hall. unfold mcq_step.
  eapply returns_bind; [now apply returns_index|]. intros raw Hraw. cbv zeta.
  destruct (PyStr.len (PyStr.strip raw) <? 20); [now apply returns_ret|].
  destruct (length (mcq_words stop_words (PyStr.strip raw)) <? 3) eqn:Hw;
    [now apply returns_ret|].
  apply Nat.ltb_ge in Hw.
  set (words := mcq_words stop_words (PyStr.strip raw)) in *.
  assert (Htake : take (Nat.min 5 (length words)) words = take 5 words).
  { destruct (Nat.le_ge_cases 5 (length words)).
    - now rewrite Nat.min_l.
    - rewrite Nat.min_r by assumption. now rewrite !take_ge by lia. }
  rewrite Htake.
  eapply returns_bind.
  { apply returns_choice. destruct words as [|? ?]; [simpl in Hw; lia | discriminate]. }
  intros key_word Hkey.
  eapply returns_bind; [apply generate_wrong_answers_spec|].
  intros wrong (picked & generic & Hr & _ & Hp & _ & Hg).
  eapply returns_bind; [apply returns_shuffle|].
  intros opts [_ Hoe]. apply returns_ret.
  apply Forall_app. split; [assumption|]. constructor; [|constructor].
  exists raw, key_word, (take 3 wrong). cbn [question options correct_answer context].
  split; [now apply list_elem_of_lookup_2 in Hraw|].
  split; [assumption|]. split; [reflexivity|]. split; [reflexivity|].
  split.
  - intros o. rewrite Hoe. apply elem_of_cons.
  - intros o Ho. apply subseteq_take in Ho. subst wrong. apply subseteq_take in Ho.
    apply elem_of_app in Ho as [Ho|Ho]; apply elem_of_app; [left | right]; auto.
Qed.

Lemma generate_mcqs_fallback_built (num_questions : Z) :
  returns (generate_mcqs_fallback stop_words content num_questions)
          (Forall (mcq_built stop_words content)).
Proof.
  unfold generate_mcqs_fallback. cbv zeta.
  eapply returns_bind.
  - apply (returns_for_each _ _ (fun _ mcqs => Forall (mcq_built stop_words content) mcqs)).
    + constructor.
    + intros done i mcqs Hall Hi. apply range_min_lt in Hi. now apply mcq_step_built.
  - intros mcqs Hall. apply returns_ret. now apply Forall_slice_to.
Qed.

(** X4: Every option of every MCQ of the fallback generator is the correct
    answer, one of the four generic answers, or the title-cased form of a
    content word of the question's own sentence. *)
Theorem mcq_options_provenance (num_questions : Z) :
  returns (generate_mcqs_fallback stop_words content num_questions)
    (Forall (fun q =>
       exists raw,
         raw ∈ sent_tokenize content
         /\ forall o, o ∈ options q ->
              o = correct_answer q
              \/ o ∈ generic_answers
              \/ exists w, w ∈ mcq_words stop_words (PyStr.strip raw) /\ o = PyStr.title w)).
Proof.
  eapply returns_weaken; [apply generate_mcqs_fallback_built|].
  intros mcqs Hall. eapply Forall_impl; [exact Hall|].
  intros q (raw & key_word & wrong & Hraw & _ & Hc & _ & Hopts & Hwrong).
  exists raw. split; [assumption|]. intros o Ho.
  apply Hopts in Ho as [->|Ho]; [now left|]. right.
  apply Hwrong, elem_of_app in Ho as [Ho|Ho]; [right | now left].
  unfold candidates in Ho. apply list_elem_of_In, in_map_iff in Ho as (w & <- & Hw).
  apply filter_In in Hw as [Hw _]. exists w. now rewrite list_elem_of_In.
Qed.

(** X5: The context of every MCQ of the fallback generator is at most 103
    characters long and begins with the first 100 characters of one of the
    stripped sentences of the content. *)
Theorem mcq_context_excerpt (num_questions : Z) :
  returns (generate_mcqs_fallback stop_words content num_questions)
    (Forall (fun q =>
       PyStr.len (context q) <= 103
       /\ exists raw,
            raw ∈ sent_tokenize content
            /\ PyStr.startswith (PyStr.take 100 (PyStr.strip raw)) (context q) = true)).
Proof.
  eapply returns_weaken; [apply generate_mcqs_fallback_built|].
  intros mcqs Hall. eapply Forall_impl; [exact Hall|].
  intros q (raw & key_word & wrong & Hraw & _ & _ & Hctx & _).
  rewrite Hctx. destruct (excerpt_bound (PyStr.strip raw)) as [Hlen Hpre].
  split; [assumption|]. now exists raw.
Qed.

End MoreFallbackFacts.

Section ShortAndLong.

Context `{Nltk}.
Variable stop_words : gset string.
Variable content : string.

Lemma short_step_built (i : nat) (questions : list string) :
  i < length (sent_tokenize content) ->
  Forall (short_built content) questions ->
  returns (short_step (sent_tokenize content) i questions) (Forall (short_built content)).
Proof.
  intros Hi Hall. unfold short_step.
  eapply returns_bind; [now apply returns_index|]. intros raw Hraw. cbv zeta.
  destruct (PyStr.len (PyStr.strip raw) <? 20); [now apply returns_ret|].
  destruct (short_words (PyStr.strip raw)) as [|w ws] eqn:Hw; [now apply returns_ret|].
  assert (Htake : take (Nat.min 3 (length (w :: ws))) (w :: ws) = take 3 (w :: ws)).
  { destruct (Nat.le_ge_cases 3 (length (w :: ws))).
    - now rewrite Nat.min_l.
    - rewrite Nat.min_r by assumption. now rewrite !take_ge by lia. }
  rewrite Htake.
  eapply returns_bind; [apply returns_choice; discriminate|]. intros key_concept Hkey.
  eapply returns_bind; [apply returns_choice; discriminate|]. intros starter Hstarter.
  apply returns_ret. apply Forall_app. split; [assumption|]. constructor; [|constructor].
  exists raw, key_concept, starter. rewrite Hw.
  split; [now apply list_elem_of_lookup_2 in Hraw|].
  split; [assumption|]. split; [assumption|].
  now destruct (bool_decide (starter ∈ ["Define"; "List the"])).
Qed.

(** X6: Every question of the fallback short-question generator reads
    "<starter> <term>" followed by a full stop when the starter is "Define"
    or "List the" and by a question mark otherwise; the starter is one of
    the eight fixed ones and the term is one of the first three
    alphanumeric tokens longer than three characters of a sentence of the
    content. *)
Theorem short_question_shape (num_questions : Z) :
  returns (generate_short_questions_fallback content num_questions)
          (Forall (short_built content)).
Proof.
  unfold generate_short_questions_fallback. cbv zeta.
  eapply returns_bind.
  - apply (returns_for_each _ _ (fun _ qs => Forall (short_built content) qs)).
    + constructor.
    + intros done i qs Hall Hi. apply range_min_lt in Hi. now apply short_step_built.
  - intros qs Hall. apply returns_ret. now apply Forall_slice_to.
Qed.

(** Filling a template puts the phrase between the two parts of the
    template. *)
Lemma format1_contains (template phrase : string) :
  template ∈ question_templates ->
  PyStr.contains phrase (format1 template phrase) = true.
Proof.
  intros Ht. apply contains_spec. unfold question_templates in Ht.
  repeat (apply elem_of_cons in Ht as [->|Ht]);
    [ exists "Discuss in detail about ", "."
    | exists "Explain the concept of ", " with examples."
    | exists "Analyze the importance of ", " in the given context."
    | exists "Compare and contrast different aspects of ", "."
    | exists "Evaluate the role of ", " and its implications."
    | exists "Describe the process of ", " step by step."
    | exists "Examine the relationship between ", " and related concepts."
    | now apply elem_of_nil in Ht ];
    reflexivity.
Qed.

(** X7: The long-question generator takes the candidate phrases in order:
    its i-th question is one of the seven templates filled with the i-th
    most common phrase, and contains that phrase verbatim. *)
Theorem long_questions_follow_phrases (num_questions : Z) :
  returns (generate_long_questions_fallback stop_words content num_questions)
    (fun qs =>
       Forall2 (fun q phrase =>
                  (exists template,
                      template ∈ question_templates /\ q = format1 template phrase)
                  /\ PyStr.contains phrase q = true)
               qs
               (take (Z.to_nat num_questions) (common_phrases stop_words content))).
Proof.
  unfold generate_long_questions_fallback. cbv zeta.
  set (phrases := common_phrases stop_words content).
  set (R := fun q phrase : string =>
              (exists template,
                  template ∈ question_templates /\ q = format1 template phrase)
              /\ PyStr.contains phrase q = true).
  eapply returns_bind.
  - apply (returns_for_each _ _
      (fun done (qs : list string) => Forall2 R qs (omap (fun i => phrases !! i) done))).
    + constructor.
    + intros done i qs Hall Hi. apply range_min_lt in Hi. unfold long_step.
      eapply returns_bind; [apply returns_choice; discriminate|]. intros template Ht.
      eapply returns_bind; [now apply returns_index|]. intros phrase Hp.
      apply returns_ret. rewrite omap_app. simpl. rewrite Hp. simpl.
      apply Forall2_app; [assumption|]. constructor; [|constructor].
      split; [now exists template | now apply format1_contains].
  - intros qs Hall. rewrite range_min_lookups in Hall.
    apply returns_ret. rewrite slice_to_short; [assumption|].
    apply Forall2_length in Hall. rewrite Hall, length_take. lia.
Qed.

End ShortAndLong.

(** * The phrase counter *)

Section CounterFacts.

Lemma stored_count_add (x y : string) (c : list (string * nat)) :
  stored x (count_add y c) = stored x c + (if bool_decide (y = x) then 1 else 0).
Proof.
  unfold stored. induction c as [|[z n] c IH]; simpl.
  - destruct (bool_decide (y = x)); reflexivity.
  - destruct (bool_decide_reflect (y = z)) as [->|Hyz]; simpl.
    + destruct (bool_decide (z = x)); simpl; lia.
    + destruct (bool_decide_reflect (z = x)) as [->|Hzx]; simpl.
      * rewrite bool_decide_eq_false_2 by assumption. lia.
      * exact IH.
Qed.

Lemma keys_count_add (y : string) (c : list (string * nat)) :
  map fst (count_add y c) = map fst c ++ (if bool_decide (y ∈ map fst c) then [] else [y]).
Proof.
  induction c as [|[z n] c IH]; simpl; [reflexivity|].
  destruct (bool_decide_reflect (y = z)) as [->|Hyz]; simpl.
  - rewrite bool_decide_eq_true_2 by constructor. now rewrite app_nil_r.
  - rewrite IH. f_equal. f_equal.
    destruct (bool_decide_reflect (y ∈ map fst c)) as [Hin|Hin].
    + rewrite bool_decide_eq_true_2; [reflexivity | now constructor].
    + rewrite bool_decide_eq_false_2; [reflexivity|].
      intros [?|?]%elem_of_cons; congruence.
Qed.

Lemma Counter_fold (l : list string) (c : list (string * nat)) :
  NoDup (map fst c) ->
  let c' := fold_left (fun c x => count_add x c) l c in
  NoDup (map fst c')
  /\ (forall x, x ∈ map fst c' <-> x ∈ map fst c \/ x ∈ l)
  /\ (forall x, stored x c' = stored x c + occurrences x l).
Proof.
  revert c. induction l as [|y l IH]; intros c Hc; cbn zeta.
  - split; [assumption|]. split.
    + intros x. rewrite elem_of_nil. tauto.
    + intros x. unfold occurrences. simpl. lia.
  - simpl. destruct (IH (count_add y c)) as (Hnd & Hkeys & Hst).
    { rewrite keys_count_add. destruct (bool_decide_reflect (y ∈ map fst c)).
      - now rewrite app_nil_r.
      - apply NoDup_app. split; [assumption|]. split.
        + intros x Hx ->%list_elem_of_singleton. contradiction.
        + apply NoDup_singleton. }
    split; [assumption|]. split.
    + intros x. rewrite Hkeys, keys_count_add, elem_of_app, elem_of_cons.
      destruct (bool_decide_reflect (y ∈ map fst c)) as [Hin|Hin].
      * rewrite elem_of_nil. split; [tauto|].
        intros [?|[->|?]]; auto.
      * rewrite list_elem_of_singleton. tauto.
    + intros x. rewrite Hst, stored_count_add. unfold occurrences. simpl.
      destruct (bool_decide (y = x)); simpl; lia.
Qed.

Lemma stored_elem_of (x : string) (n : nat) (c : list (string * nat)) :
  NoDup (map fst c) -> (x, n) ∈ c -> stored x c = n.
Proof.
  unfold stored. induction c as [|[z m] c IH]; intros Hnd Hin; simpl.
  - now apply elem_of_nil in Hin.
  - simpl in Hnd. apply NoDup_cons in Hnd as [Hz Hnd].
    apply elem_of_cons in Hin as [Heq|Hin].
    + injection Heq as -> ->. now rewrite bool_decide_eq_true_2.
    + destruct (bool_decide_reflect (z = x)) as [->|Hzx]; simpl.
      * exfalso. apply Hz. apply list_elem_of_In, in_map_iff. exists (x, n).
        split; [reflexivity | now apply list_elem_of_In].
      * now apply IH.
Qed.

Lemma Counter_spec (l : list string) :
  NoDup (map fst (Counter l))
  /\ (forall x, x ∈ map fst (Counter l) <-> x ∈ l)
  /\ (forall x n, (x, n) ∈ Counter l -> n = occurrences x l).
Proof.
  destruct (Counter_fold l [] (NoDup_nil_2)) as (Hnd & Hkeys & Hst).
  split; [assumption|]. split.
  - intros x. rewrite (Hkeys x). simpl. rewrite elem_of_nil. tauto.
  - intros x n Hin. rewrite <- (stored_elem_of x n _ Hnd Hin).
    rewrite (Hst x). reflexivity.
Qed.

(** [Counter] keeps one entry for each distinct element of the list, and
    the number stored with an element is the number of its occurrences. *)
Theorem Counter_counts (l : list string) :
  NoDup (map fst (Counter l))
  /\ (forall x, x ∈ map fst (Counter l) <-> x ∈ l)
  /\ (forall x n, (x, n) ∈ Counter l -> n = occurrences x l).
Proof. intros. eapply Counter_spec; eassumption. Qed.

End CounterFacts.

(** * Ordering by count *)

Section MostCommon.

Lemma insert_desc_perm (x : string * nat) (l : list (string * nat)) :
  insert_desc x l ≡ₚ x :: l.
Proof.
  induction l as [|y l IH]; simpl; [reflexivity|].
  destruct (snd y <? snd x); [reflexivity|].
  rewrite IH. apply Permutation_swap.
Qed.

Lemma insert_desc_sorted (x : string * nat) (l : list (string * nat)) :
  StronglySorted not_rarer l -> StronglySorted not_rarer (insert_desc x l).
Proof.
  induction l as [|y l IH]; intros Hs; simpl.
  - repeat constructor.
  - apply StronglySorted_inv in Hs as [Hl Hy].
    destruct (Nat.ltb_spec (snd y) (snd x)).
    + constructor; [now constructor|].
      constructor; [unfold not_rarer; lia|].
      eapply Forall_impl; [exact Hy|]. unfold not_rarer. intros z Hz. lia.
    + constructor; [now apply IH|].
      rewrite (insert_desc_perm x l). constructor; [unfold not_rarer; lia | assumption].
Qed.

(** Inserting an entry puts it after the entries of the same count. *)
Lemma insert_desc_stable (k : nat) (x : string * nat) (l : list (string * nat)) :
  StronglySorted not_rarer l ->
  with_count k (insert_desc x l) = with_count k l ++ with_count k [x].
Proof.
  unfold with_count. induction l as [|y l IH]; intros Hs; simpl; [reflexivity|].
  apply StronglySorted_inv in Hs as [Hl Hy].
  destruct (Nat.ltb_spec (snd y) (snd x)) as [Hlt|Hge]; simpl.
  - destruct (Nat.eqb_spec (snd x) k) as [Hk|Hk]; simpl.
    + destruct (Nat.eqb_spec (snd y) k); [lia|].
      assert (Hnone : List.filter (fun z => snd z =? k) l = []).
      { clear IH Hl. induction l as [|z l IHl]; [reflexivity|]. simpl.
        apply Forall_cons in Hy as [Hz Hy]. unfold not_rarer in Hz.
        destruct (Nat.eqb_spec (snd z) k); [lia | now apply IHl]. }
      now rewrite Hnone.
    + now rewrite app_nil_r.
  - rewrite (IH Hl). simpl. now destruct (snd y =? k).
Qed.

Lemma by_count_fold (c acc : list (string * nat)) :
  StronglySorted not_rarer acc ->
  let sorted := fold_left (fun acc x => insert_desc x acc) c acc in
  sorted ≡ₚ acc ++ c
  /\ StronglySorted not_rarer sorted
  /\ forall k, with_count k sorted = with_count k acc ++ with_count k c.
Proof.
  revert acc. induction c as [|x c IH]; intros acc Hacc; cbn zeta; simpl.
  - rewrite app_nil_r. split; [reflexivity|]. split; [assumption|].
    intros k. unfold with_count. simpl. now rewrite app_nil_r.
  - destruct (IH (insert_desc x acc) (insert_desc_sorted x acc Hacc)) as (Hp & Hs & Hk).
    split; [|split; [assumption|]].
    + rewrite Hp, insert_desc_perm. simpl. apply Permutation_middle.
    + intros k. rewrite Hk, insert_desc_stable by assumption.
      unfold with_count. simpl. rewrite <- app_assoc. f_equal.
      now destruct (snd x =? k).
Qed.

Lemma by_count_spec (c : list (string * nat)) :
  by_count c ≡ₚ c
  /\ StronglySorted not_rarer (by_count c)
  /\ forall k, with_count k (by_count c) = with_count k c.
Proof.
  destruct (by_count_fold c [] ltac:(constructor)) as (Hp & Hs & Hk).
  split; [exact Hp|]. split; [exact Hs|]. exact Hk.
Qed.

Lemma sorted_take {A} (R : A -> A -> Prop) (n : nat) (l : list A) :
  StronglySorted R l -> StronglySorted R (take n l).
Proof.
  revert n. induction l as [|x l IH]; intros [|n] Hs; simpl; try constructor.
  - apply IH. now apply StronglySorted_inv in Hs.
  - apply StronglySorted_inv in Hs as [_ Hx]. now apply Forall_take.
Qed.

Lemma filter_take {A} (p : A -> bool) (n : nat) (l : list A) :
  exists m, List.filter p (take n l) = take m (List.filter p l).
Proof.
  revert n. induction l as [|x l IH]; intros [|n]; simpl.
  - now exists 0.
  - now exists 0.
  - now exists 0.
  - destruct (IH n) as [m Hm]. destruct (p x).
    + exists (S m). simpl. now rewrite Hm.
    + now exists m.
Qed.

(** [most_common n] returns [min(n, len)] entries of the counter, by
    non-increasing count, and the entries with one and the same count come
    in the order the counter has them (first seen first). *)
Theorem most_common_order (n : nat) (c : list (string * nat)) :
  length (most_common n c) = Nat.min n (length c)
  /\ most_common n c ⊆ c
  /\ StronglySorted not_rarer (most_common n c)
  /\ forall k, exists m, with_count k (most_common n c) = take m (with_count k c).
Proof.
  destruct (by_count_spec c) as (Hp & Hs & Hk).
  change (most_common n c) with (take n (by_count c)).
  split; [|split; [|split]].
  - rewrite length_take. now rewrite (Permutation_length Hp).
  - intros x Hx. apply subseteq_take in Hx. now rewrite <- Hp.
  - now apply sorted_take.
  - intros k. destruct (filter_take (fun y => snd y =? k) n (by_count c)) as [m Hm].
    exists m. unfold with_count in *. now rewrite Hm, Hk.
Qed.

End MostCommon.

Lemma common_phrases_spec `{Nltk} (stop_words : gset string) (content : string) :
  length (common_phrases stop_words content) <= 10
  /\ NoDup (common_phrases stop_words content)
  /\ forall phrase, phrase ∈ common_phrases stop_words content ->
       exists sentence,
         sentence ∈ take 20 (sent_tokenize content)
         /\ phrase ∈ bigrams (long_words stop_words sentence).
Proof.
  unfold common_phrases. cbv zeta.
  set (key_phrases :=
         concat (map (fun s => bigrams (long_words stop_words s))
                     (take 20 (sent_tokenize content)))).
  destruct (Counter_spec key_phrases) as (Hnd & Hkeys & _).
  destruct (by_count_spec (Counter key_phrases)) as (Hp & _ & _).
  change (most_common 10 (Counter key_phrases))
    with (take 10 (by_count (Counter key_phrases))).
  split; [|split].
  - rewrite length_map, length_take. lia.
  - rewrite <- firstn_map.
    eapply sublist_NoDup; [|apply sublist_take].
    rewrite (Permutation_map fst Hp). exact Hnd.
  - intros phrase Hin.
    assert (Hkey : phrase ∈ map fst (Counter key_phrases)).
    { apply list_elem_of_In, in_map_iff in Hin as ([p k] & <- & Hpk).
      apply list_elem_of_In, subseteq_take in Hpk. rewrite Hp in Hpk.
      apply list_elem_of_In, in_map_iff. exists (p, k).
      split; [reflexivity | now apply list_elem_of_In]. }
    apply Hkeys in Hkey. unfold key_phrases in Hkey.
    apply list_elem_of_In, in_concat in Hkey as (bs & Hbs & Hph).
    apply in_map_iff in Hbs as (sentence & <- & Hs).
    exists sentence. split; now apply list_elem_of_In.
Qed.

(** X8: The candidate phrases of the long-question generator: at most ten,
    pairwise distinct, each a pair of adjacent content words of one of the
    first 20 sentences. *)
Theorem common_phrases_distinct `{Nltk} (stop_words : gset string) (content : string) :
  length (common_phrases stop_words content) <= 10
  /\ NoDup (common_phrases stop_words content)
  /\ forall phrase, phrase ∈ common_phrases stop_words content ->
       exists sentence,
         sentence ∈ take 20 (sent_tokenize content)
         /\ phrase ∈ bigrams (long_words stop_words sentence).
Proof. intros. eapply common_phrases_spec; eassumption. Qed.

(** X9: However many long questions are requested, the fallback generator
    returns at most ten. *)
Theorem long_questions_at_most_ten `{Nltk} (stop_words : gset string) (content : string)
    (num_questions : Z) :
  returns (generate_long_questions_fallback stop_words content num_questions)
          (fun qs => length qs <= 10).
Proof.
  eapply returns_weaken; [apply generate_long_questions_fallback_spec|].
  intros qs Hlen. cbv beta in Hlen.
  destruct (common_phrases_spec stop_words content) as [Hten _]. lia.
Qed.

(** * The entry points when the API fails *)

(** X10: When a client is configured and every call to it raises, each entry
    point returns what its fallback generator returns, together with the
    single warning "Groq API error: <message>. Using fallback method.", and
    raises nothing itself. *)
Theorem api_failure_falls_back `{Nltk}
    (parse_mcq_response : string -> Z -> string + list MCQ)
    (parse_question_lines : string -> Z -> string + list string)
    (self : QuestionPaperGenerator) (client : Groq) (e content : string) (n : Z) :
  groq_client self = Some client ->
  (forall rq, chat_completions_create client rq = inl e) ->
  forall g,
    (exists r g',
        generate_mcqs_fallback (stop_words self) content n g = Ok r g'
        /\ generate_mcqs parse_mcq_response self content n g
           = Ok {| value := r; warnings := [api_warning e] |} g')
    /\ (exists r g',
        generate_short_questions_fallback content n g = Ok r g'
        /\ generate_short_questions parse_question_lines self content n g
           = Ok {| value := r; warnings := [api_warning e] |} g')
    /\ (exists r g',
        generate_long_questions_fallback (stop_words self) content n g = Ok r g'
        /\ generate_long_questions parse_question_lines self content n g
           = Ok {| value := r; warnings := [api_warning e] |} g').
Proof.
  intros Hclient Hdown g.
  unfold generate_mcqs, generate_short_questions, generate_long_questions,
    with_fallback, remote.
  rewrite Hclient, !Hdown. unfold bind, ret. repeat split.
  - destruct (generate_mcqs_fallback_spec (stop_words self) content n g)
      as (r & g' & Hr & _).
    exists r, g'. now rewrite Hr.
  - destruct (generate_short_questions_fallback_spec content n g) as (r & g' & Hr & _).
    exists r, g'. now rewrite Hr.
  - destruct (generate_long_questions_fallback_spec (stop_words self) content n g)
      as (r & g' & Hr & _).
    exists r, g'. now rewrite Hr.
Qed.

(** Witness of [api_failure_falls_back]. *)
Lemma api_failure_falls_back_witness :
  let self := {| stop_words := Plain.stops; groq_client := Some offline |} in
  groq_client self = Some offline
  /\ forall g,
    (exists r g',
        @generate_mcqs_fallback Plain.nltk (stop_words self) cell_text 2 g = Ok r g'
        /\ @generate_mcqs Plain.nltk no_mcqs self cell_text 2 g
           = Ok {| value := r; warnings := [api_warning "offline"] |} g')
    /\ (exists r g',
        @generate_short_questions_fallback Plain.nltk cell_text 2 g = Ok r g'
        /\ @generate_short_questions Plain.nltk no_lines self cell_text 2 g
           = Ok {| value := r; warnings := [api_warning "offline"] |} g')
    /\ (exists r g',
        @generate_long_questions_fallback Plain.nltk (stop_words self) cell_text 2 g = Ok r g'
        /\ @generate_long_questions Plain.nltk no_lines self cell_text 2 g
           = Ok {| value := r; warnings := [api_warning "offline"] |} g').
Proof.
  split; [reflexivity|].
  apply (@api_failure_falls_back Plain.nltk no_mcqs no_lines
           {| stop_words := Plain.stops; groq_client := Some offline |}
           offline "offline" cell_text 2).
  - reflexivity.
  - reflexivity.
Defined.

(** * Parsing the model's MCQ response *)

Section ParseMcqs.

Variable text : string.

Lemma fold_left_invariant {S X} (f : S -> X -> S) (I : S -> Prop) (l : list X) (s0 : S) :
  I s0 -> (forall s x, x ∈ l -> I s -> I (f s x)) -> I (fold_left f l s0).
Proof.
  revert s0. induction l as [|x l IH]; intros s0 H0 Hstep; simpl; [assumption|].
  apply IH.
  - apply Hstep; [constructor | assumption].
  - intros s y Hy. apply Hstep. now constructor.
Qed.

Lemma named_option_elem_of (opts : list string) (line o : string) :
  named_option opts line = Some o -> o ∈ opts.
Proof.
  unfold named_option. intros Hf. apply find_some in Hf as [Hin _].
  now apply list_elem_of_In.
Qed.

Lemma parse_mcq_line_ok (st : list MCQ * option MCQ) (raw : string) :
  raw ∈ PyStr.split PyStr.nl text ->
  parse_state_ok text st -> parse_state_ok text (parse_mcq_line st raw).
Proof.
  intros Hraw [Hall Hcur]. destruct st as [mcqs cur]. simpl in Hall, Hcur.
  assert (Hline : PyStr.strip raw ∈ stripped_lines text).
  { unfold stripped_lines. apply list_elem_of_In, in_map. now apply list_elem_of_In. }
  unfold parse_mcq_line.
  destruct (PyStr.strip raw) as [|c line] eqn:Hs; [now split|].
  rewrite <- Hs in *. clear Hs c line.
  fold (question_mark_line (PyStr.strip raw)).
  destruct (question_mark_line (PyStr.strip raw)) eqn:Hq.
  - split; simpl.
    + destruct cur; [|assumption]. apply Forall_app. split; [assumption | now constructor].
    + repeat split; try assumption; try reflexivity; [now left | constructor].
  - destruct (option_prefix (PyStr.strip raw)) eqn:Ho.
    + split; [assumption|]. simpl. destruct cur as [m|]; [|exact I].
      destruct Hcur as (H1 & H2 & H3 & H4 & H5).
      repeat split; simpl; try assumption.
      * destruct H4 as [H4|H4]; [now left | right].
        apply elem_of_app. now left.
      * apply Forall_app. split; [assumption|]. constructor; [|constructor].
        now exists (PyStr.strip raw).
    + destruct (PyStr.contains "correct" (PyStr.lower (PyStr.strip raw))
                || PyStr.contains "answer" (PyStr.lower (PyStr.strip raw))).
      * split; [assumption|]. simpl. destruct cur as [m|]; [|exact I].
        destruct (named_option (options m) (PyStr.strip raw)) as [o|] eqn:Hn;
          [|assumption].
        destruct Hcur as (H1 & H2 & H3 & H4 & H5).
        repeat split; simpl; try assumption.
        right. eapply named_option_elem_of; eassumption.
      * now split.
Qed.

Lemma parse_mcqs_shape (num_questions : Z) :
  Forall (parsed_mcq text) (parse_mcqs_from_text text num_questions).
Proof.
  unfold parse_mcqs_from_text.
  pose proof (fold_left_invariant parse_mcq_line (parse_state_ok text)
                (PyStr.split PyStr.nl text) ([], None)) as Hinv.
  destruct (fold_left parse_mcq_line (PyStr.split PyStr.nl text) ([], None))
    as [mcqs cur].
  destruct Hinv as [Hall Hcur].
  - split; [constructor | exact I].
  - intros s x Hx Hs. now apply parse_mcq_line_ok.
  - apply Forall_slice_to. simpl in Hall, Hcur.
    destruct cur; [|assumption].
    apply Forall_app. split; [assumption | now constructor].
Qed.

(** X11: Every dictionary returned by [parse_mcqs_from_text], whatever the
    count: its question is a stripped line of the response that ends in a
    question mark and has more than 20 characters, its context is the
    excerpt of the question, its correct answer is empty or one of its
    options, and each option is an option line without its letter prefix. *)
Theorem parse_mcqs_well_formed (num_questions : Z) :
  Forall (parsed_mcq text) (parse_mcqs_from_text text num_questions).
Proof. intros. eapply parse_mcqs_shape; eassumption. Qed.

Lemma parse_mcq_line_started (st : list MCQ * option MCQ) (raw : string) :
  started (parse_mcq_line st raw)
  = started st + (if question_mark_line (PyStr.strip raw) then 1 else 0).
Proof.
  destruct st as [mcqs cur]. unfold parse_mcq_line.
  destruct (PyStr.strip raw) as [|c line] eqn:Hs; [unfold started; simpl; lia|].
  rewrite <- Hs. clear Hs c line.
  fold (question_mark_line (PyStr.strip raw)).
  destruct (question_mark_line (PyStr.strip raw)).
  - unfold started. simpl. destruct cur; rewrite ?length_app; simpl; lia.
  - destruct (option_prefix (PyStr.strip raw)).
    + unfold started. simpl. destruct cur; simpl; lia.
    + destruct (PyStr.contains "correct" (PyStr.lower (PyStr.strip raw))
                || PyStr.contains "answer" (PyStr.lower (PyStr.strip raw))).
      * unfold started. simpl. destruct cur as [m|]; [|simpl; lia].
        destruct (named_option (options m) (PyStr.strip raw)); simpl; lia.
      * lia.
Qed.

Lemma parse_fold_started (lines : list string) (st : list MCQ * option MCQ) :
  started (fold_left parse_mcq_line lines st)
  = started st + length (List.filter question_mark_line (map PyStr.strip lines)).
Proof.
  revert st. induction lines as [|raw lines IH]; intros st; simpl; [lia|].
  rewrite IH, parse_mcq_line_started.
  destruct (question_mark_line (PyStr.strip raw)); simpl; lia.
Qed.

End ParseMcqs.

Lemma parse_mcqs_length (text : string) (num_questions : Z) :
  (0 <= num_questions)%Z ->
  length (parse_mcqs_from_text text num_questions)
  = Nat.min (Z.to_nat num_questions)
            (length (List.filter question_mark_line (stripped_lines text))).
Proof.
  intros Hn. unfold parse_mcqs_from_text, stripped_lines.
  pose proof (parse_fold_started (PyStr.split PyStr.nl text) ([], None)) as Hc.
  destruct (fold_left parse_mcq_line (PyStr.split PyStr.nl text) ([], None))
    as [mcqs cur].
  unfold started in Hc. simpl in Hc. rewrite <- Hc.
  unfold slice_to. destruct (Z.leb_spec 0 num_questions); [|lia].
  rewrite length_take. destruct cur; rewrite ?length_app; simpl; lia.
Qed.

(** X12: For a non-negative count, [parse_mcqs_from_text] returns one
    dictionary for each question line of the response, up to the count:
    a question line counts whether or not option lines follow it. *)
Theorem parse_mcqs_count (text : string) (num_questions : Z) :
  (0 <= num_questions)%Z ->
  length (parse_mcqs_from_text text num_questions)
  = Nat.min (Z.to_nat num_questions)
            (length (List.filter question_mark_line (stripped_lines text))).
Proof. intros. eapply parse_mcqs_length; eassumption. Qed.

(** Witness of [parse_mcqs_count]. *)
Lemma parse_mcqs_count_witness :
  length (parse_mcqs_from_text
            (PyStr.join PyStr.NL
               ["What is the unit of thermodynamic temperature?";
                "A. kelvin"; "B) joule"; "Correct answer: A. kelvin";
                "Which law conserves energy in a closed system?"])
            5)
  = Nat.min (Z.to_nat 5)
      (length (List.filter question_mark_line
         (stripped_lines
            (PyStr.join PyStr.NL
               ["What is the unit of thermodynamic temperature?";
                "A. kelvin"; "B) joule"; "Correct answer: A. kelvin";
                "Which law conserves energy in a closed system?"])))).
Proof.
  apply (parse_mcqs_count
           (PyStr.join PyStr.NL
               ["What is the unit of thermodynamic temperature?";
                "A. kelvin"; "B) joule"; "Correct answer: A. kelvin";
                "Which law conserves energy in a closed system?"]) 5).
  lia.
Defined.

Example parse_mcqs_ex :
  parse_mcqs_from_text
    (PyStr.join PyStr.NL
       ["Here are the questions:";
        "What is the unit of thermodynamic temperature?";
        "A. kelvin"; "B) joule"; "Correct answer: A. kelvin";
        "Which law conserves energy in a closed system?"])
    5
  = [ {| question := "What is the unit of thermodynamic temperature?";
         options := ["kelvin"; "joule"];
         correct_answer := "kelvin";
         context := "What is the unit of thermodynamic temperature?" |};
      {| question := "Which law conserves energy in a closed system?";
         options := [];
         correct_answer := "";
         context := "Which law conserves energy in a closed system?" |} ].
Proof. vm_compute. reflexivity. Qed.

(** * Parsing the model's numbered questions *)

Section ParseQuestionLines.

Variable bullet : string.

Lemma drop_while_suffix (p : ascii -> bool) (s : string) :
  exists a, s = a +:+ PyText.drop_while p s.
Proof.
  induction s as [|c s [a IH]]; simpl.
  - now exists ""%string.
  - destruct (p c).
    + exists (String c a). simpl. now rewrite <- IH.
    + now exists ""%string.
Qed.

Lemma strip_number_suffix (line : string) : exists a, line = a +:+ strip_number line.
Proof.
  unfold strip_number. destruct line as [|c line]; [now exists ""%string|].
  destruct (PyStr.is_digit c); [|now exists ""%string].
  destruct (drop_while_suffix PyStr.is_digit (String c line)) as [a Ha].
  destruct (PyText.drop_while PyStr.is_digit (String c line)) as [|d rest].
  - exists a. exact Ha.
  - assert (Hd : exists b, String d rest
                   = b +:+ PyStr.lstrip (match String d rest with
                                         | String "." rest' => rest'
                                         | _ => String d rest
                                         end)).
    { destruct (Ascii.eqb_spec d ".") as [->|Hne].
      - destruct (lstrip_suffix rest) as [b Hb]. exists (String "." b).
        simpl. now rewrite <- Hb.
      - destruct (lstrip_suffix (String d rest)) as [b Hb]. exists b.
        destruct d as [[] [] [] [] [] [] [] []]; try exact Hb. now elim Hne. }
    destruct Hd as [b Hb]. exists (a +:+ b). rewrite append_assoc, <- Hb. exact Ha.
Qed.

Lemma strip_bullet_suffix (q : string) : exists a, q = a +:+ strip_bullet bullet q.
Proof.
  unfold strip_bullet. destruct q as [|c rest]; [now exists ""%string|].
  destruct (bullet_class bullet c); [|now exists ""%string].
  destruct (lstrip_suffix rest) as [a Ha]. exists (String c a). simpl. now rewrite <- Ha.
Qed.

Lemma question_line_ok (text : string) (questions : list string) (raw : string) :
  raw ∈ PyStr.split PyStr.nl text ->
  Forall (fun q => q <> "" /\ exists line a,
              line ∈ stripped_lines text /\ listed bullet line = true /\ line = a +:+ q)
         questions ->
  Forall (fun q => q <> "" /\ exists line a,
              line ∈ stripped_lines text /\ listed bullet line = true /\ line = a +:+ q)
         (question_line bullet questions raw).
Proof.
  intros Hraw Hall. unfold question_line.
  destruct (listed bullet (PyStr.strip raw)) eqn:Hl; [|assumption].
  destruct (strip_bullet bullet (strip_number (PyStr.strip raw))) as [|c q] eqn:Hq;
    [assumption|].
  apply Forall_app. split; [assumption|]. constructor; [|constructor].
  split; [discriminate|].
  destruct (strip_number_suffix (PyStr.strip raw)) as [a Ha].
  destruct (strip_bullet_suffix (strip_number (PyStr.strip raw))) as [b Hb].
  exists (PyStr.strip raw), (a +:+ b). split; [|split; [assumption|]].
  - unfold stripped_lines. apply list_elem_of_In, in_map. now apply list_elem_of_In.
  - rewrite append_assoc, <- Hq, <- Hb. exact Ha.
Qed.

Lemma parse_question_list_shape (text : string) (num_questions : Z) :
  Forall (fun q => q <> "" /\ exists line a,
              line ∈ stripped_lines text /\ listed bullet line = true /\ line = a +:+ q)
         (parse_question_list bullet text num_questions).
Proof.
  unfold parse_question_list. apply Forall_slice_to.
  apply (fold_left_invariant (question_line bullet)
           (Forall (fun q => q <> "" /\ exists line a,
              line ∈ stripped_lines text /\ listed bullet line = true /\ line = a +:+ q))).
  - constructor.
  - intros qs raw Hraw Hall. now apply question_line_ok.
Qed.

(** X13: Every question returned by the numbered-line parser, whatever the
    count, is non-empty and is the end of a stripped line of the response
    that starts with a digit, a hyphen or the bullet. *)
Theorem parse_question_list_well_formed (text : string) (num_questions : Z) :
  Forall (fun q => q <> "" /\ exists line a,
              line ∈ stripped_lines text /\ listed bullet line = true /\ line = a +:+ q)
         (parse_question_list bullet text num_questions).
Proof. intros. eapply parse_question_list_shape; eassumption. Qed.

Lemma question_fold_length (lines : list string) (qs : list string) :
  length (fold_left (question_line bullet) lines qs)
  <= length qs + length (List.filter (listed bullet) (map PyStr.strip lines)).
Proof.
  revert qs. induction lines as [|raw lines IH]; intros qs; simpl; [lia|].
  etransitivity; [apply IH|]. unfold question_line.
  destruct (listed bullet (PyStr.strip raw)); simpl; [|lia].
  destruct (strip_bullet bullet (strip_number (PyStr.strip raw)));
    rewrite ?length_app; simpl; lia.
Qed.

Lemma parse_question_list_length (text : string) (num_questions : Z) :
  (0 <= num_questions)%Z ->
  (Z.of_nat (length (parse_question_list bullet text num_questions)) <= num_questions)%Z
  /\ length (parse_question_list bullet text num_questions)
     <= length (List.filter (listed bullet) (stripped_lines text)).
Proof.
  intros Hn. unfold parse_question_list, slice_to, stripped_lines.
  destruct (Z.leb_spec 0 num_questions); [|lia].
  rewrite length_take.
  pose proof (question_fold_length (PyStr.split PyStr.nl text) []) as Hl.
  simpl in Hl. lia.
Qed.

(** X14: For a non-negative count the numbered-line parser returns at most
    that many questions, and no more than there are listed lines. *)
Theorem parse_question_list_bound (text : string) (num_questions : Z) :
  (0 <= num_questions)%Z ->
  (Z.of_nat (length (parse_question_list bullet text num_questions)) <= num_questions)%Z
  /\ length (parse_question_list bullet text num_questions)
     <= length (List.filter (listed bullet) (stripped_lines text)).
Proof. intros. eapply parse_question_list_length; eassumption. Qed.

End ParseQuestionLines.

(** Witness of [parse_question_list_bound]. *)
Lemma parse_question_list_bound_witness :
  (Z.of_nat (length (parse_question_list "*"
      (PyStr.join PyStr.NL ["Sure:"; "1. What is heat?"; "2) Define work."; "- Why is it so?"])
      2)) <= 2)%Z
  /\ length (parse_question_list "*"
      (PyStr.join PyStr.NL ["Sure:"; "1. What is heat?"; "2) Define work."; "- Why is it so?"])
      2)
     <= length (List.filter (listed "*")
          (stripped_lines
             (PyStr.join PyStr.NL
                ["Sure:"; "1. What is heat?"; "2) Define work."; "- Why is it so?"]))).
Proof.
  apply (parse_question_list_bound "*"
    (PyStr.join PyStr.NL ["Sure:"; "1. What is heat?"; "2) Define work."; "- Why is it so?"])
    2).
  lia.
Defined.

Example parse_question_list_ex :
  parse_question_list "*"
    (PyStr.join PyStr.NL
       ["Sure:"; "1. What is heat?"; "  2) Define work."; "- Why is it so?"; "12"; ""])
    5
  = ["What is heat?"; ") Define work."; "Why is it so?"].
Proof. vm_compute. reflexivity. Qed.

(** * The entry points when the API answers *)

Section Answered.

Context `{Nltk}.
Variable bullet : string.
Variable json_mcqs : string -> option (list MCQ).
Variables (self : QuestionPaperGenerator) (client : Groq).
Variables (response_text content : string) (n : Z).

Hypothesis Hclient : groq_client self = Some client.
Hypothesis Hanswer : forall rq, chat_completions_create client rq = inr response_text.

(** X15: With a client that answers, the short and long entry points return
    the questions parsed from the answer and nothing else: no warning, no
    draw from the random source, and no fallback even when the answer holds
    no listed line.  For a non-negative count there are at most that many
    questions, each non-empty and the end of a listed line of the answer. *)
Theorem answered_questions_are_parsed (g : rng) :
  (0 <= n)%Z ->
  exists qs,
    generate_short_questions (question_list_parser bullet) self content n g = Ok (quiet qs) g
    /\ generate_long_questions (question_list_parser bullet) self content n g = Ok (quiet qs) g
    /\ (Z.of_nat (length qs) <= n)%Z
    /\ Forall (fun q => q <> "" /\ exists line a,
                 line ∈ stripped_lines response_text
                 /\ listed bullet line = true /\ line = a +:+ q) qs.
Proof.
  intros Hn. exists (parse_question_list bullet response_text n).
  unfold generate_short_questions, generate_long_questions, with_fallback, remote,
    question_list_parser.
  rewrite Hclient, !Hanswer. repeat split.
  - now apply parse_question_list_length.
  - apply parse_question_list_shape.
Qed.

(** X16: With a client that answers and an answer whose JSON attempt fails
    (it has no opening brace, or the text from its first opening brace to
    its last closing brace does not load), [generate_mcqs] returns the
    dictionaries parsed from the text of the answer, without warning and
    without fallback: well formed, and for a non-negative count at most
    that many. *)
Theorem answered_mcqs_from_text (g : rng) :
  (0 <= n)%Z ->
  (forall s, json_str response_text = Some s -> json_mcqs s = None) ->
  exists mcqs,
    generate_mcqs (mcq_response_parser json_mcqs) self content n g = Ok (quiet mcqs) g
    /\ (Z.of_nat (length mcqs) <= n)%Z
    /\ Forall (parsed_mcq response_text) mcqs.
Proof.
  intros Hn Hjson. exists (parse_mcqs_from_text response_text n).
  unfold generate_mcqs, with_fallback, remote, mcq_response_parser.
  rewrite Hclient, Hanswer. cbv zeta. unfold json_str in Hjson.
  split; [destruct (PyText.find_char "{" response_text);
          [now rewrite (Hjson _ eq_refl) | reflexivity]|]. split.
  - rewrite (parse_mcqs_length response_text n Hn). lia.
  - apply parse_mcqs_shape.
Qed.

(** When the text between the first opening brace and the last closing
    brace of the answer reads as JSON, [generate_mcqs] returns its [mcqs]
    list as it is: not cut to the requested count, not checked. *)
Theorem answered_mcqs_json_as_is (g : rng) (start_idx : nat) (mcqs : list MCQ) :
  PyText.find_char "{" response_text = Some start_idx ->
  json_mcqs (PyText.slice start_idx
               match PyText.rfind_char "}" response_text with
               | Some i => S i
               | None => 0
               end response_text) = Some mcqs ->
  generate_mcqs (mcq_response_parser json_mcqs) self content n g = Ok (quiet mcqs) g.
Proof.
  intros Hstart Hjson.
  unfold generate_mcqs, with_fallback, remote, mcq_response_parser.
  rewrite Hclient, Hanswer, Hstart. cbv zeta. now rewrite Hjson.
Qed.

End Answered.

(** Witness of [answered_questions_are_parsed]. *)
Lemma answered_questions_are_parsed_witness :
  exists qs,
    @generate_short_questions Plain.nltk (question_list_parser "*")
       (online numbered_answer) cell_text 2 [] = Ok (quiet qs) []
    /\ @generate_long_questions Plain.nltk (question_list_parser "*")
       (online numbered_answer) cell_text 2 [] = Ok (quiet qs) []
    /\ (Z.of_nat (length qs) <= 2)%Z
    /\ Forall (fun q => q <> "" /\ exists line a,
                 line ∈ stripped_lines numbered_answer
                 /\ listed "*" line = true /\ line = a +:+ q) qs.
Proof.
  apply (@answered_questions_are_parsed Plain.nltk "*" (online numbered_answer)
           (answering numbered_answer) numbered_answer cell_text 2).
  - reflexivity.
  - reflexivity.
  - lia.
Defined.

(** Witness of [answered_mcqs_from_text]: an answer whose brace is never
    closed, with a loader that reads the empty object. *)
Lemma answered_mcqs_from_text_witness :
  (forall s, json_str unclosed_answer = Some s -> empty_object_json s = None)
  /\ exists mcqs,
       @generate_mcqs Plain.nltk (mcq_response_parser empty_object_json)
          (online unclosed_answer) cell_text 2 [] = Ok (quiet mcqs) []
       /\ (Z.of_nat (length mcqs) <= 2)%Z
       /\ Forall (parsed_mcq unclosed_answer) mcqs.
Proof.
  assert (Hjson : forall s, json_str unclosed_answer = Some s -> empty_object_json s = None).
  { intros s Hs. vm_compute in Hs. injection Hs as <-. reflexivity. }
  split; [exact Hjson|].
  apply (@answered_mcqs_from_text Plain.nltk empty_object_json (online unclosed_answer)
           (answering unclosed_answer) unclosed_answer cell_text 2).
  - reflexivity.
  - reflexivity.
  - lia.
  - exact Hjson.
Defined.

(** Witness of [answered_mcqs_json_as_is]: two dictionaries for a request
    of one. *)
Lemma answered_mcqs_json_as_is_witness :
  @generate_mcqs Plain.nltk (mcq_response_parser any_json)
     (online "Here: {} done") cell_text 1 [] = Ok (quiet [sample_mcq; sample_mcq]) [].
Proof.
  apply (@answered_mcqs_json_as_is Plain.nltk any_json (online "Here: {} done")
           (answering "Here: {} done") "Here: {} done" cell_text 1
           eq_refl (fun _ => eq_refl) [] 6 [sample_mcq; sample_mcq]).
  - reflexivity.
  - reflexivity.
Defined.

(** * Reading the uploads *)

Section Uploads.

Variable what : string.

Lemma join_empty_cons (x : string) (l : list string) :
  PyStr.join "" (x :: l) = x +:+ PyStr.join "" l.
Proof.
  destruct l as [|y l]; [simpl; now rewrite append_nil_r|].
  now rewrite join_cons by discriminate.
Qed.

Lemma read_parts_all (paragraphs : list string) (text : string) :
  read_parts text (map inr paragraphs)
  = inr (text +:+ PyStr.join "" (map (fun p => p +:+ PyStr.NL) paragraphs)).
Proof.
  revert text. induction paragraphs as [|p ps IH]; intros text; cbn [map read_parts].
  - simpl. now rewrite append_nil_r.
  - rewrite IH, join_empty_cons. now rewrite !append_assoc.
Qed.

Lemma read_parts_failure (parts : list (string + string)) (text : string) :
  existsb (fun part => match part with inl _ => true | inr _ => false end) parts = true ->
  exists e, read_parts text parts = inl e.
Proof.
  revert text. induction parts as [|[e|p] parts IH]; intros text Hf; simpl in *.
  - discriminate.
  - now exists e.
  - now apply IH.
Qed.

(** X17: Reading is all or nothing: when the document cannot be opened, or
    any one of its parts cannot be read, the reader returns the empty
    text, whatever the other parts hold, and shows one error. *)
Theorem read_upload_all_or_nothing (file : upload) :
  match file with
  | inl _ => True
  | inr parts => existsb (fun part => match part with inl _ => true | inr _ => false end)
                         parts = true
  end ->
  exists e, read_upload what file = (EmptyString, [what +:+ e]).
Proof.
  unfold read_upload. destruct file as [e|parts]; intros Hf.
  - now exists e.
  - destruct (read_parts_failure parts "" Hf) as [e ->]. now exists e.
Qed.

Lemma split_lines_terminated (paragraphs : list string) :
  forallb (fun p => negb (PyStr.contains PyStr.NL p)) paragraphs = true ->
  PyStr.split PyStr.nl (PyStr.join "" (map (fun p => p +:+ PyStr.NL) paragraphs))
  = paragraphs ++ [EmptyString].
Proof.
  induction paragraphs as [|p ps IH]; intros Hp; [reflexivity|].
  simpl in Hp. apply andb_true_iff in Hp as [Hp Hps]. apply negb_true_iff in Hp.
  cbn [map]. rewrite join_empty_cons, append_assoc.
  change (PyStr.NL +:+ ?x) with (String PyStr.nl x).
  rewrite split_app, split_line, IH by assumption. reflexivity.
Qed.

Lemma split_parts_terminated (paragraphs : list string) :
  PyStr.split PyStr.nl (PyStr.join "" (map (fun p => p +:+ PyStr.NL) paragraphs))
  = concat (map (PyStr.split PyStr.nl) paragraphs) ++ [EmptyString].
Proof.
  induction paragraphs as [|p ps IH]; [reflexivity|].
  cbn [map concat]. rewrite join_empty_cons, append_assoc.
  change (PyStr.NL +:+ ?x) with (String PyStr.nl x).
  now rewrite split_app, IH, app_assoc.
Qed.

(** X18: When the document opens and every part is read, no error is shown
    and the text is the parts in order, each followed by a newline: its
    lines are the lines of the parts, in order, followed by one empty
    line.  If no part holds a newline, splitting the text at newlines
    gives the parts back, followed by one empty line. *)
Theorem read_upload_round_trip (paragraphs : list string) :
  exists text,
    read_upload what (inr (map inr paragraphs)) = (text, [])
    /\ text = PyStr.join "" (map (fun p => p +:+ PyStr.NL) paragraphs)
    /\ PyStr.split PyStr.nl text
       = concat (map (PyStr.split PyStr.nl) paragraphs) ++ [EmptyString]
    /\ (forallb (fun p => negb (PyStr.contains PyStr.NL p)) paragraphs = true ->
        PyStr.split PyStr.nl text = paragraphs ++ [EmptyString]).
Proof.
  unfold read_upload. rewrite read_parts_all. change ("" +:+ ?x) with x.
  eexists. split; [reflexivity|]. split; [reflexivity|]. split.
  - apply split_parts_terminated.
  - intros Hp. now apply split_lines_terminated.
Qed.

End Uploads.

(** Witness of [read_upload_all_or_nothing]. *)
Lemma read_upload_all_or_nothing_witness :
  exists e,
    extract_text_from_pdf (inr [inr "Page one."; inl "broken stream"; inr "Page three."])
    = (EmptyString, ["Error reading PDF: " +:+ e]).
Proof.
  apply (read_upload_all_or_nothing "Error reading PDF: "
           (inr [inr "Page one."; inl "broken stream"; inr "Page three."])).
  reflexivity.
Defined.

(** Witness of [read_upload_round_trip]: two paragraphs without a
    newline. *)
Lemma read_upload_round_trip_witness :
  forallb (fun p => negb (PyStr.contains PyStr.NL p))
          ["Chapter 1: Heat"; "Heat is energy."] = true
  /\ exists text,
       extract_text_from_docx (inr (map inr ["Chapter 1: Heat"; "Heat is energy."]))
       = (text, [])
       /\ PyStr.split PyStr.nl text = ["Chapter 1: Heat"; "Heat is energy."] ++ [EmptyString].
Proof.
  split; [reflexivity|].
  destruct (read_upload_round_trip "Error reading DOCX: "
              ["Chapter 1: Heat"; "Heat is energy."]) as (text & Hread & _ & _ & Hsplit).
  exists text. split; [exact Hread | apply Hsplit; reflexivity].
Defined.

(** * The layout of the paper *)

Section Layout.

Lemma option_lines_app (opts : list string) (p q : string) (j : nat) :
  option_lines (p +:+ q) j opts = p +:+ option_lines q j opts.
Proof.
  revert q j. induction opts as [|o opts IH]; intros q j; simpl; [reflexivity|].
  rewrite append_assoc. apply IH.
Qed.

Lemma mcq_lines_app (mcqs : list MCQ) (p q : string) (i : nat) :
  mcq_lines (p +:+ q) i mcqs = p +:+ mcq_lines q i mcqs.
Proof.
  revert q i. induction mcqs as [|m mcqs IH]; intros q i; simpl; [reflexivity|].
  rewrite append_assoc, option_lines_app, append_assoc. apply IH.
Qed.

Lemma question_lines_app (qs : list string) (p q : string) (i : nat) :
  question_lines (p +:+ q) i qs = p +:+ question_lines q i qs.
Proof.
  revert q i. induction qs as [|x qs IH]; intros q i; simpl; [reflexivity|].
  rewrite append_assoc. apply IH.
Qed.

Lemma format_question_paper_sections (today : string) (mcqs : list MCQ)
    (short_questions long_questions : list string) (template : option string) :
  format_question_paper today mcqs short_questions long_questions template
  = paper_header today template +:+ section_a mcqs +:+ section_b short_questions
      +:+ section_c long_questions.
Proof.
  unfold format_question_paper, paper_header, section_a, section_b, section_c.
  set (header := match usable_template template with
                 | Some t => t +:+ PyStr.NL +:+ PyStr.NL
                 | None => default_header today
                 end).
  destruct mcqs as [|m mcqs], short_questions as [|s ss], long_questions as [|l ls];
    rewrite ?append_nil_r; try reflexivity;
    repeat (rewrite ?mcq_lines_app, ?question_lines_app, ?append_assoc);
    reflexivity.
Qed.

(** X19: The paper is the header followed by sections A, B and C in this
    order, where the section of an empty list is the empty string: a
    section without items leaves no heading behind, and no section depends
    on the header or on the other sections. *)
Theorem format_question_paper_layout (today : string) (mcqs : list MCQ)
    (short_questions long_questions : list string) (template : option string) :
  format_question_paper today mcqs short_questions long_questions template
  = paper_header today template +:+ section_a mcqs +:+ section_b short_questions
      +:+ section_c long_questions.
Proof. intros. eapply format_question_paper_sections; eassumption. Qed.

Lemma question_lines_numbered (qs : list string) (paper : string) (i : nat) :
  question_lines paper i qs
  = paper +:+ PyStr.join "" (imap (fun k q => numbered (i + k) q) qs).
Proof.
  revert paper i. induction qs as [|q qs IH]; intros paper i.
  - simpl. now rewrite append_nil_r.
  - cbn [question_lines imap]. rewrite IH, join_empty_cons, Nat.add_0_r.
    assert (Himap : imap (fun k x => numbered (S i + k) x) qs
                    = imap ((fun k x => numbered (i + k) x) ∘ S) qs).
    { apply imap_ext. intros k x _. simpl. f_equal. lia. }
    rewrite Himap. unfold numbered at 2. now rewrite !append_assoc.
Qed.

(** X20: In sections B and C the questions come in list order, numbered from
    1 without a gap, each as "Q<number>. <question>" followed by an empty
    line. *)
Theorem sections_numbered_from_one (q : string) (qs : list string) :
  section_b (q :: qs)
  = PyStr.NL +:+ "SECTION B: SHORT ANSWER QUESTIONS" +:+ PyStr.NL +:+ rule
      +:+ PyStr.join "" (imap (fun k x => numbered (S k) x) (q :: qs))
  /\ section_c (q :: qs)
     = PyStr.NL +:+ "SECTION C: LONG ANSWER QUESTIONS" +:+ PyStr.NL +:+ rule
         +:+ PyStr.join "" (imap (fun k x => numbered (S k) x) (q :: qs)).
Proof.
  unfold section_b, section_c. rewrite !question_lines_numbered.
  rewrite !append_assoc. split; reflexivity.
Qed.

Lemma usable_template_blank (t : string) :
  visible t = false -> usable_template (Some t) = None.
Proof.
  intros Hv. unfold usable_template. destruct t as [|c t]; [reflexivity|].
  destruct (PyStr.strip (String c t)) eqn:Hs; [reflexivity|].
  assert (Hpos : 0 < PyStr.len (PyStr.strip (String c t))) by (rewrite Hs; simpl; lia).
  apply strip_visible in Hpos. congruence.
Qed.

(** X21: A template without a visible character, the empty one included, is
    ignored: the paper is the one built without a template, with the
    default header. *)
Theorem blank_template_ignored (today template : string) (mcqs : list MCQ)
    (short_questions long_questions : list string) :
  visible template = false ->
  format_question_paper today mcqs short_questions long_questions (Some template)
  = format_question_paper today mcqs short_questions long_questions None
  /\ PyStr.startswith (default_header today)
       (format_question_paper today mcqs short_questions long_questions (Some template))
     = true.
Proof.
  intros Hv. rewrite !format_question_paper_sections. unfold paper_header.
  rewrite (usable_template_blank template Hv). split; [reflexivity|].
  apply startswith_app.
Qed.

End Layout.

(** Witness of [blank_template_ignored]. *)
Lemma blank_template_ignored_witness :
  format_question_paper "2024-01-01" [] ["Define entropy."] [] (Some "   ")
  = format_question_paper "2024-01-01" [] ["Define entropy."] [] None
  /\ PyStr.startswith (default_header "2024-01-01")
       (format_question_paper "2024-01-01" [] ["Define entropy."] [] (Some "   "))
     = true.
Proof.
  apply (blank_template_ignored "2024-01-01" "   " [] ["Define entropy."] []).
  reflexivity.
Defined.

(** * The DOCX export *)

Section Docx.

Lemma startswith_visible (p s : string) :
  PyStr.startswith p s = true -> visible p = true -> visible s = true.
Proof.
  intros [r ->]%startswith_spec Hp. now rewrite visible_app, Hp.
Qed.

Lemma strip_empty_blank (s : string) : PyStr.strip s = "" -> visible s = false.
Proof.
  intros Hs. destruct (visible s) eqn:Hv; [|reflexivity].
  apply strip_visible in Hv. rewrite Hs in Hv. simpl in Hv. lia.
Qed.

Lemma strip_nonempty_visible (s : string) (c : ascii) (r : string) :
  PyStr.strip s = String c r -> visible s = true.
Proof.
  intros Hs. apply strip_visible. rewrite Hs. simpl. lia.
Qed.

Lemma blank_starts_nothing (p s : string) :
  visible p = true -> visible s = false -> PyStr.startswith p s = false.
Proof.
  intros Hp Hs. destruct (PyStr.startswith p s) eqn:Hst; [|reflexivity].
  pose proof (startswith_visible p s Hst Hp). congruence.
Qed.

Lemma question_not_section (s : string) :
  PyStr.startswith "Q" s = true -> PyStr.startswith "SECTION" s = false.
Proof.
  destruct s as [|c s]; [discriminate|]. simpl.
  rewrite andb_true_r. intros <-%Ascii.eqb_eq. reflexivity.
Qed.

Variable lines : list string.

Lemma flush_paragraph_ok (st : list block * list string) :
  docx_state_ok lines st -> Forall (block_from lines) (flush_paragraph (fst st) (snd st)).
Proof.
  intros [Hdoc Hcur]. unfold flush_paragraph.
  destruct (snd st) as [|p ps] eqn:Hs; [assumption|].
  apply Forall_app. split; [assumption|]. constructor; [|constructor].
  exists (p :: ps). split; [discriminate|]. now split.
Qed.

Lemma docx_line_ok (st : list block * list string) (line : string) :
  line ∈ lines -> docx_state_ok lines st -> docx_state_ok lines (docx_line st line).
Proof.
  intros Hline Hst. pose proof (flush_paragraph_ok st Hst) as Hflush.
  destruct st as [doc cur]. simpl in Hflush. unfold docx_line.
  destruct (PyStr.strip line) as [|c r] eqn:Hs.
  - split; [assumption | constructor].
  - pose proof (strip_nonempty_visible _ _ _ Hs) as Hv. rewrite <- Hs. clear Hs c r.
    destruct Hst as [Hdoc Hcur]. simpl in Hdoc, Hcur.
    destruct (PyStr.startswith "SECTION" line) eqn:Hsec;
      destruct (PyStr.startswith "Q" line) eqn:Hq;
      destruct (PyStr.startswith "=" line) eqn:He;
      cbn [orb negb]; (split; cbn [fst snd]);
      try constructor;
      try (apply Forall_app; split; [assumption|]; constructor; [|constructor]);
      try assumption.
    + right. now repeat split.
    + right. now repeat split.
    + right. now repeat split.
    + right. now repeat split.
    + now split.
    + now split.
    + exists line. split; [assumption|]. split; [|reflexivity].
      unfold plain_line. now rewrite Hv, Hsec, Hq, He.
Qed.

Lemma docx_line_counts (st : list block * list string) (line : string) :
  length (List.filter is_section_heading (fst (docx_line st line)))
  = length (List.filter is_section_heading (fst st))
    + (if PyStr.startswith "SECTION" line then 1 else 0)
  /\ length (List.filter is_list_number (fst (docx_line st line)))
     = length (List.filter is_list_number (fst st))
       + (if PyStr.startswith "Q" line then 1 else 0).
Proof.
  assert (Hflush : forall doc cur,
             length (List.filter is_section_heading (flush_paragraph doc cur))
             = length (List.filter is_section_heading doc)
             /\ length (List.filter is_list_number (flush_paragraph doc cur))
                = length (List.filter is_list_number doc)).
  { intros doc [|p ps]; simpl; [now split|].
    rewrite !List.filter_app, !length_app. simpl. lia. }
  destruct st as [doc cur]. unfold docx_line.
  destruct (Hflush doc cur) as [Hf1 Hf2].
  destruct (PyStr.strip line) as [|c r] eqn:Hs.
  - apply strip_empty_blank in Hs.
    rewrite !(blank_starts_nothing _ line) by (reflexivity || assumption).
    simpl. lia.
  - clear Hs.
    destruct (PyStr.startswith "Q" line) eqn:Hq;
      [rewrite (question_not_section line Hq)
      |destruct (PyStr.startswith "SECTION" line) eqn:Hsec];
      destruct (PyStr.startswith "=" line) eqn:He;
      cbn [orb negb fst];
      rewrite ?List.filter_app, ?length_app; cbn [List.filter is_section_heading
        is_list_number length]; lia.
Qed.

Lemma docx_fold_counts (ls : list string) (st : list block * list string) :
  length (List.filter is_section_heading (fst (fold_left docx_line ls st)))
  = length (List.filter is_section_heading (fst st))
    + length (List.filter (PyStr.startswith "SECTION") ls)
  /\ length (List.filter is_list_number (fst (fold_left docx_line ls st)))
     = length (List.filter is_list_number (fst st))
       + length (List.filter (PyStr.startswith "Q") ls).
Proof.
  revert st. induction ls as [|l ls IH]; intros st; [simpl; lia|].
  cbn [fold_left List.filter]. destruct (IH (docx_line st l)) as [H1 H2].
  destruct (docx_line_counts st l) as [H3 H4]. rewrite H1, H2, H3, H4.
  destruct (PyStr.startswith "SECTION" l), (PyStr.startswith "Q" l); simpl; lia.
Qed.

End Docx.

(** X22: Every block of the exported document is the title, a level-1
    heading made of a line that starts with "SECTION", a numbered-list item
    made of a line that starts with "Q", or a paragraph that joins, with
    blanks, the stripped forms of one or more lines that start with none of
    "SECTION", "Q" and "=".  A line that starts with "=" reaches no block. *)
Theorem create_docx_output_blocks (formatted_paper : string) :
  Forall (block_from (PyStr.split PyStr.nl formatted_paper))
         (create_docx_output formatted_paper).
Proof.
  unfold create_docx_output.
  set (lines := PyStr.split PyStr.nl formatted_paper).
  pose proof (fold_left_invariant docx_line (docx_state_ok lines) lines
                ([Heading "Question Paper" 0], [])) as Hinv.
  destruct (fold_left docx_line lines ([Heading "Question Paper" 0], [])) as [doc cur].
  apply (flush_paragraph_ok lines (doc, cur)). apply Hinv.
  - split; simpl; [|constructor]. constructor; [|constructor]. left. now split.
  - intros st line Hline Hst. now apply docx_line_ok.
Qed.

(** X23: The exported document has one level-1 heading for each line of the
    paper that starts with "SECTION" and one numbered-list item for each
    line that starts with "Q". *)
Theorem create_docx_output_counts (formatted_paper : string) :
  length (List.filter is_section_heading (create_docx_output formatted_paper))
  = length (List.filter (PyStr.startswith "SECTION") (PyStr.split PyStr.nl formatted_paper))
  /\ length (List.filter is_list_number (create_docx_output formatted_paper))
     = length (List.filter (PyStr.startswith "Q") (PyStr.split PyStr.nl formatted_paper)).
Proof.
  unfold create_docx_output.
  pose proof (docx_fold_counts (PyStr.split PyStr.nl formatted_paper)
                ([Heading "Question Paper" 0], [])) as [H1 H2].
  destruct (fold_left docx_line (PyStr.split PyStr.nl formatted_paper)
              ([Heading "Question Paper" 0], [])) as [doc cur].
  simpl in H1, H2. unfold flush_paragraph.
  destruct cur; rewrite ?List.filter_app, ?length_app; simpl; lia.
Qed.

Example create_docx_output_ex :
  create_docx_output
    (format_question_paper "2024-01-01" [sample_mcq] ["Define entropy."] [] (Some "PHYSICS"))
  = [ Heading "Question Paper" 0;
      Paragraph "PHYSICS";
      Heading "SECTION A: MULTIPLE CHOICE QUESTIONS" 1;
      ListNumber "Q1. Which law conserves energy?";
      Paragraph "A. First B. Second C. Third D. Zeroth";
      Heading "SECTION B: SHORT ANSWER QUESTIONS" 1;
      ListNumber "Q1. Define entropy." ].
Proof. vm_compute. reflexivity. Qed.

(** * The handler of the generate button *)

Lemma blank_strip (s : string) : visible s = false -> PyStr.strip s = "".
Proof.
  intros Hv. destruct (PyStr.strip s) as [|c r] eqn:Hs; [reflexivity|].
  apply strip_nonempty_visible in Hs. congruence.
Qed.

Lemma visible_strip (s : string) :
  visible s = true -> exists c r, PyStr.strip s = String c r.
Proof.
  intros Hv%strip_visible. destruct (PyStr.strip s) as [|c r]; [simpl in Hv; lia|].
  now exists c, r.
Qed.

Lemma template_heads_paper (today template : string) (mcqs : list MCQ)
    (short_questions long_questions : list string) :
  visible template = true ->
  PyStr.startswith template
    (format_question_paper today mcqs short_questions long_questions (Some template)) = true.
Proof.
  intros Hv. unfold format_question_paper.
  rewrite (usable_template_strip template) by now apply strip_visible.
  set (p0 := template +:+ PyStr.NL +:+ PyStr.NL).
  assert (H0 : PyStr.startswith template p0 = true) by apply startswith_app.
  destruct mcqs, short_questions, long_questions;
    repeat first [ assumption
                 | apply question_lines_begins
                 | apply mcq_lines_begins
                 | apply startswith_app_l ].
Qed.

Section HandlerFacts.

Context `{Nltk}.
Variable parse_mcq_response : string -> Z -> string + list MCQ.
Variable parse_question_lines : string -> Z -> string + list string.
Variable self : QuestionPaperGenerator.
Variable today : string.
Variables (topic_input full_text template_text : string).
Variables (num_mcqs num_short num_long : Z).

(** X24: A request with a blank topic, or with a text that has no visible
    character, is turned down with an error message: no paper is built,
    no generator runs and the random source is left as it was. *)
Theorem blank_request_rejected (g : rng) :
  visible topic_input = false \/ visible full_text = false ->
  exists e,
    generate_paper parse_mcq_response parse_question_lines self today
                   topic_input full_text template_text num_mcqs num_short num_long g
    = Ok (inl e) g
    /\ (e = no_topic_error \/ e = no_text_error).
Proof.
  intros Hblank. unfold generate_paper.
  destruct (visible topic_input) eqn:Ht.
  - destruct Hblank as [Hb|Hb]; [discriminate|].
    destruct (visible_strip topic_input Ht) as (c & r & ->).
    rewrite (blank_strip full_text Hb). exists no_text_error. split; [reflexivity | now right].
  - rewrite (blank_strip topic_input Ht). exists no_topic_error.
    split; [reflexivity | now left].
Qed.

Lemma when_positive_returns {A} (n : Z) (m : M (outcome (list A)))
    (P : outcome (list A) -> Prop) :
  returns m P -> P (quiet []) -> returns (when_positive n m) P.
Proof.
  intros Hm Hnil. unfold when_positive. destruct (0 <? n)%Z; [assumption|].
  now apply returns_ret.
Qed.

Lemma with_fallback_offline {A} (rq : ChatRequest)
    (parse : string -> Z -> string + list A) (fallback : M (list A)) (P : list A -> Prop) :
  groq_client self = None ->
  returns fallback P ->
  returns (with_fallback self rq parse fallback) (fun o => warnings o = [] /\ P (value o)).
Proof.
  intros Hnone Hret. unfold with_fallback. rewrite Hnone.
  eapply returns_bind; [exact Hret|]. intros r Hr. now apply returns_ret.
Qed.

(** X25: Without a Groq client, a request with a visible topic and text always
    ends with a paper: nothing is raised, the paper is the formatted form
    of the stored question lists, no list is longer than its requested
    count, the only message that can be shown is the general-content
    warning, and the paper begins with the template when the template has
    a visible character. *)
Theorem offline_request_gives_paper :
  groq_client self = None ->
  visible topic_input = true ->
  visible full_text = true ->
  returns (generate_paper parse_mcq_response parse_question_lines self today
                          topic_input full_text template_text num_mcqs num_short num_long)
    (fun result =>
       exists s,
         result = inr s
         /\ formatted_paper s
            = format_question_paper today (session_mcqs s) (session_short s) (session_long s)
                                    (Some template_text)
         /\ length (session_mcqs s) <= Z.to_nat num_mcqs
         /\ length (session_short s) <= Z.to_nat num_short
         /\ length (session_long s) <= Z.to_nat num_long
         /\ (messages s = [] \/ messages s = [general_content_warning])
         /\ (visible template_text = true ->
             PyStr.startswith template_text (formatted_paper s) = true)).
Proof.
  intros Hnone Ht Hx. unfold generate_paper.
  destruct (visible_strip topic_input Ht) as (c1 & r1 & ->).
  destruct (visible_strip full_text Hx) as (c2 & r2 & ->).
  set (located := find_topic_content full_text topic_input).
  set (chosen := match PyStr.strip located with
                 | EmptyString => (PyStr.take 5000 full_text, [general_content_warning])
                 | _ => (located, [])
                 end).
  assert (Hshown : snd chosen = [] \/ snd chosen = [general_content_warning]).
  { unfold chosen. destruct (PyStr.strip located); [now right | now left]. }
  destruct chosen as [topic_content shown]. simpl in Hshown.
  eapply returns_bind.
  { apply (when_positive_returns _ _
             (fun o => warnings o = [] /\ length (value o) <= Z.to_nat num_mcqs));
      [|simpl; split; [reflexivity | lia]].
    eapply returns_weaken;
      [apply with_fallback_offline;
         [assumption | apply (generate_mcqs_fallback_spec (stop_words self))]|].
    intros o (Hw & _ & Hl). split; [assumption|]. rewrite Hl. apply length_filter_take_le. }
  intros mcqs (Hw1 & Hl1).
  eapply returns_bind.
  { apply (when_positive_returns _ _
             (fun o => warnings o = [] /\ length (value o) <= Z.to_nat num_short));
      [|simpl; split; [reflexivity | lia]].
    eapply returns_weaken;
      [apply with_fallback_offline;
         [assumption | apply generate_short_questions_fallback_spec]|].
    intros o (Hw & Hl). split; [assumption|]. rewrite Hl. apply length_filter_take_le. }
  intros shorts (Hw2 & Hl2).
  eapply returns_bind.
  { apply (when_positive_returns _ _
             (fun o => warnings o = [] /\ length (value o) <= Z.to_nat num_long));
      [|simpl; split; [reflexivity | lia]].
    eapply returns_weaken;
      [apply with_fallback_offline;
         [assumption | apply (generate_long_questions_fallback_spec (stop_words self))]|].
    intros o (Hw & Hl). split; [assumption|]. rewrite Hl. lia. }
  intros longs (Hw3 & Hl3).
  apply returns_ret. eexists. split; [reflexivity|].
  cbn [formatted_paper session_mcqs session_short session_long messages].
  split; [reflexivity|].
  repeat (split; [assumption|]).
  split.
  - rewrite Hw1, Hw2, Hw3, !app_nil_r. exact Hshown.
  - intros Hv. now apply template_heads_paper.
Qed.

(** X26: When no question of any kind is requested, the paper is the header
    alone and all three lists are empty, whatever client is configured:
    no generator is called and the random source is left as it was. *)
Theorem nothing_requested_header_only (g : rng) :
  visible topic_input = true ->
  visible full_text = true ->
  (num_mcqs <= 0)%Z -> (num_short <= 0)%Z -> (num_long <= 0)%Z ->
  exists shown,
    generate_paper parse_mcq_response parse_question_lines self today
                   topic_input full_text template_text num_mcqs num_short num_long g
    = Ok (inr {| formatted_paper := paper_header today (Some template_text);
                 session_mcqs := []; session_short := []; session_long := [];
                 messages := shown |}) g
    /\ (shown = [] \/ shown = [general_content_warning]).
Proof.
  intros Ht Hx H1 H2 H3. unfold generate_paper.
  destruct (visible_strip topic_input Ht) as (c1 & r1 & ->).
  destruct (visible_strip full_text Hx) as (c2 & r2 & ->).
  unfold when_positive.
  destruct (Z.ltb_spec 0 num_mcqs); [lia|].
  destruct (Z.ltb_spec 0 num_short); [lia|].
  destruct (Z.ltb_spec 0 num_long); [lia|].
  destruct (PyStr.strip (find_topic_content full_text topic_input)).
  - exists [general_content_warning]. split; [reflexivity | now right].
  - exists []. split; [reflexivity | now left].
Qed.

End HandlerFacts.

(** Witness of [blank_request_rejected]: a topic of three blanks. *)
Lemma blank_request_rejected_witness :
  (visible "   " = false \/ visible cell_text = false)
  /\ exists e,
       @generate_paper Plain.nltk no_mcqs no_lines (online numbered_answer) "2024-01-01"
                       "   " cell_text "" 2 2 2 [3; 1; 4]
       = Ok (inl e) [3; 1; 4]
       /\ (e = no_topic_error \/ e = no_text_error).
Proof.
  split; [left; reflexivity|].
  apply (@blank_request_rejected Plain.nltk no_mcqs no_lines (online numbered_answer)
           "2024-01-01" "   " cell_text "" 2 2 2 [3; 1; 4]).
  left. reflexivity.
Defined.

(** Witness of [offline_request_gives_paper]: the cell text, no client,
    one question of each kind and a one-line template. *)
Lemma offline_request_gives_paper_witness :
  groq_client {| stop_words := Plain.stops; groq_client := None |} = None
  /\ visible "cell" = true
  /\ visible cell_text = true
  /\ returns
       (@generate_paper Plain.nltk no_mcqs no_lines
          {| stop_words := Plain.stops; groq_client := None |} "2024-01-01"
          "cell" cell_text "PHYSICS" 1 1 1)
       (fun result =>
          exists s,
            result = inr s
            /\ formatted_paper s
               = format_question_paper "2024-01-01" (session_mcqs s) (session_short s)
                                       (session_long s) (Some "PHYSICS")
            /\ length (session_mcqs s) <= Z.to_nat 1
            /\ length (session_short s) <= Z.to_nat 1
            /\ length (session_long s) <= Z.to_nat 1
            /\ (messages s = [] \/ messages s = [general_content_warning])
            /\ (visible "PHYSICS" = true ->
                PyStr.startswith "PHYSICS" (formatted_paper s) = true)).
Proof.
  split; [reflexivity|]. split; [reflexivity|]. split; [reflexivity|].
  apply (@offline_request_gives_paper Plain.nltk no_mcqs no_lines
           {| stop_words := Plain.stops; groq_client := None |} "2024-01-01"
           "cell" cell_text "PHYSICS" 1 1 1); reflexivity.
Defined.

(** Witness of [nothing_requested_header_only]: all three counts at 0,
    with a client that would answer. *)
Lemma nothing_requested_header_only_witness :
  visible "cell" = true
  /\ visible cell_text = true
  /\ (0 <= 0)%Z
  /\ exists shown,
       @generate_paper Plain.nltk no_mcqs no_lines (online numbered_answer) "2024-01-01"
                       "cell" cell_text "PHYSICS" 0 0 0 [3; 1; 4]
       = Ok (inr {| formatted_paper := paper_header "2024-01-01" (Some "PHYSICS");
                    session_mcqs := []; session_short := []; session_long := [];
                    messages := shown |}) [3; 1; 4]
       /\ (shown = [] \/ shown = [general_content_warning]).
Proof.
  split; [reflexivity|]. split; [reflexivity|]. split; [lia|].
  apply (@nothing_requested_header_only Plain.nltk no_mcqs no_lines (online numbered_answer)
           "2024-01-01" "cell" cell_text "PHYSICS" 0 0 0 [3; 1; 4]);
    first [reflexivity | lia].
Defined.
